(** * Task_manager: the scheduling engine, embedded and verified

    The development follows the Python packages of the repository:

    - [utilities]          utils/utilities.py        (working-day arithmetic)
    - [Resource]           src/models/resource.py    (availability calendar)
    - [Task]               src/models/task.py        (task graph, assignments)
    - [Project]            src/models/project.py     (critical path, aggregates)
    - [ProjectController]  src/controllers/project_controller.py

    Modelling conventions.

    - A [datetime] is its proleptic Gregorian day ordinal
      ([datetime.toordinal()]), an unbounded integer; the time of day is
      not modelled.  [timedelta(days=n)] is the integer [n].
    - A Python [float] is an exact rational ([Q]); comparisons are the
      rational ones and [==] on floats is [Qeq].  Every concrete input used
      below is a dyadic rational, on which binary floating point computes
      the same values.
    - Objects with identity (tasks, resources) live in a store and are
      named by an address ([ref]); lists of objects are lists of addresses.
      Neither class defines [__eq__], so [in], [remove] and [==] on them
      compare addresses.
    - An assignment is a [dict]; no function embedded here writes into one
      after its creation, so it is embedded by value, and [in] / [remove]
      compare it by content, as [dict.__eq__] does.
    - A call either returns or raises; the store keeps every write made
      before the exception.
    - resource.py and project_controller.py use the name [timedelta]
      without importing it; the functions that evaluate it take the binding
      of that name as a parameter (see [namespaces]), and the properties
      say for which bindings they hold. *)

From Stdlib Require Import ZArith QArith Qminmax Lia Lqa Bool String Sorted.
From stdpp Require Import base option list gmap.

Local Open Scope Z_scope.

(** ** Outcomes and the state-and-exception monad *)

Inductive exn : Set :=
  | NameError          (* a free name that the module namespace does not bind *)
  | AttributeError     (* [d.hours] on a dict *)
  | TypeError          (* arithmetic or comparison with [None] *)
  | ValueError         (* [max()] of an empty sequence *)
  | ZeroDivisionError
  | KeyError
  | InvalidRef.        (* not a Python exception: the model's guard for an
                          address that holds no object *)

Inductive outcome (A : Type) : Type :=
  | Returns (a : A)
  | Raises (e : exn).
Arguments Returns {A} a.
Arguments Raises {A} e.

Definition M (S A : Type) : Type := S -> outcome A * S.

Definition ret {S A} (a : A) : M S A := fun s => (Returns a, s).
Definition raise {S A} (e : exn) : M S A := fun s => (Raises e, s).
Definition bind {S A B} (m : M S A) (k : A -> M S B) : M S B :=
  fun s => match m s with
           | (Returns a, s') => k a s'
           | (Raises e, s') => (Raises e, s')
           end.
Definition get {S} : M S S := fun s => (Returns s, s).
Definition put {S} (s : S) : M S unit := fun _ => (Returns tt, s).
Definition gets {S A} (f : S -> A) : M S A := fun s => (Returns (f s), s).
Definition modify {S} (f : S -> S) : M S unit := fun s => (Returns tt, f s).
Definition lift {S A} (o : outcome A) : M S A := fun s => (o, s).

Declare Scope py_scope.
Delimit Scope py_scope with py.
Notation "x <- m ;; k" := (bind m (fun x => k))
  (at level 100, m at next level, right associativity) : py_scope.
Notation "m ;;; k" := (bind m (fun _ => k))
  (at level 100, right associativity) : py_scope.
Local Open Scope py_scope.

(** [for x in l: body x] *)
Fixpoint for_each {S A} (l : list A) (body : A -> M S unit) : M S unit :=
  match l with
  | [] => ret tt
  | x :: l' => body x ;;; for_each l' body
  end.

(** A list comprehension or generator whose element expression may raise. *)
Fixpoint map_m {S A B} (f : A -> M S B) (l : list A) : M S (list B) :=
  match l with
  | [] => ret []
  | x :: l' => y <- f x ;; ys <- map_m f l' ;; ret (y :: ys)
  end.

(** A loop over a list that threads local variables [acc]. *)
Fixpoint fold_m {S A B} (f : B -> A -> M S B) (l : list A) (acc : B) : M S B :=
  match l with
  | [] => ret acc
  | x :: l' => acc' <- f acc x ;; fold_m f l' acc'
  end.

(** ** Dates *)

Definition datetime : Set := Z.

(** [date.weekday()]: Monday is 0; ordinal 1 (0001-01-01) is a Monday. *)
Definition weekday (d : datetime) : Z := (d + 6) mod 7.

(** Number of times the body of [while current <= end: ...; current += 1 day]
    runs when it starts at [start]. *)
Definition days_between (start end_ : datetime) : nat := Z.to_nat (end_ - start + 1).

(** ** utils/utilities.py *)

Module utilities.

(** The loop of [get_working_days], [n] iterations from [current_date]. *)
Fixpoint get_working_days_loop (n : nat) (current_date : datetime) (days : Z) : Z :=
  match n with
  | O => days
  | S n' =>
      let days := if weekday current_date <? 5 then days + 1 else days in
      get_working_days_loop n' (current_date + 1) days
  end.

Definition get_working_days (start_date end_date : datetime) : Z :=
  get_working_days_loop (days_between start_date end_date) start_date 0.

(** The loop of [add_working_days].  Its trip count is not known on
    entry, so the recursion is on [fuel]; [None] means that the fuel ran
    out before the loop condition failed. *)
Fixpoint add_working_days_loop (fuel : nat) (current_date : datetime)
    (remaining_days : Z) : option datetime :=
  if remaining_days >? 0 then
    match fuel with
    | O => None
    | S fuel' =>
        let current_date := current_date + 1 in
        if weekday current_date <? 5
        then add_working_days_loop fuel' current_date (remaining_days - 1)
        else add_working_days_loop fuel' current_date remaining_days
    end
  else Some current_date.

Definition add_working_days (fuel : nat) (date : datetime) (days : Z) : option datetime :=
  add_working_days_loop fuel date days.

Fixpoint get_date_range_loop (n : nat) (current_date : datetime) : list datetime :=
  match n with
  | O => []
  | S n' => current_date :: get_date_range_loop n' (current_date + 1)
  end.

Definition get_date_range (start_date end_date : datetime) : list datetime :=
  get_date_range_loop (days_between start_date end_date) start_date.

Definition is_working_day (date : datetime) : bool := weekday date <? 5.

(** The dict that [calculate_date_difference] returns. *)
Record date_difference : Set := DateDifference {
  total_days : Z;
  working_days : Z;
  weeks : Z;
  remaining_days : Z;
  weekends : Z
}.

Definition calculate_date_difference (start_date end_date : datetime)
    (include_working_days : bool) : date_difference :=
  let total_days := end_date - start_date in
  let working_days := if include_working_days
                      then get_working_days start_date end_date else total_days in
  let weeks := total_days / 7 in
  let remaining_days := total_days mod 7 in
  DateDifference total_days working_days weeks remaining_days
    (if include_working_days then total_days - working_days else 0).

(** *** Calendar dates

    The three functions below read [date.year] and [date.month] and build
    dates with [replace] and [datetime(y, m, 1)].  Their argument is given
    by its fields; the dates they return are ordinals, as everywhere else.
    The ordinal of a date is computed as datetime.py does. *)

Record date : Set := Date { year : Z; month : Z; day : Z }.

Definition is_leap (y : Z) : bool :=
  (y mod 4 =? 0) && (negb (y mod 100 =? 0) || (y mod 400 =? 0)).

Definition days_in_month (y m : Z) : Z :=
  if m =? 2 then (if is_leap y then 29 else 28)
  else if (m =? 4) || (m =? 6) || (m =? 9) || (m =? 11) then 30 else 31.

Definition days_before_year (y : Z) : Z :=
  (y - 1) * 365 + (y - 1) / 4 - (y - 1) / 100 + (y - 1) / 400.

(** [_DAYS_BEFORE_MONTH[m]], the running sum of the month lengths of a
    common year. *)
Definition days_before_month_table (m : Z) : Z :=
  nth (Z.to_nat m) [0; 0; 31; 59; 90; 120; 151; 181; 212; 243; 273; 304; 334] 0.

Definition days_before_month (y m : Z) : Z :=
  days_before_month_table m + (if (2 <? m) && is_leap y then 1 else 0).

Definition ymd2ord (y m d : Z) : datetime :=
  days_before_year y + days_before_month y m + d.

Definition toordinal (dt : date) : datetime := ymd2ord (year dt) (month dt) (day dt).

(** [datetime(y, m, d)] and [date.replace(...)]: [ValueError] outside
    the years 1..9999, the months 1..12 and the days of the month. *)
Definition make_datetime (y m d : Z) : outcome datetime :=
  if (1 <=? y) && (y <=? 9999) && (1 <=? m) && (m <=? 12)
     && (1 <=? d) && (d <=? days_in_month y m)
  then Returns (ymd2ord y m d) else Raises ValueError.

(** A computation that only raises: the outcome monad. *)
Definition obind {A B} (o : outcome A) (k : A -> outcome B) : outcome B :=
  match o with
  | Returns a => k a
  | Raises e => Raises e
  end.

Definition get_month_boundaries (dt : date) : outcome (datetime * datetime) :=
  obind (make_datetime (year dt) (month dt) 1) (fun first_day =>
  obind (if month dt =? 12
         then obind (make_datetime (year dt + 1) 1 1) (fun d => Returns (d - 1))
         else obind (make_datetime (year dt) (month dt + 1) 1)
                (fun d => Returns (d - 1)))
        (fun last_day => Returns (first_day, last_day))).

Definition get_fiscal_year_dates (dt : date) (fiscal_start_month : Z)
    : outcome (datetime * datetime) :=
  if fiscal_start_month <=? month dt then
    obind (make_datetime (year dt) fiscal_start_month 1) (fun start_date =>
    obind (make_datetime (year dt + 1) fiscal_start_month 1) (fun d =>
    Returns (start_date, d - 1)))
  else
    obind (make_datetime (year dt - 1) fiscal_start_month 1) (fun start_date =>
    obind (make_datetime (year dt) fiscal_start_month 1) (fun d =>
    Returns (start_date, d - 1))).

Definition get_quarter_dates (dt : date) : outcome (datetime * datetime) :=
  let quarter := (month dt - 1) / 3 in
  let start_month := quarter * 3 + 1 in
  obind (make_datetime (year dt) start_month 1) (fun start_date =>
  obind (if start_month + 2 =? 12
         then obind (make_datetime (year dt + 1) 1 1) (fun d => Returns (d - 1))
         else obind (make_datetime (year dt) (start_month + 3) 1)
                (fun d => Returns (d - 1)))
        (fun end_date => Returns (start_date, end_date))).

End utilities.

(** ** Python numbers *)

Definition Qltb (x y : Q) : bool := negb (Qle_bool y x).

(** [sum(xs)] over floats. *)
Definition py_sum (xs : list Q) : Q := fold_left Qplus xs 0%Q.

(** [sum(xs)] over ints. *)
Definition py_sum_int (xs : list Z) : Z := fold_left Z.add xs 0.

(** [int(x)] on a float: truncation towards zero. *)
Definition py_int (x : Q) : Z := Z.quot (Qnum x) (Zpos (Qden x)).

(** [max(xs)] over values that are a date or [None]: an empty sequence
    raises [ValueError], a single item is returned without any comparison,
    and comparing with [None] raises [TypeError]. *)
Fixpoint py_max_dates_from (best : option datetime) (xs : list (option datetime))
    : outcome (option datetime) :=
  match xs with
  | [] => Returns best
  | x :: xs' =>
      match x, best with
      | Some d, Some b => py_max_dates_from (Some (if b <? d then d else b)) xs'
      | _, _ => Raises TypeError
      end
  end.

Definition py_max_dates (xs : list (option datetime)) : outcome (option datetime) :=
  match xs with
  | [] => Raises ValueError
  | x :: xs' => py_max_dates_from x xs'
  end.

(** [max(xs)] over ints. *)
Definition py_max_int (xs : list Z) : outcome Z :=
  match xs with
  | [] => Raises ValueError
  | x :: xs' => Returns (fold_left Z.max xs' x)
  end.

(** ** Module namespaces

    resource.py and project_controller.py both start with
    [from datetime import datetime] and nothing else from that module, yet
    their bodies call [timedelta(days=...)].  Python resolves a free name
    when the statement runs, so whether such a statement yields a value or
    raises [NameError] depends on the module namespace at that moment.  The
    embedding takes that binding as a parameter: [shipped] is the namespace
    the files create on import; [patched] is the one in which the name is
    bound to [datetime.timedelta].  task.py and utilities.py import the
    name themselves. *)

Record namespaces : Set := Namespaces {
  resource_py_timedelta : bool;
  project_controller_py_timedelta : bool
}.

Definition shipped : namespaces := Namespaces false false.
Definition patched : namespaces := Namespaces true true.

(** The expression [timedelta(days=n)], evaluated in a namespace where the
    name is [bound] or not. *)
Definition timedelta (bound : bool) (n : Z) : outcome Z :=
  if bound then Returns n else Raises NameError.

(** [while current_date <= end_date: <body>; current_date += timedelta(days=1)],
    with the local variables of the body threaded through [acc].  [n] is
    the trip count [days_between current_date end_date]. *)
Fixpoint while_days {S A} (bound : bool) (n : nat) (current_date : datetime) (acc : A)
    (body : datetime -> A -> M S A) : M S A :=
  match n with
  | O => ret acc
  | S n' =>
      acc' <- body current_date acc ;;
      delta <- lift (timedelta bound 1) ;;
      while_days bound n' (current_date + delta) acc' body
  end.

(** ** Data model *)

Definition ref : Set := nat.

(** The assignment dict built by [Task.assign_resource]:
    keys 'resource', 'units', 'start_date', 'end_date', 'hours'. *)
Record assignment : Set := Assignment {
  a_resource : ref;
  a_units : Q;
  a_start_date : datetime;
  a_end_date : datetime;
  a_hours : Q
}.

(** [a == b] on two assignment dicts. *)
Definition assignment_eqb (a b : assignment) : bool :=
  Nat.eqb (a_resource a) (a_resource b) && Qeq_bool (a_units a) (a_units b)
  && Z.eqb (a_start_date a) (a_start_date b) && Z.eqb (a_end_date a) (a_end_date b)
  && Qeq_bool (a_hours a) (a_hours b).

(** [l.remove(x)]: drops the first element equal to [x]; [None] stands for
    the [ValueError] of a missing element.  Where the source guards the
    call with [if x in l], the guard is the test for [Some]. *)
Fixpoint py_remove {A} (eqb : A -> A -> bool) (x : A) (l : list A) : option (list A) :=
  match l with
  | [] => None
  | y :: l' => if eqb x y then Some l' else cons y <$> py_remove eqb x l'
  end.

(** class Resource (fields [id], [name], [assignments] carry the prefix [r_]). *)
Record resource : Type := Resource_ {
  r_id : Z;
  r_name : string;
  cost_rate : Q;
  availability : Q;
  r_assignments : list assignment;
  calendar : gmap Z Q;
  skills : list string
}.

(** class Task (fields [id], [name], [assignments] carry the prefix [t_]). *)
Record task : Set := Task_ {
  t_id : Z;
  t_name : string;
  duration : Z;
  start_date : option datetime;
  completion_percentage : Q;
  priority : Z;
  notes : string;
  predecessors : list ref;
  successors : list ref;
  t_assignments : list assignment;
  early_start : Z;
  early_finish : Z;
  late_start : Z;
  late_finish : Z
}.

(** class Project.  [baseline] keeps the two lists of triples of
    [save_baseline]; its time stamp is not modelled. *)
Record project : Set := Project_ {
  p_name : string;
  p_start_date : datetime;
  p_tasks : list ref;
  p_resources : list ref;
  baseline : option (list (string * option datetime * Z) * list (string * Q * Q));
  modified : bool
}.

(** What [copy.deepcopy(self.project)] captures: the project and every
    object reachable from it. *)
Record snapshot : Type := Snapshot {
  s_tasks : gmap ref task;
  s_resources : gmap ref resource;
  s_project : project
}.

(** The object store together with the controller's own fields. *)
Record world : Type := World {
  w_tasks : gmap ref task;
  w_resources : gmap ref resource;
  w_project : project;
  undo_stack : list snapshot;
  redo_stack : list snapshot
}.

(** *** Field updates *)

Definition set_calendar (r : resource) (c : gmap Z Q) : resource :=
  Resource_ (r_id r) (r_name r) (cost_rate r) (availability r) (r_assignments r) c (skills r).
Definition set_r_assignments (r : resource) (l : list assignment) : resource :=
  Resource_ (r_id r) (r_name r) (cost_rate r) (availability r) l (calendar r) (skills r).

Definition set_predecessors (t : task) (l : list ref) : task :=
  Task_ (t_id t) (t_name t) (duration t) (start_date t) (completion_percentage t)
    (priority t) (notes t) l (successors t) (t_assignments t)
    (early_start t) (early_finish t) (late_start t) (late_finish t).
Definition set_successors (t : task) (l : list ref) : task :=
  Task_ (t_id t) (t_name t) (duration t) (start_date t) (completion_percentage t)
    (priority t) (notes t) (predecessors t) l (t_assignments t)
    (early_start t) (early_finish t) (late_start t) (late_finish t).
Definition set_t_assignments (t : task) (l : list assignment) : task :=
  Task_ (t_id t) (t_name t) (duration t) (start_date t) (completion_percentage t)
    (priority t) (notes t) (predecessors t) (successors t) l
    (early_start t) (early_finish t) (late_start t) (late_finish t).
Definition set_start_date (t : task) (d : option datetime) : task :=
  Task_ (t_id t) (t_name t) (duration t) d (completion_percentage t)
    (priority t) (notes t) (predecessors t) (successors t) (t_assignments t)
    (early_start t) (early_finish t) (late_start t) (late_finish t).
Definition set_early (t : task) (es ef : Z) : task :=
  Task_ (t_id t) (t_name t) (duration t) (start_date t) (completion_percentage t)
    (priority t) (notes t) (predecessors t) (successors t) (t_assignments t)
    es ef (late_start t) (late_finish t).
Definition set_late (t : task) (ls lf : Z) : task :=
  Task_ (t_id t) (t_name t) (duration t) (start_date t) (completion_percentage t)
    (priority t) (notes t) (predecessors t) (successors t) (t_assignments t)
    (early_start t) (early_finish t) ls lf.

(** Every write to the project's lists is followed by [self.modified = True]. *)
Definition set_p_tasks (p : project) (l : list ref) : project :=
  Project_ (p_name p) (p_start_date p) l (p_resources p) (baseline p) true.
Definition set_p_resources (p : project) (l : list ref) : project :=
  Project_ (p_name p) (p_start_date p) (p_tasks p) l (baseline p) true.

Definition set_w_tasks (w : world) (m : gmap ref task) : world :=
  World m (w_resources w) (w_project w) (undo_stack w) (redo_stack w).
Definition set_w_resources (w : world) (m : gmap ref resource) : world :=
  World (w_tasks w) m (w_project w) (undo_stack w) (redo_stack w).
Definition set_w_project (w : world) (p : project) : world :=
  World (w_tasks w) (w_resources w) p (undo_stack w) (redo_stack w).

(** *** Access to the store *)

Definition task_get (r : ref) : M world task :=
  fun w => match w_tasks w !! r with
           | Some t => (Returns t, w)
           | None => (Raises InvalidRef, w)
           end.

Definition task_modify (r : ref) (f : task -> task) : M world unit :=
  fun w => match w_tasks w !! r with
           | Some t => (Returns tt, set_w_tasks w (<[r := f t]> (w_tasks w)))
           | None => (Raises InvalidRef, w)
           end.

Definition resource_get (r : ref) : M world resource :=
  fun w => match w_resources w !! r with
           | Some x => (Returns x, w)
           | None => (Raises InvalidRef, w)
           end.

(** Runs a method of class Resource on the object at address [r]; what the
    method wrote to [self] before returning or raising stays in the store. *)
Definition on_resource {A} (r : ref) (m : M resource A) : M world A :=
  fun w => match w_resources w !! r with
           | Some x => let '(o, x') := m x in
                       (o, set_w_resources w (<[r := x']> (w_resources w)))
           | None => (Raises InvalidRef, w)
           end.

(** ** src/models/resource.py *)

Module Resource.

(** The field values set by [__init__]; the class counter supplies [id]. *)
Definition init (id : Z) (name : string) (cost_rate availability : Q) : resource :=
  Resource_ id name cost_rate availability [] ∅ [].

Definition get_availability (self : resource) (date : datetime) : Q :=
  match calendar self !! date with
  | Some v => v
  | None => if weekday date <? 5 then availability self else 0%Q
  end.

Definition set_custom_availability (date : datetime) (availability : Q) : M resource unit :=
  modify (fun self =>
    set_calendar self (<[date := Qmax 0 (Qmin 1 availability)]> (calendar self))).

Definition clear_custom_availability (date : datetime) : M resource unit :=
  modify (fun self => set_calendar self (delete date (calendar self))).

(** The three statements that [_update_calendar] runs for one date. *)
Definition update_calendar_day (units : Q) (current_date : datetime) (self : resource)
    : resource :=
  let cal := calendar self in
  let cal := match cal !! current_date with
             | Some _ => cal
             | None => <[current_date := availability self]> cal
             end in
  let cal := alter (fun v => v - units)%Q current_date cal in
  let cal := alter (fun v => Qmax 0 (Qmin 1 v)) current_date cal in
  set_calendar self cal.

Section Namespace.
Variable ns : namespaces.

Definition _update_calendar (a : assignment) (remove : bool) : M resource unit :=
  let units := if remove then (- a_units a)%Q else a_units a in
  while_days (resource_py_timedelta ns)
    (days_between (a_start_date a) (a_end_date a)) (a_start_date a) tt
    (fun current_date _ => modify (update_calendar_day units current_date)).

Definition add_assignment (a : assignment) : M resource unit :=
  modify (fun self => set_r_assignments self (r_assignments self ++ [a])) ;;;
  _update_calendar a false.

Definition remove_assignment (a : assignment) : M resource unit :=
  self <- get ;;
  match py_remove assignment_eqb a (r_assignments self) with
  | Some l =>
      modify (fun self => set_r_assignments self l) ;;;
      _update_calendar a true
  | None => ret tt
  end.

(** The hours assigned on one date: the generator inside [sum]. *)
Definition assigned_hours (self : resource) (current_date : datetime) : Q :=
  py_sum (map (fun a => a_units a * 8)%Q
            (List.filter (fun a => (a_start_date a <=? current_date)
                                   && (current_date <=? a_end_date a))
                         (r_assignments self))).

Definition get_utilization (start_date end_date : datetime) : M resource Q :=
  totals <- while_days (resource_py_timedelta ns)
    (days_between start_date end_date) start_date (0%Q, 0%Q)
    (fun current_date '(total_available_hours, total_assigned_hours) =>
       self <- get ;;
       let availability := get_availability self current_date in
       ret ((total_available_hours + availability * 8)%Q,
            (total_assigned_hours + assigned_hours self current_date)%Q)) ;;
  let '(total_available_hours, total_assigned_hours) := totals in
  ret (if Qltb 0 total_available_hours
       then (total_assigned_hours / total_available_hours)%Q
       else 0%Q).

End Namespace.

Definition add_skill (skill : string) : M resource unit :=
  modify (fun self =>
    if bool_decide (skill ∈ skills self) then self
    else Resource_ (r_id self) (r_name self) (cost_rate self) (availability self)
           (r_assignments self) (calendar self) (skills self ++ [skill])).

Definition remove_skill (skill : string) : M resource unit :=
  modify (fun self =>
    match py_remove String.eqb skill (skills self) with
    | Some l => Resource_ (r_id self) (r_name self) (cost_rate self) (availability self)
                  (r_assignments self) (calendar self) l
    | None => self
    end).

End Resource.

(** ** src/models/task.py *)

Module Task.

(** The field values set by [__init__]; the class counter supplies [id]. *)
Definition init (id : Z) (name : string) (duration : Z) (start_date : option datetime)
    : task :=
  Task_ id name duration start_date 0%Q 0 EmptyString [] [] [] 0 0 0 0.

(** [self.add_predecessor(task)] *)
Definition add_predecessor (self task : ref) : M world unit :=
  t <- task_get self ;;
  if bool_decide (task ∈ predecessors t) then ret tt
  else
    task_modify self (fun t => set_predecessors t (predecessors t ++ [task])) ;;;
    task_modify task (fun t => set_successors t (successors t ++ [self])).

(** [self.remove_predecessor(task)]; the second [remove] raises
    [ValueError] when [self] is not among the successors of [task]. *)
Definition remove_predecessor (self task : ref) : M world unit :=
  t <- task_get self ;;
  match py_remove Nat.eqb task (predecessors t) with
  | Some l =>
      task_modify self (fun t => set_predecessors t l) ;;;
      t' <- task_get task ;;
      match py_remove Nat.eqb self (successors t') with
      | Some l' => task_modify task (fun t => set_successors t l')
      | None => raise ValueError
      end
  | None => ret tt
  end.

Definition get_end_date (self : task) : option datetime :=
  match start_date self with
  | None => None
  | Some d => Some (d + duration self)
  end.

Fixpoint get_working_days_loop (n : nat) (current_date : datetime) (days : Z) : Z :=
  match n with
  | O => days
  | S n' =>
      let days := if weekday current_date <? 5 then days + 1 else days in
      get_working_days_loop n' (current_date + 1) days
  end.

Definition get_working_days (start_date end_date : datetime) : Z :=
  get_working_days_loop (days_between start_date end_date) start_date 0.

Definition calculate_assignment_hours (units : Q) (start_date end_date : datetime) : Q :=
  let working_days := get_working_days start_date end_date in
  (inject_Z working_days * 8 * units)%Q.

Section Namespace.
Variable ns : namespaces.

Definition assign_resource (self resource : ref) (units : Q)
    (start_date end_date : datetime) : M world unit :=
  let a := Assignment resource units start_date end_date
             (calculate_assignment_hours units start_date end_date) in
  task_modify self (fun t => set_t_assignments t (t_assignments t ++ [a])) ;;;
  on_resource resource (Resource.add_assignment ns a).

Definition remove_resource (self resource : ref) : M world unit :=
  t <- task_get self ;;
  let assignments_to_remove :=
    filter (fun a => a_resource a = resource) (t_assignments t) in
  for_each assignments_to_remove (fun a =>
    t <- task_get self ;;
    match py_remove assignment_eqb a (t_assignments t) with
    | Some l =>
        task_modify self (fun t => set_t_assignments t l) ;;;
        on_resource resource (Resource.remove_assignment ns a)
    | None => raise ValueError
    end).

End Namespace.

Definition get_cost (self : task) : M world Q :=
  costs <- map_m (fun a => r <- resource_get (a_resource a) ;;
                           ret (cost_rate r * a_hours a)%Q)
                 (t_assignments self) ;;
  ret (py_sum costs).

Definition update_progress (self : ref) (completion_percentage : Q) : M world unit :=
  task_modify self (fun t =>
    Task_ (t_id t) (t_name t) (duration t) (start_date t)
      (Qmin 100 (Qmax 0 completion_percentage))
      (priority t) (notes t) (predecessors t) (successors t) (t_assignments t)
      (early_start t) (early_finish t) (late_start t) (late_finish t)).

Definition get_float (self : task) : Z := late_start self - early_start self.

Definition is_critical (self : task) : bool := get_float self =? 0.

End Task.

(** ** src/models/project.py *)

Module Project.

Definition add_task (task : ref) : M world unit :=
  modify (fun w => set_w_project w
    (set_p_tasks (w_project w) (p_tasks (w_project w) ++ [task]))).

Definition remove_task (task : ref) : M world unit :=
  w <- get ;;
  match py_remove Nat.eqb task (p_tasks (w_project w)) with
  | Some l => modify (fun w => set_w_project w (set_p_tasks (w_project w) l))
  | None => ret tt
  end.

Definition add_resource (resource : ref) : M world unit :=
  modify (fun w => set_w_project w
    (set_p_resources (w_project w) (p_resources (w_project w) ++ [resource]))).

Definition remove_resource (resource : ref) : M world unit :=
  w <- get ;;
  match py_remove Nat.eqb resource (p_resources (w_project w)) with
  | Some l => modify (fun w => set_w_project w (set_p_resources (w_project w) l))
  | None => ret tt
  end.

(** One test-and-update of the forward pass, for [task] and one [successor]. *)
Definition forward_step (task successor : ref) : M world unit :=
  t <- task_get task ;;
  s <- task_get successor ;;
  if early_start s <? early_finish t
  then task_modify successor (fun s =>
         set_early s (early_finish t) (early_finish t + duration s))
  else ret tt.

(** One test-and-update of the backward pass, for [task] and one [predecessor]. *)
Definition backward_step (task predecessor : ref) : M world unit :=
  t <- task_get task ;;
  p <- task_get predecessor ;;
  if late_start t <? late_finish p
  then task_modify predecessor (fun p =>
         set_late p (late_start t - duration p) (late_start t))
  else ret tt.

Definition calculate_critical_path : M world (list ref) :=
  tasks <- gets (fun w => p_tasks (w_project w)) ;;
  (* Initialize early start and early finish *)
  for_each tasks (fun task =>
    task_modify task (fun t => set_early t 0 (duration t))) ;;;
  (* Forward pass *)
  for_each tasks (fun task =>
    t <- task_get task ;;
    for_each (successors t) (forward_step task)) ;;;
  (* Initialize late start and late finish *)
  finishes <- map_m (fun task => t <- task_get task ;; ret (early_finish t)) tasks ;;
  project_duration <- lift (py_max_int finishes) ;;
  for_each tasks (fun task =>
    task_modify task (fun t =>
      set_late t (project_duration - duration t) project_duration)) ;;;
  (* Backward pass *)
  for_each (rev tasks) (fun task =>
    t <- task_get task ;;
    for_each (predecessors t) (backward_step task)) ;;;
  (* Find critical path (tasks with zero float) *)
  flags <- map_m (fun task => t <- task_get task ;;
                    ret (task, late_start t - early_start t =? 0)) tasks ;;
  ret (map fst (List.filter snd flags)).

Definition get_project_duration : M world Z :=
  w <- get ;;
  match p_tasks (w_project w) with
  | [] => ret 0
  | tasks =>
      ends <- map_m (fun task => t <- task_get task ;; ret (Task.get_end_date t)) tasks ;;
      latest_finish <- lift (py_max_dates ends) ;;
      match latest_finish with
      | Some d => ret (d - p_start_date (w_project w))
      | None => raise TypeError   (* [None - self.start_date] *)
      end
  end.

Definition get_total_cost : M world Q :=
  tasks <- gets (fun w => p_tasks (w_project w)) ;;
  costs <- map_m (fun task => t <- task_get task ;; Task.get_cost t) tasks ;;
  ret (py_sum costs).

Definition find_task_by_id (task_id : Z) : M world (option ref) :=
  tasks <- gets (fun w => p_tasks (w_project w)) ;;
  ts <- map_m (fun task => t <- task_get task ;; ret (task, t_id t)) tasks ;;
  ret (fst <$> head (List.filter (fun x => snd x =? task_id) ts)).

(** [assignment.hours]: attribute access on a [dict], which has no such
    attribute. *)
Definition dict_attribute_hours (a : assignment) : outcome Q := Raises AttributeError.

Definition get_resource_utilization : M world (gmap ref Q) :=
  resources <- gets (fun w => p_resources (w_project w)) ;;
  fold_m (fun utilization resource =>
      r <- resource_get resource ;;
      hours <- map_m (fun a => lift (dict_attribute_hours a)) (r_assignments r) ;;
      let total_hours := py_sum hours in
      d <- get_project_duration ;;
      let available_hours := (availability r * 8 * inject_Z d)%Q in
      ret (<[resource := if Qltb 0 available_hours
                         then (total_hours / available_hours)%Q
                         else 0%Q]> utilization))
    resources ∅.

End Project.

(** ** Sorting

    [list.sort(key=...)] is stable; with [reverse=True] equal keys still
    keep their original order.  [sort_by le] is the stable insertion sort
    for the order [le] on keys, so the descending sort is [sort_by] of the
    converse order. *)

Fixpoint insert_by {A} (le : A -> A -> bool) (x : A) (l : list A) : list A :=
  match l with
  | [] => [x]
  | y :: l' => if le x y then x :: l else y :: insert_by le x l'
  end.

Definition sort_by {A} (le : A -> A -> bool) (l : list A) : list A :=
  foldr (insert_by le) [] l.

(** [<=] on tuples of two ints. *)
Definition pair_le (a b : Z * Z) : bool :=
  (fst a <? fst b) || ((fst a =? fst b) && (snd a <=? snd b)).

(** ** src/controllers/project_controller.py *)

Module ProjectController.

(** Results of the analyses; the [dict]s of the source become records and
    the text fields that only format other fields are left out. *)

Record conflict : Type := Conflict {
  c_date : datetime;
  c_resource : ref;
  c_assignments : list assignment;
  c_overallocation : Q
}.

Inductive risk : Type :=
  | critical_path_risk (task : ref)
  | resource_dependency_risk (resource : ref) (tasks : list ref)
  | long_duration_risk (task : ref).

Definition impact (r : risk) : string :=
  match r with
  | critical_path_risk _ => "high"
  | resource_dependency_risk _ _ => "medium"
  | long_duration_risk _ => "medium"
  end.

Record analysis : Type := Analysis {
  an_duration : Z;
  an_total_cost : Q;
  an_resource_utilization : gmap ref Q;
  an_critical_path : list ref;
  an_completion_percentage : Q;
  an_resource_conflicts : list conflict;
  an_schedule_risks : list risk
}.

Record summary_report : Type := SummaryReport {
  sr_name : string;
  sr_start_date : datetime;
  sr_end_date : option datetime;
  sr_duration : Z;
  sr_total_tasks : nat;
  sr_completed_tasks : nat;
  sr_total_resources : nat;
  sr_total_cost : Q;
  sr_completion_percentage : Q
}.

Record task_report : Type := TaskReport {
  tr_id : Z;
  tr_name : string;
  tr_start_date : option datetime;
  tr_end_date : option datetime;
  tr_duration : Z;
  tr_completion : Q;
  tr_resources : list string;
  tr_predecessors : list string;
  tr_cost : Q;
  tr_is_critical : bool
}.

Record resource_report : Type := ResourceReport {
  rr_name : string;
  rr_cost_rate : Q;
  rr_availability : Q;
  rr_assignments : nat;
  rr_utilization : Q;
  rr_total_cost : Q;
  rr_skills : list string
}.

Inductive event : Type :=
  | project_start
  | task_start (task : ref)
  | task_end (task : ref)
  | project_end.

Record reports : Type := Reports {
  rep_summary : summary_report;
  rep_tasks : list task_report;
  rep_resources : list resource_report;
  rep_timeline : list (datetime * event)
}.

Definition save_state : M world unit :=
  modify (fun w =>
    World (w_tasks w) (w_resources w) (w_project w)
      (undo_stack w ++ [Snapshot (w_tasks w) (w_resources w) (w_project w)]) []).

Definition delete_task (task : ref) : M world unit :=
  save_state ;;; Project.remove_task task.

Definition delete_resource (resource : ref) : M world unit :=
  save_state ;;; Project.remove_resource resource.

Definition calculate_critical_path : M world (list ref) :=
  Project.calculate_critical_path.

(** [max(task.get_end_date() for task in tasks)] *)
Definition max_end_date (tasks : list ref) : M world (option datetime) :=
  ends <- map_m (fun task => t <- task_get task ;; ret (Task.get_end_date t)) tasks ;;
  lift (py_max_dates ends).

(** [any(a['resource'] == resource for a in t.assignments)] *)
Definition uses_resource (resource : ref) (t : task) : bool :=
  existsb (fun a => Nat.eqb (a_resource a) resource) (t_assignments t).

(** [[t for t in tasks if any(a['resource'] == resource for a in t.assignments)]] *)
Definition tasks_using (resource : ref) (tasks : list ref) : M world (list ref) :=
  ts <- map_m (fun task => t <- task_get task ;; ret (task, t)) tasks ;;
  ret (map fst (List.filter (fun x => uses_resource resource (snd x)) ts)).

(** [tasks.sort(key=key)], or with [reverse=True] when [reverse] is set. *)
Definition sort_tasks (key : task -> Z * Z) (reverse : bool) (tasks : list ref)
    : M world (list ref) :=
  ts <- map_m (fun task => t <- task_get task ;; ret (task, key t)) tasks ;;
  let le := fun x y : ref * (Z * Z) =>
              if reverse then pair_le (snd y) (snd x) else pair_le (snd x) (snd y) in
  ret (map fst (sort_by le ts)).

Definition calculate_project_completion : M world Q :=
  tasks <- gets (fun w => p_tasks (w_project w)) ;;
  match tasks with
  | [] => ret 0%Q
  | _ =>
      ts <- map_m task_get tasks ;;
      let weighted_completion :=
        py_sum (map (fun t => completion_percentage t * inject_Z (duration t))%Q ts) in
      let total_duration := py_sum_int (map duration ts) in
      ret (if 0 <? total_duration
           then (weighted_completion / inject_Z total_duration)%Q
           else 0%Q)
  end.

Section Namespace.
Variable ns : namespaces.

(** The body of [for task in resource_tasks] in [level_resources].  In
    [task.start_date += timedelta(days=delay)] the right-hand side is
    evaluated before the addition, which raises [TypeError] on [None]. *)
Definition delay_task (utilization : Q) (task : ref) : M world unit :=
  t <- task_get task ;;
  if 0 <? Task.get_float t then
    let delay := Z.min (Task.get_float t)
                       (py_int ((utilization - 1) * inject_Z (duration t))%Q) in
    delta <- lift (timedelta (project_controller_py_timedelta ns) delay) ;;
    match start_date t with
    | Some d => task_modify task (fun t => set_start_date t (Some (d + delta)))
    | None => raise TypeError
    end
  else ret tt.

(** The body of [for resource in resources] in [level_resources]. *)
Definition level_resource (tasks : list ref) (resource : ref) : M world unit :=
  start <- gets (fun w => p_start_date (w_project w)) ;;
  end_ <- max_end_date tasks ;;
  (* with end date [None] the loop test [current_date <= end_date] of
     [get_utilization] raises [TypeError] *)
  utilization <-
    match end_ with
    | Some e => on_resource resource (Resource.get_utilization ns start e)
    | None => r <- resource_get resource ;; raise TypeError
    end ;;
  if Qltb 1 utilization then
    resource_tasks <- tasks_using resource tasks ;;
    resource_tasks <- sort_tasks (fun t => (- priority t, Task.get_float t)) false
                        resource_tasks ;;
    for_each resource_tasks (delay_task utilization)
  else ret tt.

Definition level_resources : M world unit :=
  save_state ;;;
  tasks <- gets (fun w => p_tasks (w_project w)) ;;
  resources <- gets (fun w => p_resources (w_project w)) ;;
  tasks <- sort_tasks (fun t => (priority t, Z.of_nat (length (predecessors t)))) true
             tasks ;;
  for_each resources (level_resource tasks).

(** [[a for task in tasks for a in task.assignments if ...]] on one date. *)
Definition daily_assignments (resource : ref) (current_date : datetime)
    (ts : list task) : list assignment :=
  List.filter (fun a => Nat.eqb (a_resource a) resource
                        && (a_start_date a <=? current_date)
                        && (current_date <=? a_end_date a))
              (concat (map t_assignments ts)).

(** The body of [for resource in self.project.resources] in
    [find_resource_conflicts]. *)
Definition scan_resource (conflicts : list conflict) (resource : ref)
    : M world (list conflict) :=
  current_date <- gets (fun w => p_start_date (w_project w)) ;;
  tasks <- gets (fun w => p_tasks (w_project w)) ;;
  end_date <- max_end_date tasks ;;
  match end_date with
  | None => raise TypeError   (* [current_date <= None] *)
  | Some end_date =>
      while_days (project_controller_py_timedelta ns)
        (days_between current_date end_date) current_date conflicts
        (fun current_date conflicts =>
           ts <- map_m task_get tasks ;;
           r <- resource_get resource ;;
           let daily := daily_assignments resource current_date ts in
           let total_units := py_sum (map a_units daily) in
           ret (if Qltb (availability r) total_units
                then conflicts ++ [Conflict current_date resource daily
                                     (total_units - availability r)%Q]
                else conflicts))
  end.

Definition find_resource_conflicts : M world (list conflict) :=
  resources <- gets (fun w => p_resources (w_project w)) ;;
  fold_m scan_resource resources [].

Definition analyze_schedule_risks : M world (list risk) :=
  (* Check for tasks with no slack *)
  critical_path <- Project.calculate_critical_path ;;
  let risks := map critical_path_risk critical_path in
  (* Check for resource dependencies *)
  resources <- gets (fun w => p_resources (w_project w)) ;;
  tasks <- gets (fun w => p_tasks (w_project w)) ;;
  risks <- fold_m (fun risks resource =>
             resource_tasks <- tasks_using resource tasks ;;
             ret (if (3 <? length resource_tasks)%nat
                  then risks ++ [resource_dependency_risk resource resource_tasks]
                  else risks))
           resources risks ;;
  (* Check for long duration tasks *)
  ts <- map_m (fun task => t <- task_get task ;; ret (task, duration t)) tasks ;;
  match tasks with
  | [] => raise ZeroDivisionError
  | _ =>
      let avg_duration :=
        (inject_Z (py_sum_int (map snd ts)) / inject_Z (Z.of_nat (length tasks)))%Q in
      let long := List.filter
                    (fun x => Qltb (2 * avg_duration) (inject_Z (snd x))) ts in
      ret (risks ++ map (fun x => long_duration_risk (fst x)) long)
  end.

Definition analyze_project : M world analysis :=
  duration <- Project.get_project_duration ;;
  total_cost <- Project.get_total_cost ;;
  resource_utilization <- Project.get_resource_utilization ;;
  critical_path <- Project.calculate_critical_path ;;
  completion_percentage <- calculate_project_completion ;;
  resource_conflicts <- find_resource_conflicts ;;
  schedule_risks <- analyze_schedule_risks ;;
  ret (Analysis duration total_cost resource_utilization critical_path
         completion_percentage resource_conflicts schedule_risks).

Definition generate_summary_report : M world summary_report :=
  p <- gets w_project ;;
  end_date <- max_end_date (p_tasks p) ;;
  duration <- Project.get_project_duration ;;
  ts <- map_m task_get (p_tasks p) ;;
  let completed :=
    List.filter (fun t => Qeq_bool (completion_percentage t) 100) ts in
  total_cost <- Project.get_total_cost ;;
  completion_percentage <- calculate_project_completion ;;
  ret (SummaryReport (p_name p) (p_start_date p) end_date duration
         (length (p_tasks p)) (length completed) (length (p_resources p))
         total_cost completion_percentage).

Definition generate_task_report : M world (list task_report) :=
  tasks <- gets (fun w => p_tasks (w_project w)) ;;
  map_m (fun task =>
      t <- task_get task ;;
      resources <- map_m (fun a => r <- resource_get (a_resource a) ;;
                                   ret (r_name r)) (t_assignments t) ;;
      preds <- map_m (fun p => pt <- task_get p ;; ret (t_name pt))
                     (predecessors t) ;;
      cost <- Task.get_cost t ;;
      ret (TaskReport (t_id t) (t_name t) (start_date t) (Task.get_end_date t)
             (duration t) (completion_percentage t) resources preds cost
             (Task.is_critical t)))
    tasks.

Definition generate_resource_report : M world (list resource_report) :=
  resources <- gets (fun w => p_resources (w_project w)) ;;
  map_m (fun resource =>
      r <- resource_get resource ;;
      utilization <- Project.get_resource_utilization ;;
      u <- match utilization !! resource with
           | Some u => ret u
           | None => raise KeyError
           end ;;
      let total_cost :=
        py_sum (map (fun a => a_hours a * cost_rate r)%Q (r_assignments r)) in
      ret (ResourceReport (r_name r) (cost_rate r) (availability r)
             (length (r_assignments r)) u total_cost (skills r)))
    resources.

(** [timeline.sort(key=lambda x: x['date'])]: the list always holds at
    least the two milestones, so an event dated [None] takes part in a
    comparison and raises [TypeError]. *)
Definition sort_timeline (timeline : list (option datetime * event))
    : outcome (list (datetime * event)) :=
  match mapM (fun x => d ← fst x; Some (d, snd x)) timeline with
  | Some l => Returns (sort_by (fun x y => fst x <=? fst y) l)
  | None => Raises TypeError
  end.

Definition generate_timeline_report : M world (list (datetime * event)) :=
  p <- gets w_project ;;
  (* Add project start *)
  let timeline := [(Some (p_start_date p), project_start)] in
  (* Add task starts and completions *)
  timeline <- fold_m (fun timeline task =>
                t <- task_get task ;;
                ret (timeline ++ [(start_date t, task_start task);
                                  (Task.get_end_date t, task_end task)]))
              (p_tasks p) timeline ;;
  (* Add project end *)
  end_date <- max_end_date (p_tasks p) ;;
  let timeline := timeline ++ [(end_date, project_end)] in
  (* Sort by date *)
  lift (sort_timeline timeline).

Definition generate_reports : M world reports :=
  summary <- generate_summary_report ;;
  tasks <- generate_task_report ;;
  resources <- generate_resource_report ;;
  timeline <- generate_timeline_report ;;
  ret (Reports summary tasks resources timeline).

End Namespace.

(** [undo] and [redo] call [copy.deepcopy(self.project)].  The only
    [import copy] of the file is inside the body of [save_state], where it
    binds a local name; in [undo] and [redo] the name is looked up in the
    module namespace, which does not bind it. *)
Definition undo : M world unit :=
  w <- get ;;
  match undo_stack w with
  | [] => ret tt
  | _ => raise NameError
  end.

Definition redo : M world unit :=
  w <- get ;;
  match redo_stack w with
  | [] => ret tt
  | _ => raise NameError
  end.

End ProjectController.

(** * Vocabulary of the properties *)

(** ** The dependency graph *)

(** [edge w x y]: in the store [w], task [x] is on the predecessor list of
    task [y] (the finish-to-start edge x -> y). *)
Definition edge (w : world) (x y : ref) : Prop :=
  exists t, w_tasks w !! y = Some t /\ x ∈ predecessors t.

(** [reaches w x y]: [y] can be reached from [x] along existing edges;
    every task reaches itself. *)
Definition reaches (w : world) : ref -> ref -> Prop := rtc (edge w).

(** ** Frames *)

(** [preserves R m]: whatever [m] does, returning or raising, the state it
    leaves is related by [R] to the state it started from. *)
Definition preserves {S A} (R : S -> S -> Prop) (m : M S A) : Prop :=
  forall s, R s (snd (m s)).

(** A task with the four fields written by the critical-path pass blanked. *)
Definition unscheduled (t : task) : task := set_late (set_early t 0 0) 0 0.

(** Two stores agree on everything but the early/late fields of tasks. *)
Definition same_but_schedule (w w' : world) : Prop :=
  w_resources w' = w_resources w /\
  w_project w' = w_project w /\
  undo_stack w' = undo_stack w /\
  redo_stack w' = redo_stack w /\
  unscheduled <$> w_tasks w' = unscheduled <$> w_tasks w.

(** Two stores hold the same tasks, resources and project (the undo
    stacks may differ). *)
Definition same_objects (w w' : world) : Prop :=
  w_tasks w' = w_tasks w /\
  w_resources w' = w_resources w /\
  w_project w' = w_project w.

(** ** The calendar after a run of [_update_calendar] *)

(** How many bodies of a [while_days] loop of trip count [n] run: all of
    them when [timedelta] is bound, only the first otherwise. *)
Definition bodies_run (bound : bool) (n : nat) : Z :=
  if bound then Z.of_nat n else Z.min (Z.of_nat n) 1.

(** [max(0.0, min(1.0, x))] *)
Definition clamp (x : Q) : Q := Qmax 0 (Qmin 1 x).

(** The value from which [_update_calendar] starts on a date: the calendar
    entry, or the base availability when there is none. *)
Definition seed (r : resource) (d : datetime) : Q :=
  match calendar r !! d with
  | Some v => v
  | None => availability r
  end.

(** The resource after [add_assignment a] followed by [remove_assignment a],
    each run until it returns or raises. *)
Definition assign_then_remove (ns : namespaces) (a : assignment) (r : resource)
    : resource :=
  snd (Resource.remove_assignment ns a (snd (Resource.add_assignment ns a r))).

(** ** Utilization as the specification words it *)

(** Sum over the days of the range of 8 x units of every assignment whose
    range covers the day. *)
Definition spec_assigned_hours (r : resource) (start_date end_date : datetime) : Q :=
  py_sum (map (fun d =>
      py_sum (map (fun a => 8 * a_units a)%Q
                (List.filter (fun a => (a_start_date a <=? d) && (d <=? a_end_date a))
                             (r_assignments r))))
    (utilities.get_date_range start_date end_date)).

(** Sum over the days of the range of availability x 8. *)
Definition spec_available_hours (r : resource) (start_date end_date : datetime) : Q :=
  py_sum (map (fun d => Resource.get_availability r d * 8)%Q
            (utilities.get_date_range start_date end_date)).

Definition spec_utilization (r : resource) (start_date end_date : datetime) : Q :=
  if Qeq_bool (spec_available_hours r start_date end_date) 0 then 0%Q
  else (spec_assigned_hours r start_date end_date
        / spec_available_hours r start_date end_date)%Q.

(** Every availability the resource can report is non-negative: the base
    value and each calendar entry. *)
Definition nonneg_availability (r : resource) : Prop :=
  (0 <= availability r)%Q /\
  forall d v, calendar r !! d = Some v -> (0 <= v)%Q.

(** ** Leveling *)

(** [shifted k w w']: [w'] differs from [w] at most in the undo stack and in
    start dates, the start of each task [x] having moved later by at most
    [k x] times its float (not at all when the float is negative). *)
Definition shifted (k : ref -> Z) (w w' : world) : Prop :=
  w_resources w' = w_resources w /\
  w_project w' = w_project w /\
  forall x,
    match w_tasks w !! x, w_tasks w' !! x with
    | Some t, Some t' =>
        set_start_date t' (start_date t) = t /\
        match start_date t, start_date t' with
        | Some s, Some s' => s' <= s + k x * Z.max 0 (Task.get_float t)
        | None, None => True
        | _, _ => False
        end
    | None, None => True
    | _, _ => False
    end.

(** Number of entries of the resource list [rs] on which task [t] holds an
    assignment. *)
Definition resources_used (rs : list ref) (t : task) : Z :=
  Z.of_nat (length (List.filter (fun r => ProjectController.uses_resource r t) rs)).

(** Number of occurrences of [x] in a list of addresses. *)
Definition occurrences (x : ref) (l : list ref) : Z :=
  Z.of_nat (count_occ Nat.eq_dec l x).

(** ** Concrete stores used by the examples

    2024-01-01, a Monday, has ordinal 738886. *)

Definition monday : datetime := 738886.
Definition saturday : datetime := 738891.

(** Addresses. *)
Definition task_A : ref := 0%nat.
Definition task_B : ref := 1%nat.
Definition task_C : ref := 2%nat.
Definition res_1 : ref := 10%nat.
Definition res_2 : ref := 11%nat.

(** What a command leaves behind. *)
Definition after {A} (m : M world A) (w : world) : world := snd (m w).

(** Three fresh tasks A (5 days), B (3 days), C (2 days), no edge yet. *)
Definition three_tasks : world :=
  World (<[task_A := Task.init 1 "A" 5 (Some monday)]>
         (<[task_B := Task.init 2 "B" 3 (Some monday)]>
          (<[task_C := Task.init 3 "C" 2 (Some monday)]> ∅)))
        ∅ (Project_ "P" monday [task_A; task_B; task_C] [] None false) [] [].

(** The chain A -> B -> C, built by two calls of [add_predecessor]. *)
Definition chain : world :=
  after (Task.add_predecessor task_C task_B)
    (after (Task.add_predecessor task_B task_A) three_tasks).

(** Two fresh tasks A (5 days) and B (3 days) and one resource (rate 10,
    availability 1.0), all registered with the project. *)
Definition two_tasks_one_resource : world :=
  World (<[task_A := Task.init 1 "A" 5 (Some monday)]>
         (<[task_B := Task.init 2 "B" 3 (Some monday)]> ∅))
        (<[res_1 := Resource.init 1 "R" 10 1]> ∅)
        (Project_ "P" monday [task_A; task_B] [res_1] None false) [] [].

(** The same project after [B.add_predecessor(A)] and
    [A.assign_resource(R, 0.5, Monday, Friday)], each call run until it
    returns or raises. *)
Definition staffed (ns : namespaces) : world :=
  after (Task.assign_resource ns task_A res_1 (1 # 2) monday (monday + 4))
    (after (Task.add_predecessor task_B task_A) two_tasks_one_resource).

(** Two unconnected tasks, T (2 days) and D (3 days), both starting on
    Monday, and two resources of availability 1.0. *)
Definition two_resources : world :=
  World (<[task_A := Task.init 1 "T" 2 (Some monday)]>
         (<[task_B := Task.init 2 "D" 3 (Some monday)]> ∅))
        (<[res_1 := Resource.init 1 "R1" 10 1]>
         (<[res_2 := Resource.init 2 "R2" 10 1]> ∅))
        (Project_ "P" monday [task_A; task_B] [res_1; res_2] None false) [] [].

(** The same project after T has been assigned to both resources at 87.5%
    from its start date to its end date (Monday..Wednesday) and the
    critical path has been computed. *)
Definition contended (ns : namespaces) : world :=
  after Project.calculate_critical_path
    (after (Task.assign_resource ns task_A res_2 (7 # 8) monday (monday + 2))
       (after (Task.assign_resource ns task_A res_1 (7 # 8) monday (monday + 2))
          two_resources)).

(** The chain A -> B -> C stored in the order C, B, A, after a
    critical-path pass. *)
Definition reversed_chain : world :=
  after Project.calculate_critical_path
    (set_w_project chain (Project_ "P" monday [task_C; task_B; task_A] [] None false)).

(** The project [two_resources] after T has been assigned to the first
    resource only and the critical path has been computed. *)
Definition contended_once (ns : namespaces) : world :=
  after Project.calculate_critical_path
    (after (Task.assign_resource ns task_A res_1 (7 # 8) monday (monday + 2))
       two_resources).

(** ** Vocabulary of the further properties *)

(** [date] is a date of the calendar: month 1..12, day within the month,
    year 1..9999. *)
Definition valid_date (dt : utilities.date) : Prop :=
  1 <= utilities.year dt <= 9999 /\
  1 <= utilities.month dt <= 12 /\
  1 <= utilities.day dt <= utilities.days_in_month (utilities.year dt) (utilities.month dt).

(** Number of Saturdays and Sundays among the dates [s .. e]. *)
Definition weekend_days (s e : datetime) : Z :=
  Z.of_nat (length (List.filter (fun d => negb (utilities.is_working_day d))
                                (utilities.get_date_range s e))).

(** Every calendar entry of the resource lies in [0, 1]. *)
Definition calendar_in_range (r : resource) : Prop :=
  forall d v, calendar r !! d = Some v -> (0 <= v <= 1)%Q.

(** Number of occurrences of [x] in a list of addresses, as a [nat]. *)
Definition count_ref (x : ref) (l : list ref) : nat := count_occ Nat.eq_dec l x.

(** The edges of the store are mutual: [x] is as many times on the
    predecessor list of [y] as [y] is on the successor list of [x]. *)
Definition mutual_edges (w : world) : Prop :=
  forall x y tx ty,
    w_tasks w !! x = Some tx -> w_tasks w !! y = Some ty ->
    count_ref x (predecessors ty) = count_ref y (successors tx).

(** The project with no task and no resource. *)
Definition empty_project : world :=
  World ∅ ∅ (Project_ "P" monday [] [] None false) [] [].

(** Every task on the project's list is an object of the store. *)
Definition tasks_in_store (w : world) : Prop :=
  forall x, x ∈ p_tasks (w_project w) -> is_Some (w_tasks w !! x).

(** Every predecessor and successor of a task of the store is one too. *)
Definition edges_in_store (w : world) : Prop :=
  forall x t y, w_tasks w !! x = Some t ->
    y ∈ predecessors t \/ y ∈ successors t -> is_Some (w_tasks w !! y).

(** The completion percentage of every task lies in [0, 100]. *)
Definition progress_in_range (w : world) : Prop :=
  forall x t, w_tasks w !! x = Some t -> (0 <= completion_percentage t <= 100)%Q.

(** No task has a negative duration. *)
Definition nonneg_durations (w : world) : Prop :=
  forall x t, w_tasks w !! x = Some t -> 0 <= duration t.

(** A field of the task at an address (0 when the address is free). *)
Definition field (f : task -> Z) (w : world) (x : ref) : Z :=
  match w_tasks w !! x with
  | Some t => f t
  | None => 0
  end.

(** The successor list and the predecessor list of the task at an address. *)
Definition successors_of (w : world) (x : ref) : list ref :=
  match w_tasks w !! x with
  | Some t => successors t
  | None => []
  end.

Definition predecessors_of (w : world) (x : ref) : list ref :=
  match w_tasks w !! x with
  | Some t => predecessors t
  | None => []
  end.

(** The project's task list is in dependency order: a task is a successor
    of no task at or after its own position and a predecessor of no task
    at or before it. *)
Definition dependency_ordered (w : world) : Prop :=
  forall l1 x l2, p_tasks (w_project w) = l1 ++ x :: l2 ->
    (forall y, y ∈ x :: l2 -> x ∉ successors_of w y) /\
    (forall y, y ∈ l1 ++ [x] -> x ∉ predecessors_of w y).

(** * Properties *)

(** ** Running commands *)

Lemma bind_returns {S A B} (m : M S A) (k : A -> M S B) s a s' :
  m s = (Returns a, s') -> bind m k s = k a s'.
Proof. intros H. unfold bind. by rewrite H. Qed.

Lemma bind_raises {S A B} (m : M S A) (k : A -> M S B) s e s' :
  m s = (Raises e, s') -> bind m k s = (Raises e, s').
Proof. intros H. unfold bind. by rewrite H. Qed.

Lemma bind_assoc_run {S A B C} (m : M S A) (f : A -> M S B) (g : B -> M S C) s :
  bind (bind m f) g s = bind m (fun x => bind (f x) g) s.
Proof. unfold bind. destruct (m s) as [[a|e] s']; reflexivity. Qed.

Lemma task_get_run w r t :
  w_tasks w !! r = Some t -> task_get r w = (Returns t, w).
Proof. intros H. unfold task_get. by rewrite H. Qed.

Lemma task_modify_run w r f t :
  w_tasks w !! r = Some t ->
  task_modify r f w = (Returns tt, set_w_tasks w (<[r := f t]> (w_tasks w))).
Proof. intros H. unfold task_modify. by rewrite H. Qed.

Lemma resource_get_run w r x :
  w_resources w !! r = Some x -> resource_get r w = (Returns x, w).
Proof. intros H. unfold resource_get. by rewrite H. Qed.

(** One step of a symbolic run: re-associate, or resolve the first command. *)
Ltac run_step :=
  first
    [ rewrite bind_assoc_run
    | erewrite bind_returns;
      [| first [ apply task_get_run; cbn [w_tasks set_w_tasks];
                 simplify_map_eq; reflexivity
               | apply task_modify_run; cbn [w_tasks set_w_tasks];
                 simplify_map_eq; reflexivity
               | reflexivity ] ] ].

(** ** Frame rules *)

Section Preserves.
Context {S : Type} (R : S -> S -> Prop).
Hypothesis R_refl : forall s, R s s.
Hypothesis R_trans : forall s1 s2 s3, R s1 s2 -> R s2 s3 -> R s1 s3.

Lemma preserves_ret {A} (a : A) : preserves R (ret a).
Proof using R_refl. intros s. apply R_refl. Qed.

Lemma preserves_raise {A} e : preserves R (@raise S A e).
Proof using R_refl. intros s. apply R_refl. Qed.

Lemma preserves_lift {A} (o : outcome A) : preserves R (lift o).
Proof using R_refl. intros s. apply R_refl. Qed.

Lemma preserves_gets {A} (f : S -> A) : preserves R (gets f).
Proof using R_refl. intros s. apply R_refl. Qed.

Lemma preserves_get : preserves R get.
Proof using R_refl. intros s. apply R_refl. Qed.

Lemma preserves_bind {A B} (m : M S A) (k : A -> M S B) :
  preserves R m -> (forall a, preserves R (k a)) -> preserves R (bind m k).
Proof using R_trans.
  intros Hm Hk s. unfold bind. specialize (Hm s).
  destruct (m s) as [[a|e] s']; simpl in *; [|done].
  eapply R_trans; [exact Hm|apply Hk].
Qed.

Lemma preserves_for_each {A} (l : list A) (body : A -> M S unit) :
  (forall x, preserves R (body x)) -> preserves R (for_each l body).
Proof using R_refl R_trans.
  intros Hb. induction l as [|x l IH]; simpl.
  - apply preserves_ret.
  - apply preserves_bind; [apply Hb|intros _; exact IH].
Qed.

Lemma preserves_map_m {A B} (f : A -> M S B) (l : list A) :
  (forall x, preserves R (f x)) -> preserves R (map_m f l).
Proof using R_refl R_trans.
  intros Hf. induction l as [|x l IH]; simpl.
  - apply preserves_ret.
  - apply preserves_bind; [apply Hf|intros y].
    apply preserves_bind; [exact IH|intros ys; apply preserves_ret].
Qed.

Lemma preserves_fold_m {A B} (f : B -> A -> M S B) (l : list A) (acc : B) :
  (forall b x, preserves R (f b x)) -> preserves R (fold_m f l acc).
Proof using R_refl R_trans.
  intros Hf. revert acc. induction l as [|x l IH]; intros acc; simpl.
  - apply preserves_ret.
  - apply preserves_bind; [apply Hf|intros b; apply IH].
Qed.

Lemma preserves_while_days {A} bound n d (acc : A) (body : datetime -> A -> M S A) :
  (forall d a, preserves R (body d a)) -> preserves R (while_days bound n d acc body).
Proof using R_refl R_trans.
  intros Hb. revert d acc. induction n as [|n IH]; intros d acc; simpl.
  - apply preserves_ret.
  - apply preserves_bind; [apply Hb|intros a].
    apply preserves_bind; [apply preserves_lift|intros delta; apply IH].
Qed.

End Preserves.

(** ** Working days (utils/utilities.py) *)

Lemma weekday_range d : 0 <= weekday d < 7.
Proof. unfold weekday. apply Z.mod_pos_bound. lia. Qed.

Lemma weekday_succ d :
  weekday (d + 1) = if weekday d =? 6 then 0 else weekday d + 1.
Proof.
  unfold weekday. destruct (Z.eqb_spec ((d + 6) mod 7) 6) as [E|E].
  - pose proof (Z.div_mod (d + 6) 7 ltac:(lia)).
    pose proof (Z.div_mod (d + 1 + 6) 7 ltac:(lia)).
    pose proof (Z.mod_pos_bound (d + 1 + 6) 7 ltac:(lia)). lia.
  - pose proof (Z.div_mod (d + 6) 7 ltac:(lia)).
    pose proof (Z.div_mod (d + 1 + 6) 7 ltac:(lia)).
    pose proof (Z.mod_pos_bound (d + 1 + 6) 7 ltac:(lia)).
    pose proof (Z.mod_pos_bound (d + 6) 7 ltac:(lia)). lia.
Qed.

Lemma get_working_days_loop_acc n cur acc :
  utilities.get_working_days_loop n cur acc = acc + utilities.get_working_days_loop n cur 0.
Proof.
  revert cur acc. induction n as [|n IH]; intros cur acc; simpl; [lia|].
  rewrite (IH _ (if weekday cur <? 5 then acc + 1 else acc)).
  rewrite (IH _ (if weekday cur <? 5 then 0 + 1 else 0)).
  destruct (weekday cur <? 5); lia.
Qed.

Lemma get_working_days_empty s e : e < s -> utilities.get_working_days s e = 0.
Proof.
  intros H. unfold utilities.get_working_days, days_between.
  replace (Z.to_nat (e - s + 1)) with O by lia. reflexivity.
Qed.

Lemma get_working_days_first s e :
  s <= e ->
  utilities.get_working_days s e =
  (if weekday s <? 5 then 1 else 0) + utilities.get_working_days (s + 1) e.
Proof.
  intros H. unfold utilities.get_working_days, days_between.
  replace (Z.to_nat (e - s + 1)) with (S (Z.to_nat (e - (s + 1) + 1))) by lia.
  simpl. rewrite get_working_days_loop_acc. destruct (weekday s <? 5); lia.
Qed.

Lemma add_working_days_loop_spec fuel : forall cur rem,
  0 <= rem ->
  (if rem =? 0 then 0
   else 3 * (rem - 1) +
        (if weekday cur =? 4 then 3 else if weekday cur =? 5 then 2 else 1))
    <= Z.of_nat fuel ->
  exists r, utilities.add_working_days_loop fuel cur rem = Some r /\
            cur <= r /\
            (0 < rem -> cur < r /\ weekday r < 5) /\
            utilities.get_working_days (cur + 1) r = rem.
Proof.
  induction fuel as [|fuel IH]; intros cur rem Hrem Hfuel.
  - assert (rem = 0) as ->.
    { destruct (Z.eqb_spec rem 0); [done|].
      pose proof (weekday_range cur).
      destruct (weekday cur =? 4), (weekday cur =? 5); lia. }
    exists cur. simpl. split; [done|]. split; [lia|]. split; [lia|].
    apply get_working_days_empty. lia.
  - cbn [utilities.add_working_days_loop].
    destruct (Z.gtb_spec rem 0) as [Hpos|Hz].
    2:{ assert (rem = 0) as -> by lia. exists cur.
        split; [done|]. split; [lia|]. split; [lia|].
        apply get_working_days_empty. lia. }
    cbv zeta.
    pose proof (weekday_range cur) as Hr.
    pose proof (weekday_succ cur) as Hs.
    destruct (Z.eqb_spec rem 0) as [?|_]; [lia|].
    destruct (Z.ltb_spec (weekday (cur + 1)) 5) as [Hw|Hw].
    + destruct (IH (cur + 1) (rem - 1)) as (r & Hr1 & Hr2 & Hr3 & Hr4); [lia| |].
      { destruct (Z.eqb_spec (rem - 1) 0); [lia|].
        pose proof (weekday_range (cur + 1)).
        destruct (Z.eqb_spec (weekday cur) 4), (Z.eqb_spec (weekday cur) 5),
          (Z.eqb_spec (weekday cur) 6), (Z.eqb_spec (weekday (cur+1)) 4),
          (Z.eqb_spec (weekday (cur+1)) 5); lia. }
      exists r. split; [done|]. split; [lia|]. split.
      * intros _. split; [lia|].
        destruct (Z.eq_dec rem 1) as [->|Hne].
        -- simpl in Hr1. 
           assert (r = cur + 1) as ->; [|done].
           destruct fuel; simpl in Hr1; congruence.
        -- apply Hr3. lia.
      * rewrite get_working_days_first by lia.
        destruct (Z.ltb_spec (weekday (cur + 1)) 5); lia.
    + destruct (IH (cur + 1) rem) as (r & Hr1 & Hr2 & Hr3 & Hr4); [lia| |].
      { destruct (Z.eqb_spec rem 0); [lia|].
        destruct (Z.eqb_spec (weekday cur) 4), (Z.eqb_spec (weekday cur) 5),
          (Z.eqb_spec (weekday cur) 6), (Z.eqb_spec (weekday (cur+1)) 4),
          (Z.eqb_spec (weekday (cur+1)) 5); lia. }
      exists r. split; [done|]. split; [lia|]. split.
      * intros _. split; [lia|]. apply Hr3. lia.
      * rewrite get_working_days_first by lia.
        destruct (Z.ltb_spec (weekday (cur + 1)) 5); lia.
Qed.



(** ** End dates (Task.get_end_date) *)



(** ** Critical path of the chain A -> B -> C (Project.calculate_critical_path) *)

(** C2.  For a project whose task list is [a; b; c] in that order, with
    durations 5, 3 and 2 and the edges a -> b and b -> c,
    [calculate_critical_path] returns the three tasks, the maximum early
    finish is 10, and late start minus early start is 0 for each task. *)
Theorem chain_critical_path (w : world) (a b c : ref) (ta tb tc : task) :
  p_tasks (w_project w) = [a; b; c] ->
  a <> b -> b <> c -> a <> c ->
  w_tasks w !! a = Some ta -> w_tasks w !! b = Some tb -> w_tasks w !! c = Some tc ->
  duration ta = 5 -> duration tb = 3 -> duration tc = 2 ->
  successors ta = [b] -> successors tb = [c] -> successors tc = [] ->
  predecessors ta = [] -> predecessors tb = [a] -> predecessors tc = [b] ->
  exists w' ta' tb' tc',
    Project.calculate_critical_path w = (Returns [a; b; c], w') /\
    w_tasks w' !! a = Some ta' /\ w_tasks w' !! b = Some tb' /\
    w_tasks w' !! c = Some tc' /\
    py_max_int [early_finish ta'; early_finish tb'; early_finish tc'] = Returns 10 /\
    late_start ta' - early_start ta' = 0 /\
    late_start tb' - early_start tb' = 0 /\
    late_start tc' - early_start tc' = 0.
Proof.
  intros Hp Hab Hbc Hac Ha Hb Hc Da Db Dc Sa Sb Sc Pa Pb Pc.
  unfold Project.calculate_critical_path, Project.forward_step, Project.backward_step.
  erewrite bind_returns; [|unfold gets; rewrite Hp; reflexivity].
  repeat first
    [ run_step
    | progress cbn [for_each map_m rev app lift py_max_int fold_left
                    successors predecessors duration set_early set_late
                    early_start early_finish late_start late_finish
                    w_tasks set_w_tasks]
    | rewrite Da | rewrite Db | rewrite Dc
    | rewrite Sa | rewrite Sb | rewrite Sc
    | rewrite Pa | rewrite Pb | rewrite Pc
    | progress simpl (_ <? _) | progress simpl (Z.max _ _) ].
  do 4 eexists. split; [reflexivity|].
  cbn [w_tasks set_w_tasks].
  repeat (split; [simplify_map_eq; reflexivity|]).
  cbn [early_start early_finish late_start late_finish set_early set_late].
  repeat split; reflexivity.
Qed.

Lemma chain_critical_path_witness :
  exists w' ta' tb' tc',
    Project.calculate_critical_path chain = (Returns [task_A; task_B; task_C], w') /\
    w_tasks w' !! task_A = Some ta' /\ w_tasks w' !! task_B = Some tb' /\
    w_tasks w' !! task_C = Some tc' /\
    py_max_int [early_finish ta'; early_finish tb'; early_finish tc'] = Returns 10 /\
    late_start ta' - early_start ta' = 0 /\
    late_start tb' - early_start tb' = 0 /\
    late_start tc' - early_start tc' = 0.
Proof.
  eapply (chain_critical_path chain task_A task_B task_C);
    first [ reflexivity | (intros H; discriminate H) ].
Defined.

(** ** Adding an edge (Task.add_predecessor) *)

(** C1, as stated, fails: on the chain A -> B -> C, task C is reachable from
    task A, yet adding C as a predecessor of A returns normally and A's
    predecessor list changes from [[]] to [[C]]; a self-edge is accepted in
    the same way. *)
Lemma add_predecessor_accepts_cycle :
  reaches chain task_A task_C /\
  fst (Task.add_predecessor task_A task_C chain) = Returns tt /\
  predecessors <$> w_tasks chain !! task_A = Some [] /\
  predecessors <$> w_tasks (after (Task.add_predecessor task_A task_C) chain) !! task_A
    = Some [task_C] /\
  fst (Task.add_predecessor task_A task_A three_tasks) = Returns tt /\
  predecessors <$> w_tasks (after (Task.add_predecessor task_A task_A) three_tasks)
                     !! task_A = Some [task_A].
Proof.
  split.
  - apply (rtc_l _ task_A task_B task_C); [|apply rtc_once].
    + eexists. split; [reflexivity|]. cbn. set_solver.
    + eexists. split; [reflexivity|]. cbn. set_solver.
  - repeat split; reflexivity.
Qed.

(** C1, amended.  [add_predecessor] makes no reachability test and raises
    nothing.  For tasks [a] and [b] of the store, [b.add_predecessor(a)]
    leaves the store as it is when [a] is already a predecessor of [b];
    otherwise it returns having appended [a] to [b]'s predecessors and [b]
    to [a]'s successors, every other predecessor and successor list, the
    resources and the project being as before -- whether or not the new
    edge closes a cycle. *)
Theorem add_predecessor_spec (w : world) (a b : ref) (ta tb : task) :
  w_tasks w !! a = Some ta ->
  w_tasks w !! b = Some tb ->
  (a ∈ predecessors tb -> Task.add_predecessor b a w = (Returns tt, w)) /\
  (a ∉ predecessors tb ->
   exists w',
     Task.add_predecessor b a w = (Returns tt, w') /\
     w_resources w' = w_resources w /\
     w_project w' = w_project w /\
     forall c,
       match w_tasks w !! c, w_tasks w' !! c with
       | Some tc, Some tc' =>
           predecessors tc' =
             (if decide (c = b) then predecessors tc ++ [a] else predecessors tc) /\
           successors tc' =
             (if decide (c = a) then successors tc ++ [b] else successors tc)
       | None, None => True
       | _, _ => False
       end).
Proof.
  intros Ha Hb. unfold Task.add_predecessor. split; intros Hin.
  - erewrite bind_returns by (apply task_get_run; exact Hb).
    rewrite bool_decide_eq_true_2 by done. reflexivity.
  - erewrite bind_returns by (apply task_get_run; exact Hb).
    rewrite bool_decide_eq_false_2 by done.
    erewrite bind_returns by (apply task_modify_run; exact Hb).
    destruct (decide (a = b)) as [->|Hab].
    + eexists. split.
      { apply task_modify_run. cbn [w_tasks set_w_tasks].
        apply lookup_insert_eq. }
      split; [reflexivity|]. split; [reflexivity|].
      intros c. cbn [w_tasks set_w_tasks].
      destruct (decide (c = b)) as [->|Hc].
      * rewrite Hb, lookup_insert_eq. done.
      * rewrite !lookup_insert_ne by done. by destruct (w_tasks w !! c).
    + eexists. split.
      { apply task_modify_run. cbn [w_tasks set_w_tasks].
        rewrite lookup_insert_ne by done. exact Ha. }
      split; [reflexivity|]. split; [reflexivity|].
      intros c. cbn [w_tasks set_w_tasks].
      destruct (decide (c = a)) as [->|Hca].
      * rewrite Ha, lookup_insert_eq. rewrite decide_False by done. done.
      * rewrite lookup_insert_ne by done.
        destruct (decide (c = b)) as [->|Hcb].
        -- rewrite Hb, lookup_insert_eq. done.
        -- rewrite lookup_insert_ne by done. by destruct (w_tasks w !! c).
Qed.

Lemma add_predecessor_spec_witness :
  exists w',
    Task.add_predecessor task_A task_C chain = (Returns tt, w') /\
    w_resources w' = w_resources chain /\
    w_project w' = w_project chain /\
    forall c,
      match w_tasks chain !! c, w_tasks w' !! c with
      | Some tc, Some tc' =>
          predecessors tc' =
            (if decide (c = task_A) then predecessors tc ++ [task_C]
             else predecessors tc) /\
          successors tc' =
            (if decide (c = task_C) then successors tc ++ [task_A]
             else successors tc)
      | None, None => True
      | _, _ => False
      end.
Proof.
  refine (proj2 (add_predecessor_spec chain task_C task_A _ _ _ _) _).
  - reflexivity.
  - reflexivity.
  - cbn. set_solver.
Defined.

(** ** Deleting a task (Project.remove_task, ProjectController.delete_task) *)

Lemma py_remove_absent (x : ref) (l : list ref) :
  x ∉ l -> py_remove Nat.eqb x l = None.
Proof.
  induction l as [|y l IH]; intros Hx; simpl; [done|].
  destruct (Nat.eqb_spec x y) as [->|Hne]; [set_solver|].
  rewrite IH by set_solver. done.
Qed.

Lemma py_remove_first (x : ref) (l1 l2 : list ref) :
  x ∉ l1 -> py_remove Nat.eqb x (l1 ++ x :: l2) = Some (l1 ++ l2).
Proof.
  induction l1 as [|y l1 IH]; intros Hx; simpl.
  - by rewrite Nat.eqb_refl.
  - destruct (Nat.eqb_spec x y) as [->|Hne]; [set_solver|].
    rewrite IH by set_solver. done.
Qed.




(** ** Calendar decay (Resource._update_calendar, Resource.get_availability) *)

Lemma update_calendar_day_lookup u d r d' :
  calendar (Resource.update_calendar_day u d r) !! d' =
  if decide (d' = d) then Some (clamp (seed r d - u)) else calendar r !! d'.
Proof.
  unfold Resource.update_calendar_day, seed, clamp. cbn [calendar set_calendar].
  destruct (decide (d' = d)) as [->|Hne].
  - rewrite !lookup_alter_eq.
    destruct (calendar r !! d) as [v|] eqn:E.
    + rewrite E. reflexivity.
    + rewrite lookup_insert_eq. reflexivity.
  - rewrite !lookup_alter_ne by done.
    destruct (calendar r !! d); [done|]. by rewrite lookup_insert_ne.
Qed.

Lemma update_calendar_day_fields u d r :
  availability (Resource.update_calendar_day u d r) = availability r /\
  r_assignments (Resource.update_calendar_day u d r) = r_assignments r.
Proof. split; reflexivity. Qed.

Lemma while_days_modify_step {S} bound n start (f : datetime -> S -> S) (s : S) :
  snd (while_days bound (Datatypes.S n) start tt (fun d _ => modify (f d)) s) =
  if bound
  then snd (while_days bound n (start + 1) tt (fun d _ => modify (f d)) (f start s))
  else f start s.
Proof.
  cbn [while_days]. unfold bind at 1. unfold modify at 1.
  unfold bind at 1. unfold lift at 1, timedelta at 1.
  destruct bound; reflexivity.
Qed.

(** The state that the loop of [_update_calendar] leaves: the dates whose
    body ran are decayed once, every other date is untouched. *)
Lemma update_calendar_loop bound u n : forall start r,
  let r' := snd (while_days bound n start tt
                   (fun current_date _ =>
                      modify (Resource.update_calendar_day u current_date)) r) in
  availability r' = availability r /\
  r_assignments r' = r_assignments r /\
  forall d, calendar r' !! d =
            if (start <=? d) && (d <? start + bodies_run bound n)
            then Some (clamp (seed r d - u)) else calendar r !! d.
Proof.
  induction n as [|n IH]; intros start r; cbn zeta.
  - simpl. split; [done|]. split; [done|]. intros d.
    destruct (Z.leb_spec start d), (Z.ltb_spec d (start + bodies_run bound 0));
      cbn [andb]; try reflexivity.
    unfold bodies_run in *. destruct bound; lia.
  - rewrite while_days_modify_step.
    destruct bound.
    + specialize (IH (start + 1) (Resource.update_calendar_day u start r)).
      cbn zeta in IH. destruct IH as (Ha & Hl & Hc).
      split; [by rewrite Ha|]. split; [by rewrite Hl|].
      intros d. rewrite Hc, update_calendar_day_lookup.
      unfold bodies_run in *.
      destruct (Z.leb_spec (start + 1) d), (Z.ltb_spec d (start + 1 + Z.of_nat n)),
        (Z.leb_spec start d), (Z.ltb_spec d (start + Z.of_nat (S n)));
        cbn [andb];
        first
          [ lia
          | rewrite decide_True by lia; replace d with start by lia; reflexivity
          | rewrite decide_False by lia; reflexivity
          | unfold seed; rewrite update_calendar_day_lookup, decide_False by lia;
            reflexivity ].
    + cbn [snd]. split; [done|]. split; [done|].
      intros d. rewrite update_calendar_day_lookup. unfold bodies_run.
      destruct (Z.leb_spec start d), (Z.ltb_spec d (start + Z.min (Z.of_nat (S n)) 1));
        cbn [andb];
        first
          [ rewrite decide_True by lia; replace d with start by lia; reflexivity
          | rewrite decide_False by lia; reflexivity ].
Qed.

Lemma assignment_eqb_refl a : assignment_eqb a a = true.
Proof.
  unfold assignment_eqb.
  rewrite Nat.eqb_refl, !Z.eqb_refl, !Qeq_bool_refl. reflexivity.
Qed.

Lemma py_remove_is_Some {A} (eqb : A -> A -> bool) x l :
  (forall y, eqb y y = true) -> is_Some (py_remove eqb x (l ++ [x])).
Proof.
  intros Hr. induction l as [|y l IH]; simpl.
  - rewrite Hr. eauto.
  - destruct (eqb x y); [eauto|]. destruct IH as [l' ->]. simpl. eauto.
Qed.

Lemma clamp_restore (v u : Q) :
  (0 <= u)%Q -> (u <= v)%Q -> (v <= 1)%Q -> (clamp (clamp (v - u) - - u) == v)%Q.
Proof.
  intros Hu Huv Hv. unfold clamp.
  destruct (Q.min_spec 1 (v - u)) as [[? E1]|[? E1]];
  destruct (Q.max_spec 0 (Qmin 1 (v - u))) as [[? E2]|[? E2]];
  destruct (Q.min_spec 1 (Qmax 0 (Qmin 1 (v - u)) - - u)) as [[? E3]|[? E3]];
  destruct (Q.max_spec 0 (Qmin 1 (Qmax 0 (Qmin 1 (v - u)) - - u))) as [[? E4]|[? E4]];
  lra.
Qed.

Lemma update_calendar_state ns a (remove : bool) r :
  let u := if remove then (- a_units a)%Q else a_units a in
  let r' := snd (Resource._update_calendar ns a remove r) in
  availability r' = availability r /\
  r_assignments r' = r_assignments r /\
  forall d, calendar r' !! d =
            if (a_start_date a <=? d)
               && (d <? a_start_date a
                        + bodies_run (resource_py_timedelta ns)
                            (days_between (a_start_date a) (a_end_date a)))
            then Some (clamp (seed r d - u)) else calendar r !! d.
Proof. apply update_calendar_loop. Qed.

Lemma add_assignment_state ns a r :
  snd (Resource.add_assignment ns a r) =
  snd (Resource._update_calendar ns a false
         (set_r_assignments r (r_assignments r ++ [a]))).
Proof. reflexivity. Qed.

Lemma remove_assignment_state ns a r l :
  py_remove assignment_eqb a (r_assignments r) = Some l ->
  snd (Resource.remove_assignment ns a r) =
  snd (Resource._update_calendar ns a true (set_r_assignments r l)).
Proof.
  intros H. unfold Resource.remove_assignment. unfold bind at 1. unfold get.
  rewrite H. reflexivity.
Qed.

(** The availability that [add_assignment] followed by [remove_assignment]
    leaves on a date. *)
Lemma assign_then_remove_availability ns a r d :
  Resource.get_availability (assign_then_remove ns a r) d =
  if (a_start_date a <=? d)
     && (d <? a_start_date a
              + bodies_run (resource_py_timedelta ns)
                  (days_between (a_start_date a) (a_end_date a)))
  then clamp (clamp (seed r d - a_units a) - - a_units a)
  else Resource.get_availability r d.
Proof.
  unfold assign_then_remove. rewrite add_assignment_state.
  set (r0 := set_r_assignments r (r_assignments r ++ [a])).
  destruct (update_calendar_state ns a false r0) as (Ha1 & Hl1 & Hc1).
  set (r1 := snd (Resource._update_calendar ns a false r0)) in *.
  destruct (py_remove_is_Some assignment_eqb a (r_assignments r) assignment_eqb_refl)
    as [l Hl].
  rewrite (remove_assignment_state ns a r1 l) by (rewrite Hl1; exact Hl).
  destruct (update_calendar_state ns a true (set_r_assignments r1 l))
    as (Ha2 & Hl2 & Hc2).
  unfold Resource.get_availability. rewrite Hc2, Ha2.
  cbn [calendar availability set_r_assignments].
  rewrite Hc1, Ha1.
  destruct ((a_start_date a <=? d) && _) eqn:E.
  - unfold seed at 1. cbn [calendar set_r_assignments].
    rewrite Hc1, E. reflexivity.
  - reflexivity.
Qed.




(** ** Utilization (Resource.get_utilization) *)

Lemma utilization_loop (f g : resource -> datetime -> Q) n : forall start av asg r,
  while_days true n start (av, asg)
    (fun current_date '(total_available_hours, total_assigned_hours) =>
       self <- get ;;
       ret ((total_available_hours + f self current_date)%Q,
            (total_assigned_hours + g self current_date)%Q)) r
  = (Returns (fold_left Qplus (map (f r) (utilities.get_date_range_loop n start)) av,
              fold_left Qplus (map (g r) (utilities.get_date_range_loop n start)) asg),
     r).
Proof.
  induction n as [|n IH]; intros start av asg r; [reflexivity|].
  cbn [while_days utilities.get_date_range_loop map fold_left].
  unfold bind at 1. unfold bind at 1. unfold get at 1. unfold ret at 1.
  unfold bind at 1. unfold lift at 1, timedelta at 1.
  apply IH.
Qed.

(** What [get_utilization] returns once [timedelta] resolves: the two
    totals are the sums over the dates of the range, and the resource is
    not written to. *)
Lemma get_utilization_run ns r start_date end_date :
  resource_py_timedelta ns = true ->
  Resource.get_utilization ns start_date end_date r =
  (Returns
     (let dates := utilities.get_date_range start_date end_date in
      let total_available_hours :=
        py_sum (map (fun d => Resource.get_availability r d * 8)%Q dates) in
      let total_assigned_hours := py_sum (map (Resource.assigned_hours r) dates) in
      if Qltb 0 total_available_hours
      then (total_assigned_hours / total_available_hours)%Q else 0%Q), r).
Proof.
  intros Hns. unfold Resource.get_utilization. rewrite Hns.
  erewrite bind_returns;
    [|apply (utilization_loop (fun self d => Resource.get_availability self d * 8)%Q
               Resource.assigned_hours)].
  reflexivity.
Qed.

Lemma fold_left_Qplus_acc (l : list Q) (acc : Q) :
  (fold_left Qplus l acc == acc + fold_left Qplus l 0)%Q.
Proof.
  revert acc. induction l as [|x l IH]; intros acc; simpl; [lra|].
  rewrite (IH (acc + x)%Q), (IH (0 + x)%Q). lra.
Qed.

Lemma py_sum_cons (x : Q) (l : list Q) : (py_sum (x :: l) == x + py_sum l)%Q.
Proof. unfold py_sum. simpl. rewrite fold_left_Qplus_acc. lra. Qed.

Lemma py_sum_map_ext {A} (f g : A -> Q) (l : list A) :
  (forall x, x ∈ l -> (f x == g x)%Q) -> (py_sum (map f l) == py_sum (map g l))%Q.
Proof.
  induction l as [|x l IH]; intros H; [reflexivity|].
  cbn [map]. rewrite !py_sum_cons, IH, (H x); [reflexivity|set_solver|set_solver].
Qed.

Lemma py_sum_nonneg (l : list Q) :
  (forall x, x ∈ l -> (0 <= x)%Q) -> (0 <= py_sum l)%Q.
Proof.
  induction l as [|x l IH]; intros H; [unfold py_sum; simpl; lra|].
  rewrite py_sum_cons. pose proof (H x ltac:(set_solver)).
  pose proof (IH ltac:(set_solver)). lra.
Qed.

Lemma get_availability_nonneg r d :
  nonneg_availability r -> (0 <= Resource.get_availability r d)%Q.
Proof.
  intros [Ha Hc]. unfold Resource.get_availability.
  destruct (calendar r !! d) as [v|] eqn:E; [eauto|].
  destruct (weekday d <? 5); [done|lra].
Qed.

Lemma assigned_hours_spec r d :
  (Resource.assigned_hours r d ==
   py_sum (map (fun a => 8 * a_units a)%Q
             (List.filter (fun a => (a_start_date a <=? d) && (d <=? a_end_date a))
                          (r_assignments r))))%Q.
Proof.
  unfold Resource.assigned_hours.
  apply py_sum_map_ext. intros a _. lra.
Qed.

Lemma Qltb_true x y : Qltb x y = true <-> (x < y)%Q.
Proof.
  unfold Qltb. rewrite negb_true_iff. split.
  - intros H. apply Qnot_le_lt. intros Hle. apply Qle_bool_iff in Hle. congruence.
  - intros H. destruct (Qle_bool y x) eqn:E; [|done].
    apply Qle_bool_iff in E. lra.
Qed.

(** The value of [get_utilization] is the quotient of the specification. *)
Lemma get_utilization_value ns r start_date end_date :
  resource_py_timedelta ns = true ->
  nonneg_availability r ->
  exists u,
    Resource.get_utilization ns start_date end_date r = (Returns u, r) /\
    (u == spec_utilization r start_date end_date)%Q.
Proof.
  intros Hns Hnn. rewrite get_utilization_run by done. eexists. split; [reflexivity|].
  cbn zeta. unfold spec_utilization, spec_available_hours, spec_assigned_hours.
  set (dates := utilities.get_date_range start_date end_date).
  set (av := py_sum (map (fun d => Resource.get_availability r d * 8)%Q dates)).
  assert (0 <= av)%Q as Hav.
  { apply py_sum_nonneg. intros x Hx. apply list_elem_of_fmap in Hx as (d & -> & _).
    pose proof (get_availability_nonneg r d Hnn). lra. }
  assert (py_sum (map (Resource.assigned_hours r) dates) ==
          py_sum (map (fun d =>
            py_sum (map (fun a => 8 * a_units a)
              (List.filter (fun a => (a_start_date a <=? d) && (d <=? a_end_date a))
                 (r_assignments r)))) dates))%Q as Hasg.
  { apply py_sum_map_ext. intros d _. apply assigned_hours_spec. }
  destruct (Qltb 0 av) eqn:E.
  - apply Qltb_true in E.
    destruct (Qeq_bool av 0) eqn:E0; [apply Qeq_bool_iff in E0; lra|].
    rewrite Hasg. reflexivity.
  - destruct (Qeq_bool av 0) eqn:E0; [reflexivity|].
    apply Qeq_bool_neq in E0.
    assert (~ (0 < av)%Q) by (rewrite <- Qltb_true; congruence). lra.
Qed.

Lemma weekday_from_monday s i :
  weekday s = 0 -> 0 <= i < 5 -> (weekday (s + i) <? 5) = true.
Proof.
  unfold weekday. intros Hs Hi. apply Z.ltb_lt.
  pose proof (Z.div_mod (s + 6) 7 ltac:(lia)).
  pose proof (Z.div_mod (s + i + 6) 7 ltac:(lia)).
  pose proof (Z.mod_pos_bound (s + i + 6) 7 ltac:(lia)). lia.
Qed.

Lemma five_day_range s :
  utilities.get_date_range s (s + 4) = [s; s + 1; s + 1 + 1; s + 1 + 1 + 1; s + 1 + 1 + 1 + 1].
Proof.
  unfold utilities.get_date_range, days_between.
  replace (s + 4 - s + 1) with 5 by lia. reflexivity.
Qed.

Lemma clamp_nonneg x : (0 <= clamp x)%Q.
Proof. unfold clamp. apply Q.le_max_l. Qed.

Lemma clamp_zero x : (x == 0)%Q -> (clamp x == 0)%Q.
Proof.
  intros H. unfold clamp.
  destruct (Q.min_spec 1 x) as [[? E1]|[? E1]];
  destruct (Q.max_spec 0 (Qmin 1 x)) as [[? E2]|[? E2]]; lra.
Qed.

(** After [add_assignment] of a full-time assignment on Monday..Friday to a
    resource of availability 1.0 with an empty calendar, the decay leaves
    no available hour on the five days and [get_utilization] returns 0.0. *)
Lemma utilization_after_decay ns r a s :
  resource_py_timedelta ns = true ->
  (availability r == 1)%Q -> calendar r = ∅ -> r_assignments r = [] ->
  (a_units a == 1)%Q -> a_start_date a = s -> a_end_date a = s + 4 ->
  Resource.get_utilization ns s (s + 4) (snd (Resource.add_assignment ns a r))
  = (Returns 0%Q, snd (Resource.add_assignment ns a r)).
Proof.
  intros Hns Hav Hcal Hasg Hu Hs He.
  rewrite get_utilization_run by done. cbn zeta.
  rewrite add_assignment_state.
  destruct (update_calendar_state ns a false
              (set_r_assignments r (r_assignments r ++ [a]))) as (Ha & Hl & Hc).
  cbn zeta in *.
  set (r1 := snd (Resource._update_calendar ns a false _)) in *.
  rewrite Hns, Hs, He in Hc. unfold days_between, bodies_run in Hc.
  replace (s + 4 - s + 1) with 5 in Hc by lia.
  assert (forall d, s <= d < s + 5 -> (Resource.get_availability r1 d * 8 == 0)%Q) as Hday.
  { intros d Hd. unfold Resource.get_availability. rewrite Hc.
    replace ((s <=? d) && (d <? s + Z.of_nat (Z.to_nat 5))) with true
      by (symmetry; rewrite andb_true_iff, Z.leb_le, Z.ltb_lt; lia).
    rewrite clamp_zero; [lra|].
    unfold seed. cbn [calendar set_r_assignments]. rewrite Hcal, lookup_empty.
    cbn [availability set_r_assignments]. lra. }
  replace (Qltb 0 (py_sum (map (fun d => (Resource.get_availability r1 d * 8)%Q)
                             (utilities.get_date_range s (s + 4))))) with false;
    [reflexivity|].
  symmetry. apply not_true_is_false. rewrite Qltb_true.
  rewrite five_day_range. cbn [map]. rewrite !py_sum_cons.
  rewrite !Hday by lia. unfold py_sum. cbn [fold_left]. lra.
Qed.

(** The same resource with the assignment on its list and no calendar
    entry: 40 assigned hours over 40 available hours. *)
Lemma utilization_without_decay ns r a s :
  resource_py_timedelta ns = true ->
  weekday s = 0 ->
  (availability r == 1)%Q -> calendar r = ∅ ->
  (a_units a == 1)%Q -> a_start_date a = s -> a_end_date a = s + 4 ->
  exists u,
    Resource.get_utilization ns s (s + 4) (set_r_assignments r [a])
    = (Returns u, set_r_assignments r [a]) /\ (u == 1)%Q.
Proof.
  intros Hns Hmon Hav Hcal Hu Hs He.
  rewrite get_utilization_run by done. eexists. split; [reflexivity|].
  cbn zeta. set (r2 := set_r_assignments r [a]).
  assert (forall i, 0 <= i < 5 ->
            (Resource.get_availability r2 (s + i)%Z * 8 == 8)%Q) as Hday.
  { intros i Hi. unfold Resource.get_availability, r2.
    cbn [calendar availability set_r_assignments].
    rewrite Hcal, lookup_empty, weekday_from_monday by done. lra. }
  assert (forall i, 0 <= i < 5 -> (Resource.assigned_hours r2 (s + i)%Z == 8)%Q) as Hhrs.
  { intros i Hi. rewrite assigned_hours_spec. unfold r2.
    cbn [r_assignments set_r_assignments List.filter]. rewrite Hs, He.
    replace ((s <=? s + i) && (s + i <=? s + 4)) with true
      by (symmetry; rewrite andb_true_iff, !Z.leb_le; lia).
    lazy beta iota. cbn [map]. unfold py_sum. cbn [fold_left]. lra. }
  pose proof (Hday 0 ltac:(lia)) as D0. rewrite Z.add_0_r in D0.
  pose proof (Hhrs 0 ltac:(lia)) as A0. rewrite Z.add_0_r in A0.
  rewrite five_day_range.
  replace (s + 1 + 1 + 1 + 1) with (s + 4) by lia.
  replace (s + 1 + 1 + 1) with (s + 3) by lia.
  replace (s + 1 + 1) with (s + 2) by lia.
  set (av := py_sum (map _ _)). set (asg := py_sum (map _ _)).
  assert (av == 40)%Q as Hav40.
  { unfold av. cbn [map]. rewrite !py_sum_cons, D0, !Hday by lia.
    unfold py_sum. cbn [fold_left]. lra. }
  assert (asg == 40)%Q as Hasg40.
  { unfold asg. cbn [map]. rewrite !py_sum_cons, A0, !Hhrs by lia.
    unfold py_sum. cbn [fold_left]. lra. }
  destruct (Qltb 0 av) eqn:E.
  - rewrite Hav40, Hasg40. reflexivity.
  - assert (~ (0 < av)%Q) by (rewrite <- Qltb_true; congruence). lra.
Qed.


(** In the namespace that resource.py creates, the loops stop with
    [NameError] at the end of their first iteration. *)
Lemma shipped_get_utilization_raises r start_date end_date :
  start_date <= end_date ->
  Resource.get_utilization shipped start_date end_date r = (Raises NameError, r).
Proof.
  intros H. unfold Resource.get_utilization, days_between.
  destruct (Z.to_nat (end_date - start_date + 1)) as [|n] eqn:E; [lia|].
  reflexivity.
Qed.

Lemma shipped_add_assignment_raises a r :
  a_start_date a <= a_end_date a ->
  fst (Resource.add_assignment shipped a r) = Raises NameError.
Proof.
  intros H. unfold Resource.add_assignment, Resource._update_calendar, days_between.
  destruct (Z.to_nat (a_end_date a - a_start_date a + 1)) as [|n] eqn:E; [lia|].
  reflexivity.
Qed.



(** Non-negative availabilities are an invariant of the calendar updates:
    both writers clamp what they store. *)
Lemma nonneg_availability_update ns a (remove : bool) r :
  nonneg_availability r ->
  nonneg_availability (snd (Resource._update_calendar ns a remove r)).
Proof.
  intros [Ha Hc].
  destruct (update_calendar_state ns a remove r) as (Ea & _ & Ec).
  split; [by rewrite Ea|].
  intros d v. rewrite Ec. destruct (_ && _).
  - intros [= <-]. apply clamp_nonneg.
  - apply Hc.
Qed.

Lemma nonneg_availability_add_assignment ns a r :
  nonneg_availability r ->
  nonneg_availability (snd (Resource.add_assignment ns a r)).
Proof.
  intros H. rewrite add_assignment_state.
  apply nonneg_availability_update. exact H.
Qed.

(** ** Reports and analyses: what they write (ProjectController) *)

Lemma same_but_schedule_refl w : same_but_schedule w w.
Proof. by repeat split. Qed.

Lemma same_but_schedule_trans w1 w2 w3 :
  same_but_schedule w1 w2 -> same_but_schedule w2 w3 -> same_but_schedule w1 w3.
Proof.
  intros (?&?&?&?&?) (?&?&?&?&?). repeat split; congruence.
Qed.

Lemma preserves_weaken {S A} (R : S -> S -> Prop) (m : M S A) :
  (forall s, R s s) -> preserves eq m -> preserves R m.
Proof. intros Hr Hm s. rewrite <- (Hm s). apply Hr. Qed.

Lemma preserves_task_get r : preserves eq (task_get r).
Proof. intros w. unfold task_get. by destruct (w_tasks w !! r). Qed.

Lemma preserves_resource_get r : preserves eq (resource_get r).
Proof. intros w. unfold resource_get. by destruct (w_resources w !! r). Qed.

Lemma preserves_on_resource {A} r (m : M resource A) :
  preserves eq m -> preserves eq (on_resource r m).
Proof.
  intros Hm w. unfold on_resource.
  destruct (w_resources w !! r) as [x|] eqn:E; [|done].
  specialize (Hm x). destruct (m x) as [o x']. simpl in *. subst x'.
  rewrite insert_id by done. by destruct w.
Qed.

(** A write to the early/late fields of a stored task is invisible once
    those fields are blanked. *)
Lemma preserves_task_modify r (f : task -> task) :
  (forall t, unscheduled (f t) = unscheduled t) ->
  preserves same_but_schedule (task_modify r f).
Proof.
  intros Hf w. unfold task_modify.
  destruct (w_tasks w !! r) as [t|] eqn:E; [|apply same_but_schedule_refl].
  repeat split. cbn [snd w_tasks set_w_tasks].
  rewrite fmap_insert, Hf. apply insert_id. by rewrite lookup_fmap, E.
Qed.

(** Resolves a frame goal by the structure of the command; [tac_refl] and
    [tac_trans] close the two side conditions on the relation and [tac_leaf] closes
    the calls whose frame is already known. *)
Ltac frame_with tac_refl tac_trans tac_leaf :=
  repeat first
    [ progress intros
    | tac_leaf
    | apply preserves_bind; [solve [tac_trans] | |]
    | apply preserves_ret; solve [tac_refl]
    | apply preserves_raise; solve [tac_refl]
    | apply preserves_lift; solve [tac_refl]
    | apply preserves_gets; solve [tac_refl]
    | apply preserves_get; solve [tac_refl]
    | apply preserves_for_each; [solve [tac_refl] | solve [tac_trans] |]
    | apply preserves_map_m; [solve [tac_refl] | solve [tac_trans] |]
    | apply preserves_fold_m; [solve [tac_refl] | solve [tac_trans] |]
    | apply preserves_while_days; [solve [tac_refl] | solve [tac_trans] |]
    | match goal with
      | |- preserves _ (match ?x with _ => _ end) => destruct x
      | |- preserves _ (if ?x then _ else _) => destruct x
      end ].

Create HintDb frame discriminated.

#[local] Hint Resolve preserves_task_get preserves_resource_get : frame.

Ltac read_only :=
  frame_with ltac:(intros; reflexivity) ltac:(intros; congruence)
             ltac:(solve [eauto with frame]).

Lemma preserves_get_utilization ns s e :
  preserves eq (Resource.get_utilization ns s e).
Proof. unfold Resource.get_utilization. read_only. Qed.

Lemma preserves_get_cost t : preserves eq (Task.get_cost t).
Proof. unfold Task.get_cost. read_only. Qed.

Lemma preserves_get_project_duration : preserves eq Project.get_project_duration.
Proof. unfold Project.get_project_duration. read_only. Qed.

#[local] Hint Resolve preserves_get_cost preserves_get_project_duration : frame.

Lemma preserves_get_total_cost : preserves eq Project.get_total_cost.
Proof. unfold Project.get_total_cost. read_only. Qed.

Lemma preserves_get_resource_utilization : preserves eq Project.get_resource_utilization.
Proof. unfold Project.get_resource_utilization. read_only. Qed.

Lemma preserves_max_end_date l : preserves eq (ProjectController.max_end_date l).
Proof. unfold ProjectController.max_end_date. read_only. Qed.

Lemma preserves_tasks_using r l : preserves eq (ProjectController.tasks_using r l).
Proof. unfold ProjectController.tasks_using. read_only. Qed.

Lemma preserves_sort_tasks key rev l :
  preserves eq (ProjectController.sort_tasks key rev l).
Proof. unfold ProjectController.sort_tasks. read_only. Qed.

Lemma preserves_calculate_project_completion :
  preserves eq ProjectController.calculate_project_completion.
Proof. unfold ProjectController.calculate_project_completion. read_only. Qed.

#[local] Hint Resolve preserves_get_total_cost preserves_get_resource_utilization
  preserves_max_end_date preserves_tasks_using preserves_sort_tasks
  preserves_calculate_project_completion : frame.

Lemma preserves_find_resource_conflicts ns :
  preserves eq (ProjectController.find_resource_conflicts ns).
Proof.
  unfold ProjectController.find_resource_conflicts, ProjectController.scan_resource.
  read_only.
Qed.

Lemma preserves_generate_summary_report :
  preserves eq ProjectController.generate_summary_report.
Proof. unfold ProjectController.generate_summary_report. read_only. Qed.

Lemma preserves_generate_task_report :
  preserves eq ProjectController.generate_task_report.
Proof. unfold ProjectController.generate_task_report. read_only. Qed.

Lemma preserves_generate_resource_report :
  preserves eq ProjectController.generate_resource_report.
Proof. unfold ProjectController.generate_resource_report. read_only. Qed.

Lemma preserves_generate_timeline_report :
  preserves eq ProjectController.generate_timeline_report.
Proof. unfold ProjectController.generate_timeline_report. read_only. Qed.

#[local] Hint Resolve preserves_find_resource_conflicts preserves_generate_summary_report
  preserves_generate_task_report preserves_generate_resource_report
  preserves_generate_timeline_report : frame.

Lemma preserves_generate_reports : preserves eq ProjectController.generate_reports.
Proof. unfold ProjectController.generate_reports. read_only. Qed.

(** The critical-path pass writes the early/late fields and nothing else. *)
Ltac schedule_only :=
  frame_with ltac:(exact same_but_schedule_refl) ltac:(exact same_but_schedule_trans)
    ltac:(first [ apply preserves_task_modify; intros; reflexivity
                | apply (preserves_weaken _ _ same_but_schedule_refl);
                  solve [eauto with frame] ]).

Lemma preserves_calculate_critical_path :
  preserves same_but_schedule Project.calculate_critical_path.
Proof.
  unfold Project.calculate_critical_path, Project.forward_step, Project.backward_step.
  schedule_only.
Qed.

Lemma preserves_analyze_schedule_risks :
  preserves same_but_schedule ProjectController.analyze_schedule_risks.
Proof.
  unfold ProjectController.analyze_schedule_risks.
  frame_with ltac:(exact same_but_schedule_refl) ltac:(exact same_but_schedule_trans)
    ltac:(first [ apply preserves_calculate_critical_path
                | apply (preserves_weaken _ _ same_but_schedule_refl);
                  solve [eauto with frame] ]).
Qed.

Lemma preserves_analyze_project ns :
  preserves same_but_schedule (ProjectController.analyze_project ns).
Proof.
  unfold ProjectController.analyze_project.
  frame_with ltac:(exact same_but_schedule_refl) ltac:(exact same_but_schedule_trans)
    ltac:(first [ apply preserves_calculate_critical_path
                | apply preserves_analyze_schedule_risks
                | apply (preserves_weaken _ _ same_but_schedule_refl);
                  solve [eauto with frame] ]).
Qed.

(** C6, as stated, fails for the two analyses that run the critical-path
    pass: on three fresh tasks (all early/late fields 0) both return, and
    afterwards task A has early finish 5 and task B late start 2. *)
Lemma analysis_writes_schedule_fields :
  Forall (fun ns =>
    early_finish <$> w_tasks three_tasks !! task_A = Some 0 /\
    late_start <$> w_tasks three_tasks !! task_B = Some 0 /\
    (exists r, fst (ProjectController.analyze_project ns three_tasks) = Returns r) /\
    early_finish <$> w_tasks (after (ProjectController.analyze_project ns) three_tasks)
                       !! task_A = Some 5 /\
    late_start <$> w_tasks (after (ProjectController.analyze_project ns) three_tasks)
                     !! task_B = Some 2 /\
    (exists r, fst (ProjectController.analyze_schedule_risks three_tasks) = Returns r) /\
    early_finish <$> w_tasks (after ProjectController.analyze_schedule_risks three_tasks)
                       !! task_A = Some 5)
  [shipped; patched].
Proof.
  repeat constructor; try (vm_compute; reflexivity);
    vm_compute; eexists; reflexivity.
Qed.

(** C6, amended.  [generate_reports], its four sub-reports and the
    day-by-day conflict scan leave the whole state as it was, whether they
    return or raise.  [analyze_project] and [analyze_schedule_risks] run
    the critical-path pass: they overwrite the early/late start/finish
    fields of the tasks and leave everything else -- start date, duration,
    edges and assignments of every task, calendar and assignment list of
    every resource, the project and the undo stacks -- as it was. *)
Theorem reports_frame (ns : namespaces) (w : world) :
  after ProjectController.generate_reports w = w /\
  after ProjectController.generate_summary_report w = w /\
  after ProjectController.generate_task_report w = w /\
  after ProjectController.generate_resource_report w = w /\
  after ProjectController.generate_timeline_report w = w /\
  after (ProjectController.find_resource_conflicts ns) w = w /\
  same_but_schedule w (after (ProjectController.analyze_project ns) w) /\
  same_but_schedule w (after ProjectController.analyze_schedule_risks w).
Proof.
  unfold after. repeat split.
  - symmetry. apply preserves_generate_reports.
  - symmetry. apply preserves_generate_summary_report.
  - symmetry. apply preserves_generate_task_report.
  - symmetry. apply preserves_generate_resource_report.
  - symmetry. apply preserves_generate_timeline_report.
  - symmetry. apply preserves_find_resource_conflicts.
  - apply preserves_analyze_project.
  - apply preserves_analyze_project.
  - apply preserves_analyze_project.
  - apply preserves_analyze_project.
  - apply preserves_analyze_project.
  - apply preserves_analyze_schedule_risks.
  - apply preserves_analyze_schedule_risks.
  - apply preserves_analyze_schedule_risks.
  - apply preserves_analyze_schedule_risks.
  - apply preserves_analyze_schedule_risks.
Qed.

(** C5: the code at a project that is non-empty and consistent (task A
    holds one assignment, which is also on the resource's list).
    [get_resource_utilization] reads [assignment.hours] on a dict and
    raises [AttributeError]; so do [analyze_project], the resource report
    and [generate_reports].  In the namespace that project_controller.py
    creates, the conflict scan raises [NameError] at its first
    [timedelta]. *)
Theorem reports_raise_on_staffed_project :
  Forall (fun ns =>
    t_assignments <$> w_tasks (staffed ns) !! task_A
      = r_assignments <$> w_resources (staffed ns) !! res_1 /\
    length <$> (r_assignments <$> w_resources (staffed ns) !! res_1) = Some 1%nat /\
    fst (Project.get_resource_utilization (staffed ns)) = Raises AttributeError /\
    fst (ProjectController.analyze_project ns (staffed ns)) = Raises AttributeError /\
    fst (ProjectController.generate_resource_report (staffed ns)) = Raises AttributeError /\
    fst (ProjectController.generate_reports (staffed ns)) = Raises AttributeError)
  [shipped; patched] /\
  fst (ProjectController.find_resource_conflicts shipped (staffed shipped))
    = Raises NameError.
Proof.
  split; [repeat constructor|]; vm_compute; reflexivity.
Qed.

(** ** Leveling (ProjectController.level_resources) *)

Lemma set_start_date_id t : set_start_date t (start_date t) = t.
Proof. by destruct t. Qed.

Lemma shifted_refl k w : (forall x, 0 <= k x) -> shifted k w w.
Proof.
  intros Hk. split; [done|]. split; [done|]. intros x.
  destruct (w_tasks w !! x) as [t|]; [|done].
  split; [apply set_start_date_id|].
  destruct (start_date t); [|done]. specialize (Hk x). nia.
Qed.

Lemma shifted_trans k1 k2 w1 w2 w3 :
  shifted k1 w1 w2 -> shifted k2 w2 w3 -> shifted (fun x => k1 x + k2 x) w1 w3.
Proof.
  intros (Hr1 & Hp1 & H1) (Hr2 & Hp2 & H2).
  split; [congruence|]. split; [congruence|]. intros x.
  specialize (H1 x). specialize (H2 x).
  destruct (w_tasks w1 !! x) as [t1|], (w_tasks w2 !! x) as [t2|],
    (w_tasks w3 !! x) as [t3|]; try done.
  destruct H1 as [E1 B1], H2 as [E2 B2].
  assert (Task.get_float t2 = Task.get_float t1) as Hf by (by rewrite <- E1).
  split.
  - transitivity (set_start_date t2 (start_date t1)); [|exact E1].
    rewrite <- E2. by destruct t3.
  - rewrite Hf in B2.
    destruct (start_date t1), (start_date t2), (start_date t3); try done. nia.
Qed.

Lemma shifted_mono k k' w w' :
  (forall x, k x <= k' x) -> shifted k w w' -> shifted k' w w'.
Proof.
  intros Hk (Hr & Hp & H). split; [done|]. split; [done|]. intros x.
  specialize (H x). specialize (Hk x).
  destruct (w_tasks w !! x) as [t|], (w_tasks w' !! x) as [t'|]; try done.
  destruct H as [E Hb]. split; [done|].
  destruct (start_date t), (start_date t'); try done. nia.
Qed.

(** Tasks keep their assignments along a shift. *)
Lemma shifted_lookup k w w' x t :
  shifted k w w' -> w_tasks w !! x = Some t ->
  exists t', w_tasks w' !! x = Some t' /\ set_start_date t' (start_date t) = t.
Proof.
  intros (_ & _ & H) Hx. specialize (H x). rewrite Hx in H.
  destruct (w_tasks w' !! x) as [t'|]; [|done]. exists t'. by destruct H.
Qed.

Lemma snd_bind {S A B} (m : M S A) (k : A -> M S B) s :
  snd (bind m k s) =
  match fst (m s) with
  | Returns a => snd (k a (snd (m s)))
  | Raises _ => snd (m s)
  end.
Proof. unfold bind. by destruct (m s) as [[a|e] s']. Qed.

Lemma snd_bind_read_only {S A B} (m : M S A) (k : A -> M S B) s :
  preserves eq m ->
  snd (bind m k s) =
  match fst (m s) with
  | Returns a => snd (k a s)
  | Raises _ => s
  end.
Proof. intros Hm. rewrite snd_bind, <- (Hm s). reflexivity. Qed.

(** What a comprehension that reads one task per element returns. *)
Lemma map_m_task_get {B} (g : ref -> task -> B) l w ys :
  fst (map_m (fun x => t <- task_get x ;; ret (g x t)) l w) = Returns ys ->
  Forall2 (fun x y => exists t, w_tasks w !! x = Some t /\ y = g x t) l ys.
Proof.
  revert ys. induction l as [|x l IH]; intros ys; cbn [map_m].
  - intros [= <-]. constructor.
  - unfold bind at 1. unfold bind at 1. unfold task_get at 1.
    destruct (w_tasks w !! x) as [t|] eqn:E; [|intros [=]].
    unfold ret at 1. unfold bind at 1.
    destruct (map_m _ l w) as [[zs|e] w'] eqn:Em; [|intros [=]].
    intros [= <-]. constructor; [eauto|]. apply IH. reflexivity.
Qed.

Lemma insert_by_perm {A} (le : A -> A -> bool) x l : insert_by le x l ≡ₚ x :: l.
Proof.
  induction l as [|y l IH]; simpl; [done|].
  destruct (le x y); [done|]. rewrite IH. apply Permutation_swap.
Qed.

Lemma sort_by_perm {A} (le : A -> A -> bool) l : sort_by le l ≡ₚ l.
Proof.
  induction l as [|x l IH]; simpl; [done|].
  unfold sort_by in *. simpl. rewrite insert_by_perm. by constructor.
Qed.

Lemma occurrences_perm x l l' : l ≡ₚ l' -> occurrences x l = occurrences x l'.
Proof.
  intros H. unfold occurrences. f_equal.
  by apply (Permutation.Permutation_count_occ Nat.eq_dec).
Qed.

Lemma occurrences_nonneg x l : 0 <= occurrences x l.
Proof. unfold occurrences. lia. Qed.

Lemma occurrences_cons x y l :
  occurrences x (y :: l) = (if decide (y = x) then 1 else 0) + occurrences x l.
Proof.
  unfold occurrences. cbn [count_occ].
  destruct (Nat.eq_dec y x), (decide (y = x)); try done; lia.
Qed.

Lemma sort_tasks_occurrences key rev l w L x :
  fst (ProjectController.sort_tasks key rev l w) = Returns L ->
  occurrences x L = occurrences x l.
Proof.
  unfold ProjectController.sort_tasks. unfold bind at 1.
  destruct (map_m _ l w) as [[ts|e] w'] eqn:E; [|intros [=]].
  intros [= <-].
  pose proof (map_m_task_get (fun x t => (x, key t)) l w ts) as H.
  cbv beta in H. rewrite E in H. specialize (H eq_refl). clear E.
  assert (map fst ts = l) as <-.
  { induction H as [|a b l ts (t & _ & ->) _ IH]; [done|]. cbn [map fst].
    by rewrite IH. }
  apply occurrences_perm. apply fmap_Permutation, sort_by_perm.
Qed.

(** How often task [x] is delayed for resource [r]: once per occurrence on
    the task list if it holds an assignment on [r], else never. *)
Lemma tasks_using_occurrences r l w L x :
  fst (ProjectController.tasks_using r l w) = Returns L ->
  occurrences x L <=
  match w_tasks w !! x with
  | Some t => if ProjectController.uses_resource r t then occurrences x l else 0
  | None => 0
  end.
Proof.
  unfold ProjectController.tasks_using. unfold bind at 1.
  destruct (map_m _ l w) as [[ts|e] w'] eqn:E; [|intros [=]].
  intros [= <-].
  pose proof (map_m_task_get (fun x t => (x, t)) l w ts) as H.
  cbv beta in H. rewrite E in H. specialize (H eq_refl). clear E.
  induction H as [|a b l ts (t & Ha & ->) _ IH].
  - cbn. destruct (w_tasks w !! x) as [t|]; [destruct (_ r t)|]; done.
  - cbn [List.filter snd]. rewrite occurrences_cons.
    pose proof (occurrences_nonneg x l).
    destruct (ProjectController.uses_resource r t) eqn:Eu.
    + cbn [map fst]. rewrite occurrences_cons.
      destruct (decide (a = x)) as [->|Hne].
      * rewrite Ha, Eu in IH |- *. lia.
      * destruct (w_tasks w !! x) as [t'|]; [destruct (_ r t')|]; lia.
    + destruct (decide (a = x)) as [->|Hne].
      * rewrite Ha, Eu in IH |- *. lia.
      * destruct (w_tasks w !! x) as [t'|]; [destruct (_ r t')|]; lia.
Qed.

(** One delay moves one task, by at most its float. *)
Lemma delay_task_shifted ns u task w :
  shifted (fun x => if decide (task = x) then 1 else 0) w
    (snd (ProjectController.delay_task ns u task w)).
Proof.
  assert (forall x : ref, 0 <= (if decide (task = x) then 1 else 0)) as Hk
    by (intros x; destruct (decide (task = x)); lia).
  unfold ProjectController.delay_task. unfold bind at 1. unfold task_get at 1.
  destruct (w_tasks w !! task) as [t|] eqn:E; [|by apply shifted_refl].
  destruct (Z.ltb_spec 0 (Task.get_float t)) as [Hf|Hf]; [|by apply shifted_refl].
  unfold bind at 1. unfold lift at 1, timedelta at 1.
  destruct (project_controller_py_timedelta ns); [|by apply shifted_refl].
  destruct (start_date t) as [d|] eqn:Ed; [|by apply shifted_refl].
  unfold task_modify. rewrite E. cbn [snd].
  split; [done|]. split; [done|]. intros x. cbn [w_tasks set_w_tasks].
  destruct (decide (task = x)) as [<-|Hne].
  - rewrite E, lookup_insert_eq. split.
    + by destruct t.
    + rewrite Ed. cbn [start_date set_start_date].
      assert (Task.get_float (set_start_date t (Some d)) = Task.get_float t) as Hfl
        by reflexivity.
      lia.
  - rewrite lookup_insert_ne by done.
    destruct (w_tasks w !! x) as [t'|]; [|done].
    split; [apply set_start_date_id|]. destruct (start_date t'); [lia|done].
Qed.

Lemma for_each_delay_shifted ns u l : forall w,
  shifted (fun x => occurrences x l) w
    (snd (for_each l (ProjectController.delay_task ns u) w)).
Proof.
  induction l as [|y l IH]; intros w.
  - apply shifted_refl. intros x. apply occurrences_nonneg.
  - cbn [for_each]. rewrite snd_bind.
    pose proof (delay_task_shifted ns u y w) as H1.
    destruct (fst (ProjectController.delay_task ns u y w)).
    + eapply shifted_mono; [|eapply shifted_trans; [exact H1|apply IH]].
      intros x. cbv beta. rewrite occurrences_cons. lia.
    + eapply shifted_mono; [|exact H1].
      intros x. cbv beta. rewrite occurrences_cons.
      pose proof (occurrences_nonneg x l). lia.
Qed.

(** The delays that one resource can cause. *)
Lemma level_resource_shifted ns tasks r w :
  shifted (fun x => match w_tasks w !! x with
                    | Some t => if ProjectController.uses_resource r t
                                then occurrences x tasks else 0
                    | None => 0
                    end) w
    (snd (ProjectController.level_resource ns tasks r w)).
Proof.
  match goal with |- shifted ?f _ _ => set (k := f) end.
  assert (forall x, 0 <= k x) as Hk.
  { intros x. unfold k. pose proof (occurrences_nonneg x tasks).
    destruct (w_tasks w !! x) as [t|]; [destruct (_ r t)|]; lia. }
  unfold ProjectController.level_resource.
  rewrite snd_bind_read_only
    by (intros s; reflexivity).
  cbn [fst gets].
  rewrite snd_bind_read_only by apply preserves_max_end_date.
  destruct (fst (ProjectController.max_end_date tasks w)) as [end_|e];
    [|by apply shifted_refl].
  rewrite snd_bind_read_only.
  2:{ destruct end_.
      - apply preserves_on_resource, preserves_get_utilization.
      - read_only. }
  match goal with |- context [match fst ?m with _ => _ end] =>
    destruct (fst m) as [utilization|e] end; [|by apply shifted_refl].
  destruct (Qltb 1 utilization); [|by apply shifted_refl].
  rewrite snd_bind_read_only by apply preserves_tasks_using.
  destruct (fst (ProjectController.tasks_using r tasks w)) as [l1|e] eqn:E1;
    [|by apply shifted_refl].
  rewrite snd_bind_read_only by apply preserves_sort_tasks.
  destruct (fst (ProjectController.sort_tasks _ false l1 w)) as [l2|e] eqn:E2;
    [|by apply shifted_refl].
  eapply shifted_mono; [|apply for_each_delay_shifted].
  intros x. cbv beta. rewrite (sort_tasks_occurrences _ _ _ _ _ x E2).
  apply (tasks_using_occurrences _ _ _ _ x E1).
Qed.

Lemma uses_resource_shifted k w w' x t t' r :
  shifted k w w' -> w_tasks w !! x = Some t -> w_tasks w' !! x = Some t' ->
  ProjectController.uses_resource r t' = ProjectController.uses_resource r t.
Proof.
  intros H Hx Hx'. destruct (shifted_lookup k w w' x t H Hx) as (t'' & Ht'' & E).
  assert (t'' = t') as -> by congruence. by rewrite <- E.
Qed.

Lemma resources_used_cons r rs t :
  resources_used (r :: rs) t =
  (if ProjectController.uses_resource r t then 1 else 0) + resources_used rs t.
Proof.
  unfold resources_used. cbn [List.filter].
  destruct (ProjectController.uses_resource r t); cbn [length]; lia.
Qed.

Lemma resources_used_nonneg rs t : 0 <= resources_used rs t.
Proof. unfold resources_used. lia. Qed.

(** The delays that the whole resource list can cause. *)
Lemma for_each_level_resource_shifted ns tasks rs : forall w,
  shifted (fun x => match w_tasks w !! x with
                    | Some t => occurrences x tasks * resources_used rs t
                    | None => 0
                    end) w
    (snd (for_each rs (ProjectController.level_resource ns tasks) w)).
Proof.
  induction rs as [|r rs IH]; intros w.
  - apply shifted_refl. intros x. destruct (w_tasks w !! x); [|done].
    unfold resources_used. cbn. lia.
  - cbn [for_each]. rewrite snd_bind.
    pose proof (level_resource_shifted ns tasks r w) as H1.
    set (w1 := snd (ProjectController.level_resource ns tasks r w)) in *.
    destruct (fst (ProjectController.level_resource ns tasks r w)).
    + eapply shifted_mono; [|eapply shifted_trans; [exact H1|apply IH]].
      intros x. cbv beta.
      destruct (w_tasks w !! x) as [t|] eqn:Ex.
      * destruct (shifted_lookup _ _ _ x t H1 Ex) as (t' & Ex' & E). rewrite Ex'.
        rewrite resources_used_cons.
        assert (resources_used rs t' = resources_used rs t) as ->
          by (by rewrite <- E).
        destruct (ProjectController.uses_resource r t); lia.
      * destruct H1 as (_ & _ & H1). specialize (H1 x). rewrite Ex in H1.
        destruct (w_tasks w1 !! x); [done|lia].
    + eapply shifted_mono; [|exact H1].
      intros x. cbv beta. destruct (w_tasks w !! x) as [t|]; [|lia].
      rewrite resources_used_cons.
      pose proof (occurrences_nonneg x tasks).
      pose proof (resources_used_nonneg rs t).
      destruct (ProjectController.uses_resource r t); nia.
Qed.

Lemma level_resources_shifted ns w :
  shifted (fun x => match w_tasks w !! x with
                    | Some t => occurrences x (p_tasks (w_project w))
                                * resources_used (p_resources (w_project w)) t
                    | None => 0
                    end) w
    (snd (ProjectController.level_resources ns w)).
Proof.
  match goal with |- shifted ?f _ _ => set (k := f) end.
  assert (forall x, 0 <= k x) as Hk.
  { intros x. unfold k. destruct (w_tasks w !! x) as [t|]; [|lia].
    pose proof (occurrences_nonneg x (p_tasks (w_project w))).
    pose proof (resources_used_nonneg (p_resources (w_project w)) t). nia. }
  unfold ProjectController.level_resources. rewrite snd_bind.
  cbn [fst snd ProjectController.save_state modify].
  set (w0 := World _ _ _ _ _).
  assert (shifted (fun _ => 0) w w0) as H0.
  { split; [done|]. split; [done|]. intros x. cbn [w_tasks w0].
    destruct (w_tasks w !! x) as [t|]; [|done].
    split; [apply set_start_date_id|]. destruct (start_date t); [lia|done]. }
  rewrite snd_bind_read_only by (intros s; reflexivity). cbn [fst gets].
  rewrite snd_bind_read_only by (intros s; reflexivity). cbn [fst gets].
  rewrite snd_bind_read_only by apply preserves_sort_tasks.
  destruct (fst (ProjectController.sort_tasks _ true _ w0)) as [tasks|e] eqn:E.
  2:{ eapply shifted_mono; [|exact H0]. exact Hk. }
  eapply shifted_mono;
    [|eapply shifted_trans; [exact H0|apply for_each_level_resource_shifted]].
  intros x. cbv beta. unfold k. cbn [w_tasks w_project w0].
  rewrite (sort_tasks_occurrences _ _ _ _ _ x E). cbn [w_project w0]. lia.
Qed.

(** The delay that leveling can add to one task: at most its float for
    each entry of the resource list on which the task holds an assignment. *)
Lemma level_resources_delays (ns : namespaces) (w : world) (x : ref) (t : task)
    (s : datetime) :
  w_tasks w !! x = Some t ->
  start_date t = Some s ->
  0 <= Task.get_float t ->
  occurrences x (p_tasks (w_project w)) <= 1 ->
  exists t' s',
    w_tasks (after (ProjectController.level_resources ns) w) !! x = Some t' /\
    start_date t' = Some s' /\
    Task.get_float t' = Task.get_float t /\
    s' <= s + resources_used (p_resources (w_project w)) t * Task.get_float t.
Proof.
  intros Hx Hs Hf Hnd.
  pose proof (level_resources_shifted ns w) as H.
  destruct (shifted_lookup _ _ _ x t H Hx) as (t' & Hx' & E).
  destruct H as (_ & _ & H). specialize (H x). unfold after. rewrite Hx, Hx' in H.
  destruct H as [_ H]. rewrite Hs in H.
  destruct (start_date t') as [s'|] eqn:Es'; [|done].
  assert (Task.get_float t' = Task.get_float t) as Hfl by (by rewrite <- E).
  pose proof (occurrences_nonneg x (p_tasks (w_project w))) as Hocc.
  pose proof (resources_used_nonneg (p_resources (w_project w)) t) as Hn.
  exists t', s'. split; [done|]. split; [done|]. split; [done|].
  rewrite Z.max_r in H by done.
  assert (occurrences x (p_tasks (w_project w)) = 0
          \/ occurrences x (p_tasks (w_project w)) = 1) as [Ho|Ho] by lia;
    rewrite Ho in H; nia.
Qed.




(** ** Leveling in the namespace that the files create *)

Lemma same_objects_refl w : same_objects w w.
Proof. by repeat split. Qed.

Lemma same_objects_trans w1 w2 w3 :
  same_objects w1 w2 -> same_objects w2 w3 -> same_objects w1 w3.
Proof. intros (?&?&?) (?&?&?). repeat split; congruence. Qed.

(** Without a binding for [timedelta] a delay raises [NameError] before it
    writes the start date. *)
Lemma shipped_delay_task u x :
  preserves same_objects (ProjectController.delay_task shipped u x).
Proof.
  intros w. unfold ProjectController.delay_task. unfold bind at 1, task_get at 1.
  destruct (w_tasks w !! x) as [t|]; [|apply same_objects_refl].
  destruct (0 <? Task.get_float t); apply same_objects_refl.
Qed.

(** As shipped, [level_resources] moves no task: it returns or raises
    having changed the undo stack only. *)
Lemma shipped_level_resources_moves_nothing :
  preserves same_objects (ProjectController.level_resources shipped).
Proof.
  unfold ProjectController.level_resources, ProjectController.level_resource,
    ProjectController.save_state.
  frame_with ltac:(exact same_objects_refl) ltac:(exact same_objects_trans)
    ltac:(first [ apply shipped_delay_task
                | apply (preserves_weaken _ _ same_objects_refl);
                  solve [eauto using preserves_on_resource,
                           preserves_get_utilization with frame]
                | (intros w; by repeat split) ]).
Qed.

(** * Further properties *)

(** ** Working-day arithmetic (utils/utilities.py) *)

Lemma get_working_days_nonneg s e : 0 <= utilities.get_working_days s e.
Proof.
  unfold utilities.get_working_days.
  generalize (days_between s e) as n. intros n. revert s.
  induction n as [|n IH]; intros s; simpl; [lia|].
  rewrite get_working_days_loop_acc. specialize (IH (s + 1)).
  destruct (weekday s <? 5); lia.
Qed.

Lemma get_working_days_split s m e :
  s <= m + 1 -> m <= e ->
  utilities.get_working_days s e
  = utilities.get_working_days s m + utilities.get_working_days (m + 1) e.
Proof.
  intros Hs He.
  remember (Z.to_nat (m + 1 - s)) as k eqn:Hk. revert s Hs Hk.
  induction k as [|k IH]; intros s Hs Hk.
  - assert (s = m + 1) as -> by lia.
    rewrite (get_working_days_empty (m + 1) m) by lia. lia.
  - rewrite (get_working_days_first s e) by lia.
    rewrite (get_working_days_first s m) by lia.
    rewrite (IH (s + 1)) by lia. lia.
Qed.

Lemma get_working_days_last s e :
  s <= e ->
  utilities.get_working_days s e
  = utilities.get_working_days s (e - 1) + (if weekday e <? 5 then 1 else 0).
Proof.
  intros H. rewrite (get_working_days_split s (e - 1) e) by lia.
  replace (e - 1 + 1) with e by lia.
  rewrite (get_working_days_first e e) by lia.
  rewrite (get_working_days_empty (e + 1) e) by lia. lia.
Qed.

(** Any seven consecutive days hold five working days. *)
Lemma get_working_days_week s : utilities.get_working_days s (s + 6) = 5.
Proof.
  rewrite (get_working_days_first s) by lia.
  rewrite (get_working_days_first (s + 1)) by lia.
  rewrite (get_working_days_first (s + 1 + 1)) by lia.
  rewrite (get_working_days_first (s + 1 + 1 + 1)) by lia.
  rewrite (get_working_days_first (s + 1 + 1 + 1 + 1)) by lia.
  rewrite (get_working_days_first (s + 1 + 1 + 1 + 1 + 1)) by lia.
  rewrite (get_working_days_first (s + 1 + 1 + 1 + 1 + 1 + 1)) by lia.
  rewrite get_working_days_empty by lia.
  pose proof (weekday_range s).
  rewrite !weekday_succ.
  repeat match goal with
         | |- context [?a =? ?b] => destruct (Z.eqb_spec a b)
         | |- context [?a <? ?b] => destruct (Z.ltb_spec a b)
         end; lia.
Qed.





Lemma add_working_days_loop_sound fuel : forall cur rem r,
  utilities.add_working_days_loop fuel cur rem = Some r ->
  (rem <= 0 -> r = cur) /\
  (0 < rem -> cur < r /\ weekday r < 5 /\ utilities.get_working_days (cur + 1) r = rem).
Proof.
  induction fuel as [|fuel IH]; intros cur rem r.
  - simpl. destruct (Z.gtb_spec rem 0); [discriminate|]. intros [= <-]. split; [done|lia].
  - cbn [utilities.add_working_days_loop].
    destruct (Z.gtb_spec rem 0) as [Hpos|Hz]; [|intros [= <-]; split; [done|lia]].
    cbv zeta. destruct (Z.ltb_spec (weekday (cur + 1)) 5) as [Hw|Hw]; intros Hr.
    + destruct (IH _ _ _ Hr) as [H0 H1]. split; [lia|]. intros _.
      destruct (Z.eq_dec rem 1) as [->|Hne].
      * rewrite (H0 ltac:(lia)). split; [lia|]. split; [done|].
        rewrite get_working_days_first by lia.
        rewrite get_working_days_empty by lia.
        destruct (Z.ltb_spec (weekday (cur + 1)) 5); lia.
      * destruct (H1 ltac:(lia)) as (Ha & Hb & Hc). split; [lia|]. split; [done|].
        rewrite get_working_days_first by lia.
        destruct (Z.ltb_spec (weekday (cur + 1)) 5); lia.
    + destruct (IH _ _ _ Hr) as [_ H1].
      destruct (H1 ltac:(lia)) as (Ha & Hb & Hc). split; [lia|]. intros _.
      split; [lia|]. split; [done|].
      rewrite get_working_days_first by lia.
      destruct (Z.ltb_spec (weekday (cur + 1)) 5); lia.
Qed.

(** The [n]-th working day after a date is unique. *)
Lemma nth_working_day_unique d r r' :
  d < r -> d < r' -> weekday r < 5 -> weekday r' < 5 ->
  utilities.get_working_days (d + 1) r = utilities.get_working_days (d + 1) r' ->
  r = r'.
Proof.
  assert (forall a b, d < a -> a < b -> weekday b < 5 ->
            utilities.get_working_days (d + 1) a
            < utilities.get_working_days (d + 1) b) as Hlt.
  { intros a b Ha Hab Hb.
    rewrite (get_working_days_split (d + 1) a b) by lia.
    rewrite (get_working_days_last (a + 1) b) by lia.
    pose proof (get_working_days_nonneg (a + 1) (b - 1)).
    destruct (Z.ltb_spec (weekday b) 5); lia. }
  intros Hr Hr' Hw Hw' E.
  destruct (Z.lt_trichotomy r r') as [H|[H|H]]; [|done|].
  - specialize (Hlt r r' Hr H Hw'). lia.
  - specialize (Hlt r' r Hr' H Hw). lia.
Qed.



Lemma get_date_range_loop_lookup n : forall s i,
  utilities.get_date_range_loop n s !! i
  = if (i <? n)%nat then Some (s + Z.of_nat i) else None.
Proof.
  induction n as [|n IH]; intros s i; [by destruct i|].
  destruct i as [|i]; cbn [utilities.get_date_range_loop lookup list_lookup].
  - simpl. f_equal. lia.
  - rewrite IH. change (S i <? S n)%nat with (i <? n)%nat.
    destruct (i <? n)%nat; [f_equal; lia|done].
Qed.


Lemma working_and_weekend_days n : forall s,
  utilities.get_working_days_loop n s 0
  + Z.of_nat (length (List.filter (fun d => negb (utilities.is_working_day d))
                                  (utilities.get_date_range_loop n s)))
  = Z.of_nat n.
Proof.
  induction n as [|n IH]; intros s; [reflexivity|].
  cbn [utilities.get_working_days_loop utilities.get_date_range_loop List.filter].
  rewrite get_working_days_loop_acc. specialize (IH (s + 1)).
  unfold utilities.is_working_day at 1.
  destruct (weekday s <? 5); cbn [negb length]; lia.
Qed.



(** ** Month, fiscal-year and quarter boundaries (utils/utilities.py) *)

Lemma days_before_year_succ y :
  utilities.days_before_year (y + 1)
  = utilities.days_before_year y + 365 + (if utilities.is_leap y then 1 else 0).
Proof.
  unfold utilities.days_before_year, utilities.is_leap.
  replace (y + 1 - 1) with y by lia.
  destruct (Z.eqb_spec (y mod 4) 0), (Z.eqb_spec (y mod 100) 0),
    (Z.eqb_spec (y mod 400) 0); cbn [andb orb negb];
    Z.to_euclidean_division_equations; lia.
Qed.

Ltac month_cases m :=
  let H := fresh in
  assert (m = 1 \/ m = 2 \/ m = 3 \/ m = 4 \/ m = 5 \/ m = 6 \/ m = 7 \/ m = 8
          \/ m = 9 \/ m = 10 \/ m = 11 \/ m = 12) as H by lia;
  repeat (destruct H as [H|H]); subst m.

Lemma days_before_month_succ y m :
  1 <= m < 12 ->
  utilities.days_before_month y (m + 1)
  = utilities.days_before_month y m + utilities.days_in_month y m.
Proof.
  intros Hm.
  unfold utilities.days_before_month, utilities.days_in_month,
    utilities.days_before_month_table.
  destruct (utilities.is_leap y); month_cases m; try lia; reflexivity.
Qed.

Lemma days_before_month_december y :
  utilities.days_before_month y 12 + 31
  = 365 + (if utilities.is_leap y then 1 else 0).
Proof.
  unfold utilities.days_before_month, utilities.days_before_month_table.
  destruct (utilities.is_leap y); reflexivity.
Qed.

Lemma days_in_month_range y m : 28 <= utilities.days_in_month y m <= 31.
Proof.
  unfold utilities.days_in_month.
  destruct (m =? 2); [destruct (utilities.is_leap y); lia|].
  destruct (_ || _); lia.
Qed.

Lemma days_before_month_mono y m m' :
  1 <= m -> m <= m' -> m' <= 12 ->
  utilities.days_before_month y m <= utilities.days_before_month y m'.
Proof.
  intros H1 H2 H3.
  replace m' with (m + Z.of_nat (Z.to_nat (m' - m))) in * by lia.
  generalize dependent (Z.to_nat (m' - m)). intros k. induction k as [|k IH]; intros H2 H3.
  - replace (m + Z.of_nat 0) with m by lia. lia.
  - replace (m + Z.of_nat (S k)) with (m + Z.of_nat k + 1) by lia.
    rewrite days_before_month_succ by lia.
    pose proof (days_in_month_range y (m + Z.of_nat k)).
    specialize (IH ltac:(lia) ltac:(lia)). lia.
Qed.

(** The days of the year that precede the end of month [m]. *)
Lemma days_before_month_end y m :
  1 <= m <= 12 ->
  utilities.days_before_month y m + utilities.days_in_month y m
  <= 365 + (if utilities.is_leap y then 1 else 0).
Proof.
  intros Hm. destruct (Z.eq_dec m 12) as [->|Hne].
  - rewrite <- days_before_month_december.
    unfold utilities.days_in_month. cbn. lia.
  - rewrite <- days_before_month_succ by lia.
    rewrite <- days_before_month_december.
    pose proof (days_before_month_mono y (m + 1) 12 ltac:(lia) ltac:(lia) ltac:(lia)).
    lia.
Qed.

Lemma days_before_month_january y : utilities.days_before_month y 1 = 0.
Proof. reflexivity. Qed.

Lemma make_datetime_first y m :
  1 <= y <= 9999 -> 1 <= m <= 12 ->
  utilities.make_datetime y m 1 = Returns (utilities.ymd2ord y m 1).
Proof.
  intros Hy Hm. unfold utilities.make_datetime.
  pose proof (days_in_month_range y m).
  rewrite !(proj2 (Z.leb_le _ _)) by lia. reflexivity.
Qed.

Lemma make_datetime_invalid y m d :
  ~ (1 <= y <= 9999 /\ 1 <= m <= 12) ->
  utilities.make_datetime y m d = Raises ValueError.
Proof.
  intros H. unfold utilities.make_datetime.
  destruct (Z.leb_spec 1 y), (Z.leb_spec y 9999), (Z.leb_spec 1 m), (Z.leb_spec m 12);
    cbn [andb]; try reflexivity. lia.
Qed.

(** A date lies between the first day of its month and the day before the
    first day of the next month. *)
Lemma ymd2ord_in_month y m d :
  1 <= m <= 12 -> 1 <= d <= utilities.days_in_month y m ->
  utilities.ymd2ord y m 1 <= utilities.ymd2ord y m d
  /\ utilities.ymd2ord y m d
     <= utilities.ymd2ord y m 1 + utilities.days_in_month y m - 1.
Proof. unfold utilities.ymd2ord. lia. Qed.

Lemma ymd2ord_next_month y m :
  1 <= m <= 12 ->
  (if m =? 12 then utilities.ymd2ord (y + 1) 1 1 else utilities.ymd2ord y (m + 1) 1)
  = utilities.ymd2ord y m 1 + utilities.days_in_month y m.
Proof.
  intros Hm. unfold utilities.ymd2ord. destruct (Z.eqb_spec m 12) as [->|Hne].
  - rewrite days_before_year_succ, days_before_month_january.
    pose proof (days_before_month_december y).
    unfold utilities.days_in_month. cbn. lia.
  - rewrite days_before_month_succ by lia. lia.
Qed.

(** X6.  For a date of the calendar, [get_month_boundaries] returns the
    first day of the date's month and a last day such that the date lies
    between them and the two span exactly the days of that month; in
    December 9999 the step to the next year raises [ValueError]. *)
Theorem get_month_boundaries_spec (dt : utilities.date) :
  valid_date dt ->
  (utilities.month dt = 12 -> utilities.year dt = 9999 ->
   utilities.get_month_boundaries dt = Raises ValueError) /\
  (utilities.month dt < 12 \/ utilities.year dt < 9999 ->
   exists first_day last_day,
     utilities.get_month_boundaries dt = Returns (first_day, last_day) /\
     first_day = utilities.ymd2ord (utilities.year dt) (utilities.month dt) 1 /\
     first_day <= utilities.toordinal dt <= last_day /\
     last_day - first_day + 1
     = utilities.days_in_month (utilities.year dt) (utilities.month dt)).
Proof.
  destruct dt as [y m d]. unfold valid_date, utilities.get_month_boundaries,
    utilities.toordinal. cbn [utilities.year utilities.month utilities.day].
  intros (Hy & Hm & Hd). rewrite make_datetime_first by lia. cbn [utilities.obind].
  pose proof (ymd2ord_next_month y m Hm) as Hn.
  pose proof (ymd2ord_in_month y m d Hm Hd) as Hi.
  split.
  - intros -> ->. cbn [Z.eqb Pos.eqb].
    rewrite make_datetime_invalid by lia. reflexivity.
  - intros Hok. destruct (Z.eqb_spec m 12) as [->|Hne].
    + rewrite make_datetime_first by lia. cbn [utilities.obind].
      eexists _, _. split; [reflexivity|]. split; [reflexivity|]. lia.
    + rewrite make_datetime_first by lia. cbn [utilities.obind].
      eexists _, _. split; [reflexivity|]. split; [reflexivity|]. lia.
Qed.

Lemma get_month_boundaries_spec_witness :
  valid_date (utilities.Date 2024 2 15) /\
  utilities.toordinal (utilities.Date 2024 1 1) = monday /\
  exists first_day last_day,
    utilities.get_month_boundaries (utilities.Date 2024 2 15)
      = Returns (first_day, last_day) /\
    first_day = utilities.ymd2ord 2024 2 1 /\
    first_day <= utilities.toordinal (utilities.Date 2024 2 15) <= last_day /\
    last_day - first_day + 1 = utilities.days_in_month 2024 2.
Proof.
  assert (valid_date (utilities.Date 2024 2 15)) as Hv.
  { unfold valid_date. cbn [utilities.year utilities.month utilities.day].
    change (utilities.days_in_month 2024 2) with 29. lia. }
  split; [exact Hv|]. split; [reflexivity|].
  apply (proj2 (get_month_boundaries_spec (utilities.Date 2024 2 15) Hv)).
  left. cbn [utilities.year utilities.month utilities.day]. lia.
Defined.

Lemma ymd2ord_in_year y m d :
  1 <= m <= 12 -> 1 <= d <= utilities.days_in_month y m ->
  utilities.days_before_year y + 1 <= utilities.ymd2ord y m d
  /\ utilities.ymd2ord y m d <= utilities.days_before_year (y + 1).
Proof.
  intros Hm Hd. unfold utilities.ymd2ord. rewrite days_before_year_succ.
  pose proof (days_before_month_mono y 1 m ltac:(lia) ltac:(lia) ltac:(lia)).
  rewrite days_before_month_january in *.
  pose proof (days_before_month_end y m Hm). lia.
Qed.

(** From the first of a month to the first of the same month one year
    later there are 365 or 366 days. *)
Lemma ymd2ord_year_step y m :
  1 <= m <= 12 ->
  utilities.ymd2ord (y + 1) m 1 - utilities.ymd2ord y m 1 = 365
  \/ utilities.ymd2ord (y + 1) m 1 - utilities.ymd2ord y m 1 = 366.
Proof.
  intros Hm. unfold utilities.ymd2ord, utilities.days_before_month.
  rewrite days_before_year_succ.
  destruct (utilities.is_leap y), (utilities.is_leap (y + 1)), (2 <? m);
    cbn [andb]; lia.
Qed.

(** X7.  For a date of the calendar and a start month in 1..12,
    [get_fiscal_year_dates] returns a range of 365 or 366 days that
    contains the date (given that the two years it builds are within
    1..9999); a start month outside 1..12 raises [ValueError]. *)
Theorem get_fiscal_year_dates_spec (dt : utilities.date) (fiscal_start_month : Z) :
  valid_date dt ->
  (~ 1 <= fiscal_start_month <= 12 ->
   utilities.get_fiscal_year_dates dt fiscal_start_month = Raises ValueError) /\
  (1 <= fiscal_start_month <= 12 ->
   (fiscal_start_month <= utilities.month dt -> utilities.year dt < 9999) ->
   (utilities.month dt < fiscal_start_month -> 1 < utilities.year dt) ->
   exists start_date end_date,
     utilities.get_fiscal_year_dates dt fiscal_start_month
       = Returns (start_date, end_date) /\
     start_date <= utilities.toordinal dt <= end_date /\
     (end_date - start_date + 1 = 365 \/ end_date - start_date + 1 = 366)).
Proof.
  destruct dt as [y m d]. unfold valid_date, utilities.get_fiscal_year_dates,
    utilities.toordinal. cbn [utilities.year utilities.month utilities.day].
  intros (Hy & Hm & Hd). split.
  - intros Hbad. destruct (Z.leb_spec fiscal_start_month m);
      rewrite make_datetime_invalid by lia; reflexivity.
  - intros Hf Hhi Hlo.
    pose proof (ymd2ord_in_year y m d Hm Hd) as [Hy1 Hy2].
    destruct (Z.leb_spec fiscal_start_month m) as [Hle|Hgt].
    + rewrite !make_datetime_first by lia. cbn [utilities.obind].
      eexists _, _. split; [reflexivity|].
      pose proof (ymd2ord_year_step y fiscal_start_month Hf).
      split; [|lia]. split.
      * unfold utilities.ymd2ord.
        pose proof (days_before_month_mono y fiscal_start_month m
                      ltac:(lia) ltac:(lia) ltac:(lia)). lia.
      * pose proof (days_before_month_mono (y + 1) 1 fiscal_start_month
                      ltac:(lia) ltac:(lia) ltac:(lia)) as Hmono.
        rewrite days_before_month_january in Hmono.
        unfold utilities.ymd2ord at 2. lia.
    + rewrite !make_datetime_first by lia. cbn [utilities.obind].
      eexists _, _. split; [reflexivity|].
      pose proof (ymd2ord_year_step (y - 1) fiscal_start_month Hf) as Hstep.
      replace (y - 1 + 1) with y in Hstep by lia.
      split; [|lia]. split.
      * pose proof (ymd2ord_in_year (y - 1) fiscal_start_month 1 Hf
                      ltac:(pose proof (days_in_month_range (y - 1) fiscal_start_month); lia))
          as [_ Hprev].
        replace (y - 1 + 1) with y in Hprev by lia. lia.
      * assert (m + 1 <= fiscal_start_month) as Hm1 by lia.
        pose proof (days_before_month_mono y (m + 1) fiscal_start_month
                      ltac:(lia) ltac:(lia) ltac:(lia)) as Hmono.
        rewrite days_before_month_succ in Hmono by lia.
        unfold utilities.ymd2ord. lia.
Qed.

Lemma get_fiscal_year_dates_spec_witness :
  valid_date (utilities.Date 2024 2 15) /\
  exists start_date end_date,
    utilities.get_fiscal_year_dates (utilities.Date 2024 2 15) 4
      = Returns (start_date, end_date) /\
    start_date <= utilities.toordinal (utilities.Date 2024 2 15) <= end_date /\
    (end_date - start_date + 1 = 365 \/ end_date - start_date + 1 = 366).
Proof.
  assert (valid_date (utilities.Date 2024 2 15)) as Hv.
  { unfold valid_date. cbn [utilities.year utilities.month utilities.day].
    change (utilities.days_in_month 2024 2) with 29. lia. }
  split; [exact Hv|].
  apply (proj2 (get_fiscal_year_dates_spec (utilities.Date 2024 2 15) 4 Hv)).
  - lia.
  - cbn [utilities.year utilities.month utilities.day]. lia.
  - cbn [utilities.year utilities.month utilities.day]. lia.
Defined.

(** X8.  For a date of the calendar, [get_quarter_dates] returns the
    first day of the month that opens the date's quarter and an end date
    such that the date lies between them and the two span 90 to 92 days; in
    the last quarter of 9999 it raises [ValueError]. *)
Theorem get_quarter_dates_spec (dt : utilities.date) :
  valid_date dt ->
  (10 <= utilities.month dt -> utilities.year dt = 9999 ->
   utilities.get_quarter_dates dt = Raises ValueError) /\
  (utilities.month dt <= 9 \/ utilities.year dt < 9999 ->
   exists start_date end_date,
     utilities.get_quarter_dates dt = Returns (start_date, end_date) /\
     start_date
     = utilities.ymd2ord (utilities.year dt) ((utilities.month dt - 1) / 3 * 3 + 1) 1 /\
     start_date <= utilities.toordinal dt <= end_date /\
     90 <= end_date - start_date + 1 <= 92).
Proof.
  destruct dt as [y m d]. unfold valid_date, utilities.get_quarter_dates,
    utilities.toordinal. cbn [utilities.year utilities.month utilities.day].
  intros (Hy & Hm & Hd). cbv zeta.
  pose proof (days_before_year_succ y) as Hys.
  split.
  - intros H10 ->.
    month_cases m; try (exfalso; lia);
      match goal with |- context [?a / 3 * 3 + 1] =>
        let v := eval vm_compute in (a / 3 * 3 + 1) in
        change (a / 3 * 3 + 1) with v end;
      rewrite make_datetime_first by lia; cbn [utilities.obind];
      simpl (_ =? _); lazy beta iota; rewrite make_datetime_invalid by lia; reflexivity.
  - intros Hok.
    month_cases m;
      match goal with |- context [?a / 3 * 3 + 1] =>
        let v := eval vm_compute in (a / 3 * 3 + 1) in
        change (a / 3 * 3 + 1) with v end;
      rewrite make_datetime_first by lia; cbn [utilities.obind];
      simpl (_ =? _); lazy beta iota;
      try match goal with |- context [Z.pos ?a + 3] =>
            let v := eval vm_compute in (Z.pos a + 3) in
            change (Z.pos a + 3) with v end;
      rewrite make_datetime_first by lia; cbn [utilities.obind];
      (eexists _, _; split; [reflexivity|]; split; [reflexivity|]);
      unfold utilities.ymd2ord, utilities.days_before_month,
        utilities.days_before_month_table, utilities.days_in_month in *;
      destruct (utilities.is_leap y), (utilities.is_leap (y + 1));
      repeat match goal with
             | |- context [Z.to_nat ?k] =>
                 let v := eval vm_compute in (Z.to_nat k) in
                 change (Z.to_nat k) with v
             end;
      cbn -[utilities.days_before_year] in Hd |- *; lia.
Qed.

Lemma get_quarter_dates_spec_witness :
  valid_date (utilities.Date 2024 2 15) /\
  exists start_date end_date,
    utilities.get_quarter_dates (utilities.Date 2024 2 15)
      = Returns (start_date, end_date) /\
    start_date = utilities.ymd2ord 2024 ((2 - 1) / 3 * 3 + 1) 1 /\
    start_date <= utilities.toordinal (utilities.Date 2024 2 15) <= end_date /\
    90 <= end_date - start_date + 1 <= 92.
Proof.
  assert (valid_date (utilities.Date 2024 2 15)) as Hv.
  { unfold valid_date. cbn [utilities.year utilities.month utilities.day].
    change (utilities.days_in_month 2024 2) with 29. lia. }
  split; [exact Hv|].
  apply (proj2 (get_quarter_dates_spec (utilities.Date 2024 2 15) Hv)).
  left. cbn [utilities.year utilities.month utilities.day]. lia.
Defined.

(** ** Custom availability, skills and the range of the calendar
       (src/models/resource.py) *)

Lemma clamp_range x : (0 <= clamp x <= 1)%Q.
Proof.
  unfold clamp.
  destruct (Q.min_spec 1 x) as [[? E1]|[? E1]];
  destruct (Q.max_spec 0 (Qmin 1 x)) as [[? E2]|[? E2]]; lra.
Qed.

Lemma clamp_id x : (0 <= x <= 1)%Q -> (clamp x == x)%Q.
Proof.
  intros H. unfold clamp.
  destruct (Q.min_spec 1 x) as [[? E1]|[? E1]];
  destruct (Q.max_spec 0 (Qmin 1 x)) as [[? E2]|[? E2]]; lra.
Qed.

(** X9.  [set_custom_availability(d, a)] makes [get_availability(d)] the
    value [a] cut to [0, 1] (so [a] itself when it lies in that range) and
    changes the availability of no other date; [clear_custom_availability(d)]
    after it brings [d] back to the default (the base availability on a
    weekday, 0 on a weekend) and still changes no other date.  Neither
    touches the assignment list or the base availability. *)
Theorem custom_availability_spec (r : resource) (d : datetime) (a : Q) :
  let r1 := snd (Resource.set_custom_availability d a r) in
  let r2 := snd (Resource.clear_custom_availability d r1) in
  (0 <= Resource.get_availability r1 d <= 1)%Q /\
  ((0 <= a <= 1)%Q -> (Resource.get_availability r1 d == a)%Q) /\
  ((a < 0)%Q -> (Resource.get_availability r1 d == 0)%Q) /\
  ((1 < a)%Q -> (Resource.get_availability r1 d == 1)%Q) /\
  Resource.get_availability r2 d = (if weekday d <? 5 then availability r else 0%Q) /\
  (forall d', d' <> d ->
     Resource.get_availability r1 d' = Resource.get_availability r d' /\
     Resource.get_availability r2 d' = Resource.get_availability r d') /\
  r_assignments r2 = r_assignments r /\ availability r2 = availability r /\
  skills r2 = skills r.
Proof.
  cbn zeta. unfold Resource.set_custom_availability, Resource.clear_custom_availability,
    modify, Resource.get_availability. cbn [snd calendar set_calendar availability
    r_assignments skills].
  rewrite !lookup_insert_eq, lookup_delete_eq.
  fold (clamp a).
  split; [apply clamp_range|]. split; [apply clamp_id|].
  split.
  { intros H. unfold clamp.
    destruct (Q.min_spec 1 a) as [[? E1]|[? E1]];
    destruct (Q.max_spec 0 (Qmin 1 a)) as [[? E2]|[? E2]]; lra. }
  split.
  { intros H. unfold clamp.
    destruct (Q.min_spec 1 a) as [[? E1]|[? E1]];
    destruct (Q.max_spec 0 (Qmin 1 a)) as [[? E2]|[? E2]]; lra. }
  split; [reflexivity|].
  split; [|done].
  intros d' Hne.
  rewrite lookup_delete_ne, !lookup_insert_ne by done. done.
Qed.

Lemma custom_availability_spec_witness :
  let r := Resource.init 1 "R" 10 (1 # 2) in
  let r1 := snd (Resource.set_custom_availability monday (3 # 4) r) in
  (0 <= 3 # 4 <= 1)%Q /\ (Resource.get_availability r1 monday == 3 # 4)%Q.
Proof.
  cbn zeta.
  assert (0 <= 3 # 4 <= 1)%Q as H by (split; discriminate).
  split; [exact H|].
  exact (proj1 (proj2 (custom_availability_spec
                         (Resource.init 1 "R" 10 (1 # 2)) monday (3 # 4))) H).
Defined.

Lemma calendar_in_range_update ns a (remove : bool) r :
  calendar_in_range r ->
  calendar_in_range (snd (Resource._update_calendar ns a remove r)).
Proof.
  intros Hc.
  destruct (update_calendar_state ns a remove r) as (_ & _ & Ec).
  intros d v. rewrite Ec. destruct (_ && _).
  - intros [= <-]. apply clamp_range.
  - apply Hc.
Qed.

(** X10.  Every writer of the calendar stores values cut to [0, 1]: if all
    calendar entries of a resource lie in [0, 1], they still do after
    [set_custom_availability], [clear_custom_availability],
    [add_assignment] and [remove_assignment], whether the call returns or
    raises; and when the base availability lies in [0, 1] too,
    [get_availability] lies in [0, 1] on every date. *)
Theorem calendar_in_range_invariant (ns : namespaces) (r : resource) (d : datetime)
    (v : Q) (a : assignment) :
  calendar_in_range r ->
  calendar_in_range (snd (Resource.set_custom_availability d v r)) /\
  calendar_in_range (snd (Resource.clear_custom_availability d r)) /\
  calendar_in_range (snd (Resource.add_assignment ns a r)) /\
  calendar_in_range (snd (Resource.remove_assignment ns a r)) /\
  ((0 <= availability r <= 1)%Q ->
   forall d', (0 <= Resource.get_availability r d' <= 1)%Q).
Proof.
  intros Hc.
  split.
  { intros d' x. cbn. destruct (decide (d' = d)) as [->|Hne].
    - rewrite lookup_insert_eq. intros [= <-]. apply (clamp_range v).
    - rewrite lookup_insert_ne by done. apply Hc. }
  split.
  { intros d' x. cbn. destruct (decide (d' = d)) as [->|Hne].
    - rewrite lookup_delete_eq. done.
    - rewrite lookup_delete_ne by done. apply Hc. }
  split.
  { rewrite add_assignment_state. apply calendar_in_range_update. exact Hc. }
  split.
  { destruct (py_remove assignment_eqb a (r_assignments r)) as [l|] eqn:E.
    - rewrite (remove_assignment_state ns a r l E).
      apply calendar_in_range_update. exact Hc.
    - unfold Resource.remove_assignment, bind, get. rewrite E. apply Hc. }
  intros Ha d'. unfold Resource.get_availability.
  destruct (calendar r !! d') as [x|] eqn:E; [apply (Hc _ _ E)|].
  destruct (weekday d' <? 5); [exact Ha|lra].
Qed.

Lemma calendar_in_range_invariant_witness :
  let r := Resource_ 1 "R" 10 1 [] {[monday := (1 # 2)%Q]} [] in
  let a := Assignment res_1 (3 # 4) monday (monday + 1) 12 in
  calendar_in_range r /\
  calendar_in_range (snd (Resource.add_assignment patched a r)) /\
  forall d', (0 <= Resource.get_availability r d' <= 1)%Q.
Proof.
  cbn zeta.
  assert (calendar_in_range (Resource_ 1 "R" 10 1 [] {[monday := (1 # 2)%Q]} [])) as H.
  { intros d v. cbn [calendar]. intros [_ <-]%lookup_singleton_Some.
    split; discriminate. }
  split; [exact H|].
  destruct (calendar_in_range_invariant patched _ monday 0
              (Assignment res_1 (3 # 4) monday (monday + 1) 12) H)
    as (_ & _ & Hadd & _ & Hget).
  split; [exact Hadd|].
  apply Hget. cbn [availability]. split; discriminate.
Defined.

Lemma py_remove_eq_absent {A} (eqb : A -> A -> bool) (x : A) (l : list A) :
  (forall a b, eqb a b = true <-> a = b) -> x ∉ l -> py_remove eqb x l = None.
Proof.
  intros Heq. induction l as [|y l IH]; intros Hx; simpl; [done|].
  apply not_elem_of_cons in Hx as [Hne Hx].
  destruct (eqb x y) eqn:E.
  - apply Heq in E. done.
  - rewrite IH by done. done.
Qed.

Lemma py_remove_eq_first {A} (eqb : A -> A -> bool) (x : A) (l1 l2 : list A) :
  (forall a b, eqb a b = true <-> a = b) ->
  x ∉ l1 -> py_remove eqb x (l1 ++ x :: l2) = Some (l1 ++ l2).
Proof.
  intros Heq. induction l1 as [|y l1 IH]; intros Hx; simpl.
  - rewrite (proj2 (Heq x x) eq_refl). done.
  - apply not_elem_of_cons in Hx as [Hne Hx].
    destruct (eqb x y) eqn:E.
    + apply Heq in E. done.
    + rewrite IH by done. done.
Qed.

Lemma resource_eta r :
  Resource_ (r_id r) (r_name r) (cost_rate r) (availability r) (r_assignments r)
    (calendar r) (skills r) = r.
Proof. destruct r. reflexivity. Qed.

(** X11.  On a resource whose skill list has no duplicate, [add_skill]
    keeps it so and makes the skill a member, changing nothing when it
    already is one; [remove_skill] after it leaves a list without
    duplicates that holds exactly the other skills; and adding a skill the
    resource did not have and removing it again gives back the resource as
    it was. *)
Theorem skills_spec (r : resource) (skill : string) :
  NoDup (skills r) ->
  let r1 := snd (Resource.add_skill skill r) in
  let r2 := snd (Resource.remove_skill skill r1) in
  NoDup (skills r1) /\
  (forall s, s ∈ skills r1 <-> s = skill \/ s ∈ skills r) /\
  (skill ∈ skills r -> r1 = r) /\
  NoDup (skills r2) /\
  (forall s, s ∈ skills r2 <-> s <> skill /\ s ∈ skills r) /\
  (skill ∉ skills r -> r2 = r).
Proof.
  destruct r as [i n c av asg cal sk]. cbn [skills]. intros Hnd. cbn zeta.
  unfold Resource.add_skill, Resource.remove_skill, modify.
  cbn [snd skills r_id r_name cost_rate availability r_assignments calendar].
  destruct (bool_decide_reflect (skill ∈ sk)) as [Hin|Hnin].
  - destruct (list_elem_of_split_l _ _ Hin) as (l1 & l2 & -> & Hl1).
    cbn [skills r_id r_name cost_rate availability r_assignments calendar].
    rewrite (py_remove_eq_first _ _ _ _ String.eqb_eq Hl1). cbn [skills].
    pose proof Hnd as Hnd'.
    apply NoDup_app in Hnd' as (N1 & N12 & N2).
    apply NoDup_cons in N2 as (Hl2 & N2).
    split; [exact Hnd|].
    split; [intros s; split; [tauto|intros [->|]; done]|].
    split; [done|].
    split.
    { apply NoDup_app. split; [done|]. split; [|done].
      intros x Hx Hx2. apply (N12 x Hx). apply elem_of_cons. by right. }
    split; [|intros Hn; destruct (Hn Hin)].
    intros s. rewrite !elem_of_app, elem_of_cons. split.
    + intros [H|H]; (split; [intros ->; done|tauto]).
    + intros [Hne [H|[H|H]]]; [by left|done|by right].
  - cbn [skills r_id r_name cost_rate availability r_assignments calendar].
    replace (sk ++ [skill]) with (sk ++ skill :: []) by reflexivity.
    rewrite (py_remove_eq_first _ _ _ _ String.eqb_eq Hnin).
    cbn [r_id r_name cost_rate availability r_assignments calendar skills].
    rewrite app_nil_r.
    split.
    { apply NoDup_app. split; [done|]. split; [|apply NoDup_singleton].
      intros x Hx ->%list_elem_of_singleton. done. }
    split.
    { intros s. rewrite elem_of_app, list_elem_of_singleton. tauto. }
    split; [done|].
    split; [done|].
    split; [|done].
    intros s. split; [intros Hs; split; [congruence|done]|tauto].
Qed.

Lemma skills_spec_witness :
  let r := Resource_ 1 "R" 10 1 [] ∅ ["python"; "sql"]%string in
  NoDup (skills r) /\
  skills (snd (Resource.add_skill "rust" r)) = ["python"; "sql"; "rust"]%string /\
  NoDup (skills (snd (Resource.add_skill "rust" r))) /\
  snd (Resource.remove_skill "rust" (snd (Resource.add_skill "rust" r))) = r.
Proof.
  cbn zeta.
  assert (NoDup (skills (Resource_ 1 "R" 10 1 [] ∅ ["python"; "sql"]%string))) as H.
  { cbn [skills]. apply NoDup_cons. split; [|apply NoDup_singleton].
    intros [=]%list_elem_of_singleton. }
  split; [exact H|]. split; [reflexivity|].
  destruct (skills_spec _ "rust" H) as (N1 & _ & _ & _ & _ & Hback).
  split; [exact N1|].
  apply Hback. cbn [skills]. intros Hin.
  apply elem_of_cons in Hin as [[=]|Hin].
  apply list_elem_of_singleton in Hin. discriminate Hin.
Defined.

Lemma elem_of_get_date_range (s e x : datetime) :
  x ∈ utilities.get_date_range s e <-> s <= x <= e.
Proof.
  unfold utilities.get_date_range, days_between. rewrite list_elem_of_lookup.
  split.
  - intros [i Hi]. rewrite get_date_range_loop_lookup in Hi.
    destruct (Nat.ltb_spec i (Z.to_nat (e - s + 1))); [|done].
    injection Hi as <-. lia.
  - intros Hx. exists (Z.to_nat (x - s)). rewrite get_date_range_loop_lookup.
    destruct (Nat.ltb_spec (Z.to_nat (x - s)) (Z.to_nat (e - s + 1))); [|lia].
    f_equal. lia.
Qed.

Lemma py_sum_zero {A} (f : A -> Q) (l : list A) :
  (forall x, x ∈ l -> (f x == 0)%Q) -> (py_sum (map f l) == 0)%Q.
Proof.
  induction l as [|x l IH]; intros H; [reflexivity|].
  cbn [map]. rewrite py_sum_cons, IH, (H x); [reflexivity|set_solver|set_solver].
Qed.



(** ** Edges of the task graph (src/models/task.py) *)

Lemma py_remove_count (x : ref) (l l' : list ref) :
  py_remove Nat.eqb x l = Some l' ->
  forall y, count_ref y l = (count_ref y l' + if decide (y = x) then 1 else 0)%nat.
Proof.
  revert l'. induction l as [|z l IH]; intros l' H y; [discriminate H|].
  simpl in H. destruct (Nat.eqb_spec x z) as [->|Hne].
  - injection H as <-. unfold count_ref. cbn [count_occ].
    destruct (Nat.eq_dec z y), (decide (y = z)); try congruence; lia.
  - destruct (py_remove Nat.eqb x l) as [l0|] eqn:E; [|discriminate H].
    injection H as <-. specialize (IH l0 eq_refl y).
    unfold count_ref in *. cbn [count_occ].
    destruct (Nat.eq_dec z y); lia.
Qed.

Lemma py_remove_present (x : ref) (l : list ref) :
  (0 < count_ref x l)%nat -> is_Some (py_remove Nat.eqb x l).
Proof.
  induction l as [|z l IH]; unfold count_ref; cbn [count_occ]; [lia|].
  intros H. simpl. destruct (Nat.eqb_spec x z) as [->|Hne]; [eauto|].
  destruct (Nat.eq_dec z x); [congruence|].
  destruct (IH H) as [l' ->]. simpl. eauto.
Qed.

Lemma count_ref_elem_of (x : ref) (l : list ref) : x ∈ l <-> (0 < count_ref x l)%nat.
Proof.
  rewrite list_elem_of_In. unfold count_ref. apply (count_occ_In Nat.eq_dec).
Qed.

Lemma count_ref_snoc (x y : ref) (l : list ref) :
  count_ref y (l ++ [x]) = (count_ref y l + if decide (y = x) then 1 else 0)%nat.
Proof.
  unfold count_ref. rewrite count_occ_app. cbn [count_occ].
  destruct (Nat.eq_dec x y), (decide (y = x)); try congruence; reflexivity.
Qed.

Lemma set_predecessors_id t : set_predecessors t (predecessors t) = t.
Proof. destruct t. reflexivity. Qed.

Lemma set_successors_id t : set_successors t (successors t) = t.
Proof. destruct t. reflexivity. Qed.

Lemma world_eta w m :
  m = w_tasks w -> set_w_tasks w m = w.
Proof. intros ->. destruct w. reflexivity. Qed.

(** The run of [add_predecessor] on two tasks of the store. *)
Lemma add_predecessor_run w self task ts tk :
  w_tasks w !! self = Some ts -> w_tasks w !! task = Some tk ->
  Task.add_predecessor self task w =
  if bool_decide (task ∈ predecessors ts) then (Returns tt, w)
  else
    let ts' := set_predecessors ts (predecessors ts ++ [task]) in
    let tk' := if decide (task = self) then ts' else tk in
    (Returns tt,
     set_w_tasks w (<[task := set_successors tk' (successors tk ++ [self])]>
                      (<[self := ts']> (w_tasks w)))).
Proof.
  intros Hs Hk. unfold Task.add_predecessor.
  erewrite bind_returns by (apply task_get_run; exact Hs).
  destruct (bool_decide (task ∈ predecessors ts)); [reflexivity|].
  erewrite bind_returns by (apply task_modify_run; exact Hs).
  cbn zeta.
  assert (successors (if decide (task = self)
                      then set_predecessors ts (predecessors ts ++ [task]) else tk)
          = successors tk) as <-.
  { destruct (decide (task = self)) as [->|Hne]; [|reflexivity].
    rewrite Hs in Hk. injection Hk as ->. reflexivity. }
  erewrite task_modify_run; [reflexivity|].
  cbn [w_tasks set_w_tasks].
  destruct (decide (task = self)) as [->|Hne].
  - apply lookup_insert_eq.
  - rewrite lookup_insert_ne by done. exact Hk.
Qed.

(** What the two writes of an edge update leave in the store: the
    predecessor list of [self] and the successor list of [task] are
    replaced, whether or not the two are the same task. *)
Lemma edge_update_lookup (m : gmap ref task) self task ts tk P S x tx' :
  m !! self = Some ts -> m !! task = Some tk ->
  (<[task := set_successors (if decide (task = self) then set_predecessors ts P else tk) S]>
     (<[self := set_predecessors ts P]> m)) !! x = Some tx' ->
  exists tx, m !! x = Some tx /\
    predecessors tx' = (if decide (x = self) then P else predecessors tx) /\
    successors tx' = (if decide (x = task) then S else successors tx).
Proof.
  intros Hs Hk Hx. destruct (decide (x = task)) as [->|Hxt].
  - rewrite lookup_insert_eq in Hx. injection Hx as <-.
    exists tk. split; [exact Hk|]. destruct (decide (task = self)) as [->|Hne].
    + rewrite Hs in Hk. injection Hk as ->. split; reflexivity.
    + split; reflexivity.
  - rewrite lookup_insert_ne in Hx by done.
    destruct (decide (x = self)) as [->|Hxs].
    + rewrite lookup_insert_eq in Hx. injection Hx as <-.
      exists ts. split; [exact Hs|]. split; reflexivity.
    + rewrite lookup_insert_ne in Hx by done. exists tx'. done.
Qed.

(** The run of [remove_predecessor] on two tasks of the store. *)
Lemma remove_predecessor_run w self task ts tk :
  w_tasks w !! self = Some ts -> w_tasks w !! task = Some tk ->
  Task.remove_predecessor self task w =
  match py_remove Nat.eqb task (predecessors ts) with
  | None => (Returns tt, w)
  | Some l =>
      let ts' := set_predecessors ts l in
      let tk' := if decide (task = self) then ts' else tk in
      let w1 := set_w_tasks w (<[self := ts']> (w_tasks w)) in
      match py_remove Nat.eqb self (successors tk) with
      | None => (Raises ValueError, w1)
      | Some l' =>
          (Returns tt, set_w_tasks w1 (<[task := set_successors tk' l']> (w_tasks w1)))
      end
  end.
Proof.
  intros Hs Hk. unfold Task.remove_predecessor.
  erewrite bind_returns by (apply task_get_run; exact Hs).
  destruct (py_remove Nat.eqb task (predecessors ts)) as [l|]; [|reflexivity].
  erewrite bind_returns by (apply task_modify_run; exact Hs).
  cbn zeta.
  set (w1 := set_w_tasks w (<[self := set_predecessors ts l]> (w_tasks w))).
  assert (w_tasks w1 !! task
          = Some (if decide (task = self) then set_predecessors ts l else tk)) as H1.
  { unfold w1. cbn [w_tasks set_w_tasks].
    destruct (decide (task = self)) as [->|Hne].
    - apply lookup_insert_eq.
    - rewrite lookup_insert_ne by done. exact Hk. }
  erewrite bind_returns by (apply task_get_run; exact H1).
  assert (successors (if decide (task = self) then set_predecessors ts l else tk)
          = successors tk) as ->.
  { destruct (decide (task = self)) as [->|Hne]; [|reflexivity].
    rewrite Hs in Hk. injection Hk as ->. reflexivity. }
  destruct (py_remove Nat.eqb self (successors tk)) as [l'|]; [|reflexivity].
  erewrite task_modify_run by exact H1. reflexivity.
Qed.

(** X13.  [self.remove_predecessor(task)] on two tasks of the store: when
    [task] is not a predecessor of [self] nothing changes; otherwise the
    first occurrence of [task] leaves the predecessors of [self], and then
    either [self] is among the successors of [task], its first occurrence
    leaves that list and the call returns, or it is not, and the call
    raises [ValueError] with the predecessor list already shortened.  No
    other task, no resource and not the project is written to. *)
Theorem remove_predecessor_spec (w : world) (ts tk : task) (self task : ref) :
  w_tasks w !! self = Some ts ->
  w_tasks w !! task = Some tk ->
  (task ∉ predecessors ts -> Task.remove_predecessor self task w = (Returns tt, w)) /\
  (forall l1 l2, predecessors ts = l1 ++ task :: l2 -> task ∉ l1 ->
     let w' := snd (Task.remove_predecessor self task w) in
     (predecessors <$> w_tasks w' !! self) = Some (l1 ++ l2) /\
     w_resources w' = w_resources w /\ w_project w' = w_project w /\
     (forall c, c <> self -> c <> task -> w_tasks w' !! c = w_tasks w !! c) /\
     (self ∉ successors tk ->
      fst (Task.remove_predecessor self task w) = Raises ValueError /\
      (successors <$> w_tasks w' !! task) = Some (successors tk)) /\
     (forall k1 k2, successors tk = k1 ++ self :: k2 -> self ∉ k1 ->
      fst (Task.remove_predecessor self task w) = Returns tt /\
      (successors <$> w_tasks w' !! task) = Some (k1 ++ k2))).
Proof.
  intros Hs Hk. rewrite (remove_predecessor_run w self task ts tk Hs Hk).
  split.
  { intros Hn. rewrite py_remove_absent by done. reflexivity. }
  intros l1 l2 El Hl1. rewrite El, py_remove_first by done. cbn zeta.
  destruct (py_remove Nat.eqb self (successors tk)) as [l'|] eqn:E;
    cbn [fst snd w_tasks set_w_tasks w_resources w_project].
  - split.
    { destruct (decide (task = self)) as [->|Hne].
      - rewrite lookup_insert_eq. reflexivity.
      - rewrite lookup_insert_ne, lookup_insert_eq by done. reflexivity. }
    split; [reflexivity|]. split; [reflexivity|].
    split.
    { intros c Hc1 Hc2. rewrite !lookup_insert_ne by done. reflexivity. }
    split.
    { intros Hn. rewrite py_remove_absent in E by done. discriminate E. }
    intros k1 k2 Ek Hk1. rewrite Ek, py_remove_first in E by done.
    injection E as <-. split; [reflexivity|].
    rewrite lookup_insert_eq. reflexivity.
  - split; [rewrite lookup_insert_eq; reflexivity|].
    split; [reflexivity|]. split; [reflexivity|].
    split.
    { intros c Hc1 Hc2. rewrite !lookup_insert_ne by done. reflexivity. }
    split.
    { intros _. split; [reflexivity|].
      destruct (decide (task = self)) as [->|Hne].
      - rewrite lookup_insert_eq. rewrite Hs in Hk. injection Hk as ->. reflexivity.
      - rewrite lookup_insert_ne by done. rewrite Hk. reflexivity. }
    intros k1 k2 Ek Hk1. rewrite Ek, py_remove_first in E by done. discriminate E.
Qed.

Lemma remove_predecessor_spec_witness :
  fst (Task.remove_predecessor task_B task_A chain) = Returns tt /\
  (predecessors <$> w_tasks (snd (Task.remove_predecessor task_B task_A chain)) !! task_B)
    = Some [] /\
  (successors <$> w_tasks (snd (Task.remove_predecessor task_B task_A chain)) !! task_A)
    = Some [].
Proof.
  eassert (w_tasks chain !! task_B = Some _) as Hs by (vm_compute; reflexivity).
  eassert (w_tasks chain !! task_A = Some _) as Hk by (vm_compute; reflexivity).
  destruct (remove_predecessor_spec chain _ _ task_B task_A Hs Hk) as [_ H].
  destruct (H [] [] eq_refl (not_elem_of_nil _)) as (Hp & _ & _ & _ & _ & Hret).
  destruct (Hret [] [] eq_refl (not_elem_of_nil _)) as (Hr & Hsucc).
  split; [exact Hr|]. split; [exact Hp|exact Hsucc].
Defined.

(** X14.  Mutual edges are an invariant of the two edge operations: if
    every task is as often a predecessor of [y] as [y] is its successor,
    the same holds after [add_predecessor] and after [remove_predecessor]
    on tasks of the store, and then [remove_predecessor] returns: the
    [ValueError] of its second [remove] needs a store whose edges are not
    mutual. *)
Theorem mutual_edges_invariant (w : world) (ts tk : task) (self task : ref) :
  w_tasks w !! self = Some ts ->
  w_tasks w !! task = Some tk ->
  mutual_edges w ->
  fst (Task.add_predecessor self task w) = Returns tt /\
  mutual_edges (snd (Task.add_predecessor self task w)) /\
  fst (Task.remove_predecessor self task w) = Returns tt /\
  mutual_edges (snd (Task.remove_predecessor self task w)).
Proof.
  intros Hs Hk Hm.
  rewrite (add_predecessor_run w self task ts tk Hs Hk).
  rewrite (remove_predecessor_run w self task ts tk Hs Hk).
  split; [destruct (bool_decide _); reflexivity|].
  split.
  { destruct (bool_decide_reflect (task ∈ predecessors ts)) as [Hin|Hnin];
      [exact Hm|].
    cbn zeta. cbn [snd]. intros x y tx' ty' Hx Hy. cbn [w_tasks set_w_tasks] in Hx, Hy.
    destruct (edge_update_lookup _ _ _ _ _ _ _ _ _ Hs Hk Hx) as (tx & Ex & _ & Sx).
    destruct (edge_update_lookup _ _ _ _ _ _ _ _ _ Hs Hk Hy) as (ty & Ey & Py & _).
    rewrite Py, Sx. pose proof (Hm x y tx ty Ex Ey) as Hxy.
    destruct (decide (y = self)) as [->|Hys], (decide (x = task)) as [->|Hxt].
    - assert (ty = ts) as -> by congruence. assert (tx = tk) as -> by congruence.
      rewrite !count_ref_snoc, !decide_True by done. lia.
    - assert (ty = ts) as -> by congruence.
      rewrite count_ref_snoc, decide_False by done. lia.
    - assert (tx = tk) as -> by congruence.
      rewrite count_ref_snoc, decide_False by done. lia.
    - exact Hxy. }
  destruct (py_remove Nat.eqb task (predecessors ts)) as [l|] eqn:El;
    [|split; [reflexivity|exact Hm]].
  pose proof (py_remove_count _ _ _ El) as Cl.
  assert (0 < count_ref self (successors tk))%nat as Hpos.
  { rewrite <- (Hm task self tk ts Hk Hs), (Cl task), decide_True by done. lia. }
  destruct (py_remove_present _ _ Hpos) as [l' El']. rewrite El'. cbn zeta.
  pose proof (py_remove_count _ _ _ El') as Cl'.
  split; [reflexivity|].
  cbn [snd]. intros x y tx' ty' Hx Hy. cbn [w_tasks set_w_tasks] in Hx, Hy.
  destruct (edge_update_lookup _ _ _ _ _ _ _ _ _ Hs Hk Hx) as (tx & Ex & _ & Sx).
  destruct (edge_update_lookup _ _ _ _ _ _ _ _ _ Hs Hk Hy) as (ty & Ey & Py & _).
  rewrite Py, Sx. pose proof (Hm x y tx ty Ex Ey) as Hxy.
  destruct (decide (y = self)) as [->|Hys], (decide (x = task)) as [->|Hxt].
  - assert (ty = ts) as -> by congruence. assert (tx = tk) as -> by congruence.
    pose proof (Cl task) as C1. pose proof (Cl' self) as C2.
    rewrite decide_True in C1 by done. rewrite decide_True in C2 by done. lia.
  - assert (ty = ts) as -> by congruence.
    pose proof (Cl x) as C1. rewrite decide_False in C1 by done. lia.
  - assert (tx = tk) as -> by congruence.
    pose proof (Cl' y) as C2. rewrite decide_False in C2 by done. lia.
  - exact Hxy.
Qed.

Lemma chain_tasks :
  w_tasks chain
  = <[task_A := set_successors (Task.init 1 "A" 5 (Some monday)) [task_B]]>
      (<[task_B := set_successors
                     (set_predecessors (Task.init 2 "B" 3 (Some monday)) [task_A])
                     [task_C]]>
         (<[task_C := set_predecessors (Task.init 3 "C" 2 (Some monday)) [task_B]]> ∅)).
Proof. vm_compute. reflexivity. Qed.

Lemma chain_lookup x t :
  w_tasks chain !! x = Some t ->
  (x = task_A /\ predecessors t = [] /\ successors t = [task_B]) \/
  (x = task_B /\ predecessors t = [task_A] /\ successors t = [task_C]) \/
  (x = task_C /\ predecessors t = [task_B] /\ successors t = []).
Proof.
  rewrite chain_tasks. intros H.
  apply lookup_insert_Some in H as [[<- <-]|[_ H]]; [left; done|].
  apply lookup_insert_Some in H as [[<- <-]|[_ H]]; [right; left; done|].
  apply lookup_insert_Some in H as [[<- <-]|[_ H]]; [right; right; done|].
  rewrite lookup_empty in H. discriminate H.
Qed.

Lemma chain_mutual_edges : mutual_edges chain.
Proof.
  intros x y tx ty Hx Hy.
  destruct (chain_lookup x tx Hx) as [(-> & _ & Es)|[(-> & _ & Es)|(-> & _ & Es)]];
    destruct (chain_lookup y ty Hy) as [(-> & Ep & _)|[(-> & Ep & _)|(-> & Ep & _)]];
    rewrite Es, Ep; reflexivity.
Qed.

Lemma mutual_edges_invariant_witness :
  mutual_edges chain /\
  mutual_edges (snd (Task.add_predecessor task_C task_A chain)) /\
  fst (Task.remove_predecessor task_B task_A chain) = Returns tt /\
  mutual_edges (snd (Task.remove_predecessor task_B task_A chain)).
Proof.
  eassert (w_tasks chain !! task_B = Some _) as Hb by (vm_compute; reflexivity).
  eassert (w_tasks chain !! task_A = Some _) as Ha by (vm_compute; reflexivity).
  eassert (w_tasks chain !! task_C = Some _) as Hc by (vm_compute; reflexivity).
  destruct (mutual_edges_invariant chain _ _ task_C task_A Hc Ha chain_mutual_edges)
    as (_ & Hadd & _ & _).
  destruct (mutual_edges_invariant chain _ _ task_B task_A Hb Ha chain_mutual_edges)
    as (_ & _ & Hret & Hrem).
  split; [exact chain_mutual_edges|]. split; [exact Hadd|].
  split; [exact Hret|exact Hrem].
Defined.

Lemma set_edges_back ts P S :
  set_successors (set_predecessors (set_successors (set_predecessors ts P) S)
                    (predecessors ts)) (successors ts) = ts.
Proof. destruct ts. reflexivity. Qed.

Lemma py_remove_snoc (x : ref) (l : list ref) :
  x ∉ l -> py_remove Nat.eqb x (l ++ [x]) = Some l.
Proof.
  intros H. rewrite (py_remove_first x l [] H). by rewrite app_nil_r.
Qed.

(** X15.  An edge that is added and then removed leaves no trace: for
    tasks [self] and [task] of the store with [task] not yet a predecessor
    of [self] and [self] not yet a successor of [task],
    [self.add_predecessor(task)] followed by
    [self.remove_predecessor(task)] returns and gives back the store as it
    was, a self-edge included. *)
Theorem add_remove_predecessor_round_trip (w : world) (ts tk : task) (self task : ref) :
  w_tasks w !! self = Some ts ->
  w_tasks w !! task = Some tk ->
  task ∉ predecessors ts ->
  self ∉ successors tk ->
  (Task.add_predecessor self task ;;; Task.remove_predecessor self task) w
  = (Returns tt, w).
Proof.
  intros Hs Hk Hp Hsuc.
  erewrite bind_returns; cycle 1.
  { rewrite (add_predecessor_run w self task ts tk Hs Hk).
    rewrite bool_decide_eq_false_2 by done. cbn zeta. reflexivity. }
  set (ts' := set_predecessors ts (predecessors ts ++ [task])).
  set (tk' := set_successors (if decide (task = self) then ts' else tk)
                (successors tk ++ [self])).
  set (m1 := <[task := tk']> (<[self := ts']> (w_tasks w))).
  assert (m1 !! task = Some tk') as Hk1 by apply lookup_insert_eq.
  assert (exists ts1, m1 !! self = Some ts1 /\
            predecessors ts1 = predecessors ts ++ [task] /\
            set_predecessors ts1 (predecessors ts)
            = (if decide (task = self)
               then set_successors ts (successors ts ++ [self]) else ts))
    as (ts1 & Hs1 & Ep & Eback).
  { unfold m1, tk'. destruct (decide (task = self)) as [->|Hne].
    - rewrite lookup_insert_eq. eexists. split; [reflexivity|].
      assert (tk = ts) as -> by congruence.
      split; [reflexivity|]. unfold ts'. destruct ts. reflexivity.
    - rewrite lookup_insert_ne, lookup_insert_eq by done.
      eexists. split; [reflexivity|]. split; [reflexivity|].
      unfold ts'. destruct ts. reflexivity. }
  rewrite (remove_predecessor_run (set_w_tasks w m1) self task ts1 tk' Hs1 Hk1).
  rewrite Ep, py_remove_snoc by done.
  assert (successors tk' = successors tk ++ [self]) as -> by reflexivity.
  rewrite py_remove_snoc by done. cbn zeta. f_equal.
  cbn [w_tasks set_w_tasks]. destruct w as [m rs p us rd]. unfold set_w_tasks.
  cbn [w_tasks w_resources w_project undo_stack redo_stack] in *. f_equal.
  apply map_eq. intros x. rewrite Eback. unfold m1, tk', ts'.
  destruct (decide (task = self)) as [->|Hne].
  - assert (tk = ts) as -> by congruence.
    destruct (decide (x = self)) as [->|Hx].
    + rewrite lookup_insert_eq, Hs. f_equal. destruct ts. reflexivity.
    + rewrite !lookup_insert_ne by done. reflexivity.
  - destruct (decide (x = task)) as [->|Hx].
    + rewrite lookup_insert_eq, Hk. f_equal. destruct tk. reflexivity.
    + rewrite lookup_insert_ne by done.
      destruct (decide (x = self)) as [->|Hx'].
      * rewrite lookup_insert_eq, Hs. reflexivity.
      * rewrite !lookup_insert_ne by done. reflexivity.
Qed.

Lemma add_remove_predecessor_round_trip_witness :
  (Task.add_predecessor task_B task_A ;;; Task.remove_predecessor task_B task_A)
    three_tasks = (Returns tt, three_tasks).
Proof.
  eassert (w_tasks three_tasks !! task_B = Some _) as Hs by (vm_compute; reflexivity).
  eassert (w_tasks three_tasks !! task_A = Some _) as Hk by (vm_compute; reflexivity).
  apply (add_remove_predecessor_round_trip three_tasks _ _ task_B task_A Hs Hk).
  - apply not_elem_of_nil.
  - apply not_elem_of_nil.
Defined.

(** ** Assignments of a task (Task.remove_resource, Task.update_progress,
       Task.calculate_assignment_hours) *)

Lemma assignment_eqb_sym a b : assignment_eqb a b = assignment_eqb b a.
Proof.
  unfold assignment_eqb.
  rewrite (Nat.eqb_sym (a_resource a)), (Z.eqb_sym (a_start_date a)),
    (Z.eqb_sym (a_end_date a)).
  assert (forall x y, Qeq_bool x y = Qeq_bool y x) as Hq.
  { intros x y. destruct (Qeq_bool x y) eqn:E1, (Qeq_bool y x) eqn:E2; try reflexivity.
    - apply Qeq_bool_iff in E1. apply Qeq_bool_neq in E2. destruct E2. by symmetry.
    - apply Qeq_bool_iff in E2. apply Qeq_bool_neq in E1. destruct E1. by symmetry. }
  rewrite (Hq (a_units a)), (Hq (a_hours a)). reflexivity.
Qed.

Lemma assignment_eqb_true a b :
  assignment_eqb a b = true <->
  a_resource a = a_resource b /\ (a_units a == a_units b)%Q /\
  a_start_date a = a_start_date b /\ a_end_date a = a_end_date b /\
  (a_hours a == a_hours b)%Q.
Proof.
  unfold assignment_eqb. rewrite !andb_true_iff, Nat.eqb_eq, !Z.eqb_eq, !Qeq_bool_iff.
  tauto.
Qed.

Lemma assignment_eqb_trans a b c :
  assignment_eqb a b = true -> assignment_eqb b c = true -> assignment_eqb a c = true.
Proof.
  rewrite !assignment_eqb_true.
  intros (H1 & H2 & H3 & H4 & H5) (G1 & G2 & G3 & G4 & G5).
  repeat split; try congruence.
  - by rewrite H2.
  - by rewrite H5.
Qed.

(** Equal assignments can be exchanged on either side of [==]. *)
Lemma assignment_eqb_class a b c :
  assignment_eqb a b = true -> assignment_eqb c b = assignment_eqb c a.
Proof.
  intros Hab. destruct (assignment_eqb c a) eqn:E.
  - by apply (assignment_eqb_trans c a b).
  - destruct (assignment_eqb c b) eqn:E'; [|reflexivity].
    rewrite <- E. symmetry. apply (assignment_eqb_trans c b a); [done|].
    by rewrite assignment_eqb_sym.
Qed.

(** [l.remove(a)] takes out the first element that [==] [a]. *)
Lemma py_remove_split {A} (eqb : A -> A -> bool) (a : A) (l : list A) :
  (exists b, b ∈ l /\ eqb a b = true) ->
  exists l1 b l2, l = l1 ++ b :: l2 /\ eqb a b = true /\
                  py_remove eqb a l = Some (l1 ++ l2).
Proof.
  induction l as [|x l IH]; intros (b & Hb & Eb).
  - by apply elem_of_nil in Hb.
  - simpl. destruct (eqb a x) eqn:E.
    + exists [], x, l. done.
    + apply elem_of_cons in Hb as [->|Hb]; [congruence|].
      destruct IH as (l1 & b' & l2 & -> & Eb' & ->); [by exists b|].
      exists (x :: l1), b', l2. done.
Qed.

Lemma while_days_modify_returns {S} n : forall start (f : datetime -> S -> S) (s : S),
  fst (while_days true n start tt (fun d _ => modify (f d)) s) = Returns tt.
Proof.
  induction n as [|n IH]; intros start f s; [reflexivity|].
  cbn [while_days]. unfold bind at 1, modify at 1. unfold bind at 1, lift, timedelta.
  apply IH.
Qed.

Lemma remove_assignment_returns ns a r :
  resource_py_timedelta ns = true ->
  fst (Resource.remove_assignment ns a r) = Returns tt.
Proof.
  intros Hns. unfold Resource.remove_assignment, bind at 1, get.
  destruct (py_remove assignment_eqb a (r_assignments r)) as [l|]; [|reflexivity].
  unfold bind, modify, Resource._update_calendar. rewrite Hns.
  apply while_days_modify_returns.
Qed.

Lemma on_resource_run {A} w r x (m : M resource A) :
  w_resources w !! r = Some x ->
  on_resource r m w = (fst (m x), set_w_resources w (<[r := snd (m x)]> (w_resources w))).
Proof. intros H. unfold on_resource. rewrite H. by destruct (m x). Qed.

(** The loop of [remove_resource] over the assignments still to remove
    ([rem]), [cur] being the assignments the task still holds: each class
    of equal assignments to the resource is as large in [rem] as in [cur]. *)
Lemma remove_resource_loop ns self resource t0 : forall rem cur w,
  resource_py_timedelta ns = true ->
  w_tasks w !! self = Some (set_t_assignments t0 cur) ->
  is_Some (w_resources w !! resource) ->
  (forall a, a ∈ rem -> a_resource a = resource) ->
  (forall c, a_resource c = resource ->
     length (List.filter (assignment_eqb c) rem)
     = length (List.filter (assignment_eqb c) cur)) ->
  let m := for_each rem (fun a =>
      t <- task_get self ;;
      match py_remove assignment_eqb a (t_assignments t) with
      | Some l =>
          task_modify self (fun t => set_t_assignments t l) ;;;
          on_resource resource (Resource.remove_assignment ns a)
      | None => raise ValueError
      end) in
  fst (m w) = Returns tt /\
  w_tasks (snd (m w))
  = <[self := set_t_assignments t0
                (filter (fun a => a_resource a <> resource) cur)]> (w_tasks w) /\
  w_project (snd (m w)) = w_project w /\
  undo_stack (snd (m w)) = undo_stack w /\ redo_stack (snd (m w)) = redo_stack w /\
  forall r', r' <> resource -> w_resources (snd (m w)) !! r' = w_resources w !! r'.
Proof.
  induction rem as [|a rem IH]; intros cur w Hns Hs [r Hr] Hres Hcnt; cbn zeta.
  - cbn [for_each ret fst snd].
    assert (filter (fun a => a_resource a <> resource) cur = cur) as ->.
    { clear Hs. induction cur as [|b cur IHc]; [reflexivity|].
      rewrite filter_cons.
      destruct (decide (a_resource b <> resource)) as [Hb|Hb].
      - f_equal. apply IHc. intros c Hc. specialize (Hcnt c Hc).
        cbn [List.filter] in Hcnt. destruct (assignment_eqb c b); [discriminate Hcnt|].
        exact Hcnt.
      - apply dec_stable in Hb. specialize (Hcnt b Hb).
        cbn [List.filter] in Hcnt. rewrite assignment_eqb_refl in Hcnt.
        discriminate Hcnt. }
    split; [reflexivity|].
    split; [symmetry; apply insert_id; exact Hs|]. done.
  - cbn [for_each].
    assert (a_resource a = resource) as Ha by (apply Hres, elem_of_cons; by left).
    assert (exists b, b ∈ cur /\ assignment_eqb a b = true) as Hex.
    { pose proof (Hcnt a Ha) as Hc. cbn [List.filter] in Hc.
      rewrite assignment_eqb_refl in Hc. cbn [length] in Hc.
      destruct (List.filter (assignment_eqb a) cur) as [|b l] eqn:E; [discriminate Hc|].
      assert (In b (List.filter (assignment_eqb a) cur)) as Hb by (rewrite E; by left).
      apply filter_In in Hb as [Hb Eb]. exists b. split; [|exact Eb].
      by apply list_elem_of_In. }
    destruct (py_remove_split assignment_eqb a cur Hex) as (l1 & b & l2 & -> & Eb & Erm).
    rewrite bind_assoc_run.
    erewrite bind_returns by (apply task_get_run; exact Hs).
    cbn [t_assignments set_t_assignments]. rewrite Erm.
    rewrite bind_assoc_run.
    erewrite bind_returns by (apply task_modify_run; exact Hs).
    set (w1 := set_w_tasks w _).
    assert (w_resources w1 !! resource = Some r) as Hr1 by exact Hr.
    rewrite (bind_returns _ _ w1 tt
               (set_w_resources w1
                  (<[resource := snd (Resource.remove_assignment ns a r)]>
                     (w_resources w1)))); cycle 1.
    { rewrite (on_resource_run w1 resource r _ Hr1).
      rewrite remove_assignment_returns by done. reflexivity. }
    set (w2 := set_w_resources w1 _).
    assert (w_tasks w2 !! self = Some (set_t_assignments t0 (l1 ++ l2))) as Hs2.
    { unfold w2, w1. cbn [w_tasks set_w_tasks set_w_resources].
      rewrite lookup_insert_eq. destruct t0; reflexivity. }
    assert (is_Some (w_resources w2 !! resource)) as Hr2.
    { unfold w2. cbn [w_resources set_w_resources]. rewrite lookup_insert_eq. eauto. }
    assert (a_resource b = resource) as Hb.
    { apply assignment_eqb_true in Eb. destruct Eb as [<- _]. exact Ha. }
    specialize (IH (l1 ++ l2) w2 Hns Hs2 Hr2).
    cbn zeta in IH. destruct IH as (I1 & I2 & I3 & I4 & I5 & I6).
    { intros c Hc. apply Hres, elem_of_cons. by right. }
    { intros c Hc. specialize (Hcnt c Hc). cbn [List.filter] in Hcnt.
      rewrite List.filter_app in Hcnt. cbn [List.filter] in Hcnt.
      rewrite (assignment_eqb_class a b c Eb) in Hcnt.
      rewrite List.filter_app.
      rewrite !length_app in *.
      destruct (assignment_eqb c a); cbn [length] in Hcnt; lia. }
    split; [exact I1|].
    split.
    { rewrite I2. unfold w2, w1. cbn [w_tasks set_w_tasks set_w_resources].
      rewrite insert_insert_eq. f_equal. f_equal.
      rewrite !filter_app, filter_cons.
      rewrite decide_False; [reflexivity|]. intros Hn. by apply Hn. }
    split; [rewrite I3; reflexivity|].
    split; [rewrite I4; reflexivity|].
    split; [rewrite I5; reflexivity|].
    intros r' Hne. rewrite (I6 r' Hne). unfold w2, w1.
    cbn [w_resources set_w_tasks set_w_resources].
    by rewrite lookup_insert_ne.
Qed.

Lemma set_t_assignments_id t : set_t_assignments t (t_assignments t) = t.
Proof. destruct t. reflexivity. Qed.





(** ** Hours of an assignment and progress of a task *)

Lemma task_get_working_days_eq s e :
  Task.get_working_days s e = utilities.get_working_days s e.
Proof.
  unfold Task.get_working_days, utilities.get_working_days.
  generalize (days_between s e) as n. intros n. generalize 0 as acc. revert s.
  induction n as [|n IH]; intros s acc; [reflexivity|].
  cbn [Task.get_working_days_loop utilities.get_working_days_loop]. apply IH.
Qed.



Lemma py_sum_int_cons (x : Z) (l : list Z) : py_sum_int (x :: l) = x + py_sum_int l.
Proof.
  unfold py_sum_int. cbn [fold_left].
  assert (forall l a, fold_left Z.add l a = a + fold_left Z.add l 0) as H.
  { clear. induction l as [|y l IH]; intros a; cbn [fold_left]; [lia|].
    rewrite (IH (a + y)), (IH (0 + y)). lia. }
  rewrite (H l (0 + x)). lia.
Qed.

Lemma map_m_task_get_all l w :
  (forall x, x ∈ l -> is_Some (w_tasks w !! x)) ->
  exists ts, map_m task_get l w = (Returns ts, w) /\
             Forall2 (fun x t => w_tasks w !! x = Some t) l ts.
Proof.
  induction l as [|x l IH]; intros H.
  - exists []. split; [reflexivity|constructor].
  - destruct (H x) as [t Ht]; [apply elem_of_cons; by left|].
    destruct IH as (ts & Hrun & Hall).
    { intros y Hy. apply H, elem_of_cons. by right. }
    exists (t :: ts). split; [|by constructor].
    cbn [map_m]. erewrite bind_returns by (apply task_get_run; exact Ht).
    erewrite bind_returns by exact Hrun. reflexivity.
Qed.

Lemma weighted_completion_bounds (ts : list task) :
  Forall (fun t => (0 <= completion_percentage t <= 100)%Q /\ 0 <= duration t) ts ->
  (0 <= py_sum (map (fun t => completion_percentage t * inject_Z (duration t)) ts)
   <= 100 * inject_Z (py_sum_int (map duration ts)))%Q /\
  0 <= py_sum_int (map duration ts).
Proof.
  induction 1 as [|t ts [Hc Hd] _ IH]; cbn [map].
  - unfold py_sum, py_sum_int. cbn [map fold_left].
    change (inject_Z 0) with 0%Q. split; [lra|lia].
  - rewrite py_sum_cons, py_sum_int_cons, inject_Z_plus.
    assert (0 <= inject_Z (duration t))%Q as Hq.
    { change 0%Q with (inject_Z 0). rewrite <- Zle_Qle. exact Hd. }
    destruct IH as [IH1 IH2].
    split; [|lia].
    pose proof (Qmult_le_0_compat _ _ (proj1 Hc) Hq) as H0.
    assert (completion_percentage t * inject_Z (duration t)
            <= 100 * inject_Z (duration t))%Q as H1.
    { apply Qmult_le_compat_r; [exact (proj2 Hc)|exact Hq]. }
    lra.
Qed.

(** X19.  Completion percentages stay within [0, 100]:
    [update_progress(p)] stores [p] cut to that range ([p] itself when it
    lies in it) and touches nothing else, so the range is an invariant of
    the store; and on a store that satisfies it, with no negative duration
    and every listed task present, [calculate_project_completion] returns a
    value in [0, 100] without writing anything. *)
Theorem completion_in_range (w : world) (t : task) (self : ref) (p : Q) :
  w_tasks w !! self = Some t ->
  progress_in_range w ->
  nonneg_durations w ->
  tasks_in_store w ->
  let w' := snd (Task.update_progress self p w) in
  fst (Task.update_progress self p w) = Returns tt /\
  (exists t', w_tasks w' !! self = Some t' /\
     ((0 <= p <= 100)%Q -> (completion_percentage t' == p)%Q) /\
     ((p < 0)%Q -> (completion_percentage t' == 0)%Q) /\
     ((100 < p)%Q -> (completion_percentage t' == 100)%Q) /\
     duration t' = duration t /\ start_date t' = start_date t /\
     predecessors t' = predecessors t /\ successors t' = successors t /\
     t_assignments t' = t_assignments t) /\
  (forall x, x <> self -> w_tasks w' !! x = w_tasks w !! x) /\
  progress_in_range w' /\
  exists q, ProjectController.calculate_project_completion w = (Returns q, w) /\
            (0 <= q <= 100)%Q.
Proof.
  intros Hs Hp Hd Hin. cbn zeta. unfold Task.update_progress.
  rewrite (task_modify_run w self _ t Hs). cbn [fst snd w_tasks set_w_tasks].
  assert (forall x : Q, (0 <= Qmin 100 (Qmax 0 x) <= 100)%Q) as Hclamp.
  { intros x. destruct (Q.max_spec 0 x) as [[? E1]|[? E1]];
      destruct (Q.min_spec 100 (Qmax 0 x)) as [[? E2]|[? E2]]; lra. }
  split; [reflexivity|].
  split.
  { eexists. split; [apply lookup_insert_eq|]. cbn.
    repeat split; try reflexivity; intros H;
      destruct (Q.max_spec 0 p) as [[? E1]|[? E1]];
      destruct (Q.min_spec 100 (Qmax 0 p)) as [[? E2]|[? E2]]; lra. }
  split; [intros x Hx; by rewrite lookup_insert_ne|].
  split.
  { intros x t' Hx. cbn [w_tasks set_w_tasks] in Hx.
    destruct (decide (x = self)) as [->|Hne].
    - rewrite lookup_insert_eq in Hx. injection Hx as <-. apply Hclamp.
    - rewrite lookup_insert_ne in Hx by done. exact (Hp x t' Hx). }
  unfold ProjectController.calculate_project_completion.
  erewrite bind_returns by reflexivity.
  destruct (p_tasks (w_project w)) as [|x0 l] eqn:El.
  { exists 0%Q. split; [reflexivity|lra]. }
  destruct (map_m_task_get_all (x0 :: l) w) as (ts & Hrun & Hall).
  { intros x Hx. apply Hin. by rewrite El. }
  erewrite bind_returns by exact Hrun.
  eexists. split; [reflexivity|].
  destruct (weighted_completion_bounds ts) as [[Hw0 Hw1] Ht0].
  { apply (Forall2_Forall_r _ _ _ _ Hall). apply Forall_forall.
    intros x _ t0 Hx. split; [exact (Hp x t0 Hx)|exact (Hd x t0 Hx)]. }
  destruct (Z.ltb_spec 0 (py_sum_int (map duration ts))) as [Hpos|Hle]; [|lra].
  assert (0 < inject_Z (py_sum_int (map duration ts)))%Q as Hq.
  { change 0%Q with (inject_Z 0). rewrite <- Zlt_Qlt. exact Hpos. }
  split.
  - apply Qle_shift_div_l; [exact Hq|lra].
  - apply Qle_shift_div_r; [exact Hq|lra].
Qed.

Lemma three_tasks_objects x t :
  w_tasks three_tasks !! x = Some t ->
  completion_percentage t = 0%Q /\ 0 <= duration t.
Proof.
  unfold three_tasks. cbn [w_tasks]. intros H.
  apply lookup_insert_Some in H as [[_ <-]|[_ H]]; [cbn; split; [done|lia]|].
  apply lookup_insert_Some in H as [[_ <-]|[_ H]]; [cbn; split; [done|lia]|].
  apply lookup_insert_Some in H as [[_ <-]|[_ H]]; [cbn; split; [done|lia]|].
  rewrite lookup_empty in H. discriminate H.
Qed.

Lemma three_tasks_in_store : tasks_in_store three_tasks.
Proof.
  intros x Hx. cbn [three_tasks w_project p_tasks] in Hx.
  apply elem_of_cons in Hx as [->|Hx]; [vm_compute; eauto|].
  apply elem_of_cons in Hx as [->|Hx]; [vm_compute; eauto|].
  apply list_elem_of_singleton in Hx as ->. vm_compute. eauto.
Qed.

Lemma completion_in_range_witness :
  progress_in_range three_tasks /\ nonneg_durations three_tasks /\
  tasks_in_store three_tasks /\
  progress_in_range (snd (Task.update_progress task_A 150 three_tasks)) /\
  exists q, ProjectController.calculate_project_completion three_tasks
            = (Returns q, three_tasks) /\ (0 <= q <= 100)%Q.
Proof.
  assert (progress_in_range three_tasks) as Hp.
  { intros x t Hx. destruct (three_tasks_objects x t Hx) as [-> _].
    split; discriminate. }
  assert (nonneg_durations three_tasks) as Hd.
  { intros x t Hx. exact (proj2 (three_tasks_objects x t Hx)). }
  eassert (w_tasks three_tasks !! task_A = Some _) as Hs by (vm_compute; reflexivity).
  destruct (completion_in_range three_tasks _ task_A 150 Hs Hp Hd three_tasks_in_store)
    as (_ & _ & _ & Hp' & Hq).
  split; [exact Hp|]. split; [exact Hd|]. split; [exact three_tasks_in_store|].
  split; [exact Hp'|exact Hq].
Defined.

(** ** Queries on the project (src/models/project.py) *)

Lemma map_m_run {S A B} (f : A -> M S B) (h : A -> B) (l : list A) (s : S) :
  (forall x, x ∈ l -> f x s = (Returns (h x), s)) ->
  map_m f l s = (Returns (map h l), s).
Proof.
  induction l as [|x l IH]; intros H; [reflexivity|].
  cbn [map_m map].
  erewrite bind_returns by (apply H, elem_of_cons; by left).
  erewrite bind_returns by (apply IH; intros y Hy; apply H, elem_of_cons; by right).
  reflexivity.
Qed.

(** A comprehension element that reads one stored task. *)
Lemma task_get_field_run {B} (g : ref -> task -> B) (d : B) w x :
  is_Some (w_tasks w !! x) ->
  (t <- task_get x ;; ret (g x t)) w
  = (Returns (match w_tasks w !! x with Some t => g x t | None => d end), w).
Proof.
  intros [t Ht]. erewrite bind_returns by (apply task_get_run; exact Ht).
  rewrite Ht. reflexivity.
Qed.

(** X20.  On a project whose listed tasks are in the store,
    [find_task_by_id(n)] writes nothing and returns the first task of the
    list whose id is [n], or [None] when no listed task has that id. *)
Theorem find_task_by_id_spec (w : world) (task_id : Z) :
  tasks_in_store w ->
  exists res,
    Project.find_task_by_id task_id w = (Returns res, w) /\
    match res with
    | Some x =>
        exists l1 l2 t,
          p_tasks (w_project w) = l1 ++ x :: l2 /\
          w_tasks w !! x = Some t /\ t_id t = task_id /\
          forall y ty, y ∈ l1 -> w_tasks w !! y = Some ty -> t_id ty <> task_id
    | None =>
        forall y ty, y ∈ p_tasks (w_project w) -> w_tasks w !! y = Some ty ->
                     t_id ty <> task_id
    end.
Proof.
  intros Hin. unfold Project.find_task_by_id.
  erewrite bind_returns by reflexivity.
  erewrite bind_returns; cycle 1.
  { apply (map_m_run _ (fun x => match w_tasks w !! x with
                                  | Some t => (x, t_id t) | None => (x, 0) end)).
    intros x Hx. apply (task_get_field_run (fun x t => (x, t_id t))), Hin, Hx. }
  eexists. split; [reflexivity|].
  unfold tasks_in_store in Hin. revert Hin.
  generalize (p_tasks (w_project w)) as l.
  induction l as [|x l IH]; intros Hin.
  - cbn. intros y ty Hy. by apply elem_of_nil in Hy.
  - destruct (Hin x) as [t Ht]; [apply elem_of_cons; by left|].
    cbn [map List.filter]. rewrite Ht. cbn [snd].
    destruct (Z.eqb_spec (t_id t) task_id) as [E|E].
    + cbn [head fmap option_fmap option_map fst].
      exists [], l, t. split; [reflexivity|]. split; [exact Ht|]. split; [exact E|].
      intros y ty Hy. by apply elem_of_nil in Hy.
    + specialize (IH (fun y Hy => Hin y (proj2 (elem_of_cons _ _ _) (or_intror Hy)))).
      destruct (fst <$> head (List.filter _ (map _ l))) as [z|].
      * destruct IH as (l1 & l2 & tz & -> & Hz & Ez & Hl1).
        exists (x :: l1), l2, tz. split; [reflexivity|]. split; [exact Hz|].
        split; [exact Ez|].
        intros y ty Hy Hty. apply elem_of_cons in Hy as [->|Hy].
        -- congruence.
        -- exact (Hl1 y ty Hy Hty).
      * intros y ty Hy Hty. apply elem_of_cons in Hy as [->|Hy].
        -- congruence.
        -- exact (IH y ty Hy Hty).
Qed.

Lemma find_task_by_id_spec_witness :
  tasks_in_store three_tasks /\
  fst (Project.find_task_by_id 2 three_tasks) = Returns (Some task_B) /\
  fst (Project.find_task_by_id 7 three_tasks) = Returns None.
Proof.
  split; [exact three_tasks_in_store|].
  destruct (find_task_by_id_spec three_tasks 2 three_tasks_in_store) as (res & Hrun & _).
  split; [|reflexivity].
  rewrite Hrun. cbn [fst]. f_equal.
  assert (fst (Project.find_task_by_id 2 three_tasks) = Returns (Some task_B)) as H
    by reflexivity.
  rewrite Hrun in H. by injection H.
Defined.

Lemma py_max_dates_from_Some (ds : list datetime) : forall b,
  exists M, py_max_dates_from (Some b) (map Some ds) = Returns (Some M) /\
            b <= M /\ (forall d, d ∈ ds -> d <= M) /\ (M = b \/ M ∈ ds).
Proof.
  induction ds as [|d ds IH]; intros b; cbn [map py_max_dates_from].
  - exists b. split; [reflexivity|]. split; [lia|]. split; [|by left].
    intros d Hd. by apply elem_of_nil in Hd.
  - destruct (IH (if b <? d then d else b)) as (M & -> & Hb & Hall & Hmem).
    exists M. split; [reflexivity|].
    destruct (Z.ltb_spec b d).
    + split; [lia|]. split.
      * intros d' Hd'. apply elem_of_cons in Hd' as [->|Hd']; [exact Hb|by apply Hall].
      * right. destruct Hmem as [->|Hmem]; apply elem_of_cons; [by left|by right].
    + split; [lia|]. split.
      * intros d' Hd'. apply elem_of_cons in Hd' as [->|Hd']; [lia|by apply Hall].
      * destruct Hmem as [->|Hmem]; [by left|right; apply elem_of_cons; by right].
Qed.

Lemma py_max_dates_from_None (xs : list (option datetime)) : forall b,
  None ∈ xs -> py_max_dates_from b xs = Raises TypeError.
Proof.
  induction xs as [|x xs IH]; intros b Hn; [by apply elem_of_nil in Hn|].
  cbn [py_max_dates_from]. destruct x as [d|]; [|reflexivity].
  destruct b as [b|]; [|reflexivity].
  apply IH. apply elem_of_cons in Hn as [Hn|Hn]; [discriminate Hn|exact Hn].
Qed.



(** ** The critical-path pass (Project.calculate_critical_path) *)

Lemma same_but_schedule_lookup w w' x :
  same_but_schedule w w' ->
  match w_tasks w !! x, w_tasks w' !! x with
  | Some t, Some t' =>
      duration t' = duration t /\ successors t' = successors t /\
      predecessors t' = predecessors t
  | None, None => True
  | _, _ => False
  end.
Proof.
  intros (_ & _ & _ & _ & H).
  assert (unscheduled <$> w_tasks w' !! x = unscheduled <$> w_tasks w !! x) as Hx.
  { by rewrite <- !lookup_fmap, H. }
  destruct (w_tasks w !! x) as [t|], (w_tasks w' !! x) as [t'|];
    try discriminate Hx; [|done].
  split; [exact (f_equal (fun o => match o with
                                  | Some u => duration u | None => 0 end) Hx)|].
  split; [exact (f_equal (fun o => match o with
                                   | Some u => successors u | None => [] end) Hx)|
          exact (f_equal (fun o => match o with
                                   | Some u => predecessors u | None => [] end) Hx)].
Qed.

Lemma same_but_schedule_is_Some w w' x :
  same_but_schedule w w' -> is_Some (w_tasks w !! x) -> is_Some (w_tasks w' !! x).
Proof.
  intros H [t Ht]. pose proof (same_but_schedule_lookup w w' x H) as Hl.
  rewrite Ht in Hl. destruct (w_tasks w' !! x); [eauto|done].
Qed.

Lemma same_but_schedule_duration w w' x :
  same_but_schedule w w' -> field duration w' x = field duration w x.
Proof.
  intros H. pose proof (same_but_schedule_lookup w w' x H) as Hl. unfold field.
  destruct (w_tasks w !! x), (w_tasks w' !! x); try done. tauto.
Qed.

Lemma same_but_schedule_successors w w' x :
  same_but_schedule w w' -> successors_of w' x = successors_of w x.
Proof.
  intros H. pose proof (same_but_schedule_lookup w w' x H) as Hl. unfold successors_of.
  destruct (w_tasks w !! x), (w_tasks w' !! x); try done. tauto.
Qed.

Lemma same_but_schedule_predecessors w w' x :
  same_but_schedule w w' -> predecessors_of w' x = predecessors_of w x.
Proof.
  intros H. pose proof (same_but_schedule_lookup w w' x H) as Hl. unfold predecessors_of.
  destruct (w_tasks w !! x), (w_tasks w' !! x); try done. tauto.
Qed.

(** A write to the schedule fields of one stored task. *)
Lemma task_modify_schedule w r (g : task -> task) t :
  w_tasks w !! r = Some t ->
  unscheduled (g t) = unscheduled t ->
  exists w', task_modify r g w = (Returns tt, w') /\
    same_but_schedule w w' /\
    w_tasks w' !! r = Some (g t) /\
    (forall x, x <> r -> w_tasks w' !! x = w_tasks w !! x) /\
    forall f x, field f w' x = if decide (x = r) then f (g t) else field f w x.
Proof.
  intros Ht Hg. eexists. split; [apply task_modify_run; exact Ht|].
  split.
  { repeat split. cbn [w_tasks set_w_tasks].
    rewrite fmap_insert, Hg. apply insert_id. by rewrite lookup_fmap, Ht. }
  cbn [w_tasks set_w_tasks].
  split; [apply lookup_insert_eq|].
  split; [intros x Hx; by rewrite lookup_insert_ne|].
  intros f x. unfold field. cbn [w_tasks set_w_tasks].
  destruct (decide (x = r)) as [->|Hne].
  - by rewrite lookup_insert_eq.
  - by rewrite lookup_insert_ne.
Qed.

Lemma field_lookup f w x t : w_tasks w !! x = Some t -> field f w x = f t.
Proof. intros H. unfold field. by rewrite H. Qed.

(** One test-and-update of the forward pass. *)
Lemma forward_step_run w0 w z s :
  same_but_schedule w0 w ->
  is_Some (w_tasks w0 !! z) -> is_Some (w_tasks w0 !! s) ->
  exists w', Project.forward_step z s w = (Returns tt, w') /\
    same_but_schedule w0 w' /\
    (forall x, field early_start w' x
               = if decide (x = s)
                 then Z.max (field early_start w s) (field early_finish w z)
                 else field early_start w x) /\
    (forall x, field early_finish w' x
               = if decide (x = s)
                 then (if field early_start w s <? field early_finish w z
                       then field early_finish w z + field duration w0 s
                       else field early_finish w s)
                 else field early_finish w x) /\
    (forall x, field late_start w' x = field late_start w x) /\
    (forall x, field late_finish w' x = field late_finish w x).
Proof.
  intros Hst Hz Hs.
  destruct (same_but_schedule_is_Some _ _ z Hst Hz) as [tz Htz].
  destruct (same_but_schedule_is_Some _ _ s Hst Hs) as [ts Hts].
  unfold Project.forward_step.
  erewrite bind_returns by (apply task_get_run; exact Htz).
  erewrite bind_returns by (apply task_get_run; exact Hts).
  rewrite (field_lookup early_start w s ts Hts), (field_lookup early_finish w z tz Htz),
    (field_lookup early_finish w s ts Hts).
  assert (field duration w0 s = duration ts) as ->.
  { rewrite <- (same_but_schedule_duration w0 w s Hst). by apply field_lookup. }
  destruct (Z.ltb_spec (early_start ts) (early_finish tz)) as [Hlt|Hge].
  - destruct (task_modify_schedule w s
                (fun s => set_early s (early_finish tz) (early_finish tz + duration s))
                ts Hts eq_refl) as (w' & Hrun & Hst' & _ & _ & Hf).
    exists w'. split; [exact Hrun|].
    split; [exact (same_but_schedule_trans _ _ _ Hst Hst')|].
    split; [intros x; rewrite Hf; destruct (decide (x = s)); [cbn; lia|done]|].
    split; [intros x; rewrite Hf; destruct (decide (x = s)); done|].
    split; intros x; rewrite Hf; destruct (decide (x = s)) as [->|];
      try done; cbn; symmetry; by apply field_lookup.
  - exists w. split; [reflexivity|]. split; [exact Hst|].
    split; [intros x; destruct (decide (x = s)) as [->|]; [|done];
            rewrite (field_lookup _ _ _ _ Hts); lia|].
    split; [intros x; destruct (decide (x = s)) as [->|]; [|done];
            by rewrite (field_lookup _ _ _ _ Hts)|].
    done.
Qed.

(** The inner loop of the forward pass, for the task [z]. *)
Lemma forward_inner w0 z : forall ss w,
  same_but_schedule w0 w ->
  is_Some (w_tasks w0 !! z) ->
  (forall y, y ∈ ss -> is_Some (w_tasks w0 !! y)) ->
  exists w', for_each ss (Project.forward_step z) w = (Returns tt, w') /\
    same_but_schedule w0 w' /\
    (forall x, field early_start w x <= field early_start w' x) /\
    (forall x, x ∉ ss -> field early_start w' x = field early_start w x /\
                         field early_finish w' x = field early_finish w x) /\
    (forall x, field late_start w' x = field late_start w x /\
               field late_finish w' x = field late_finish w x) /\
    (forall x, field early_finish w x = field early_start w x + field duration w0 x ->
               field early_finish w' x = field early_start w' x + field duration w0 x) /\
    (z ∉ ss -> forall y, y ∈ ss -> field early_finish w z <= field early_start w' y).
Proof.
  induction ss as [|s ss IH]; intros w Hst Hz Hss.
  - exists w. split; [reflexivity|]. split; [exact Hst|].
    split; [intros; lia|]. split; [done|]. split; [done|]. split; [done|].
    intros _ y Hy. by apply elem_of_nil in Hy.
  - destruct (forward_step_run w0 w z s Hst Hz) as (w1 & Hrun1 & Hst1 & Es1 & Ef1 & Ls1 & Lf1).
    { apply Hss, elem_of_cons. by left. }
    destruct (IH w1 Hst1 Hz) as (w' & Hrun & Hst' & Hmono & Hout & Hlate & Hsum & Hz').
    { intros y Hy. apply Hss, elem_of_cons. by right. }
    exists w'. split.
    { cbn [for_each]. erewrite bind_returns by exact Hrun1. exact Hrun. }
    split; [exact Hst'|].
    split.
    { intros x. specialize (Hmono x). rewrite Es1 in Hmono.
      destruct (decide (x = s)) as [->|]; lia. }
    split.
    { intros x Hx. apply not_elem_of_cons in Hx as [Hxs Hx].
      destruct (Hout x Hx) as [-> ->]. rewrite Es1, Ef1, !decide_False by done. done. }
    split.
    { intros x. destruct (Hlate x) as [-> ->]. by rewrite Ls1, Lf1. }
    split.
    { intros x Hx. apply Hsum. rewrite Es1, Ef1.
      destruct (decide (x = s)) as [->|]; [|exact Hx].
      destruct (Z.ltb_spec (field early_start w s) (field early_finish w z)); lia. }
    intros Hnz y Hy. apply not_elem_of_cons in Hnz as [Hzs Hnz].
    apply elem_of_cons in Hy as [->|Hy].
    + specialize (Hmono s). rewrite Es1, decide_True in Hmono by done. lia.
    + specialize (Hz' Hnz y Hy). rewrite Ef1, decide_False in Hz' by done. exact Hz'.
Qed.

(** One test-and-update of the backward pass. *)
Lemma backward_step_run w0 w z p :
  same_but_schedule w0 w ->
  is_Some (w_tasks w0 !! z) -> is_Some (w_tasks w0 !! p) ->
  exists w', Project.backward_step z p w = (Returns tt, w') /\
    same_but_schedule w0 w' /\
    (forall x, field late_finish w' x
               = if decide (x = p)
                 then Z.min (field late_finish w p) (field late_start w z)
                 else field late_finish w x) /\
    (forall x, field late_start w' x
               = if decide (x = p)
                 then (if field late_start w z <? field late_finish w p
                       then field late_start w z - field duration w0 p
                       else field late_start w p)
                 else field late_start w x) /\
    (forall x, field early_start w' x = field early_start w x) /\
    (forall x, field early_finish w' x = field early_finish w x).
Proof.
  intros Hst Hz Hp.
  destruct (same_but_schedule_is_Some _ _ z Hst Hz) as [tz Htz].
  destruct (same_but_schedule_is_Some _ _ p Hst Hp) as [tp Htp].
  unfold Project.backward_step.
  erewrite bind_returns by (apply task_get_run; exact Htz).
  erewrite bind_returns by (apply task_get_run; exact Htp).
  rewrite (field_lookup late_finish w p tp Htp), (field_lookup late_start w z tz Htz),
    (field_lookup late_start w p tp Htp).
  assert (field duration w0 p = duration tp) as ->.
  { rewrite <- (same_but_schedule_duration w0 w p Hst). by apply field_lookup. }
  destruct (Z.ltb_spec (late_start tz) (late_finish tp)) as [Hlt|Hge].
  - destruct (task_modify_schedule w p
                (fun p => set_late p (late_start tz - duration p) (late_start tz))
                tp Htp eq_refl) as (w' & Hrun & Hst' & _ & _ & Hf).
    exists w'. split; [exact Hrun|].
    split; [exact (same_but_schedule_trans _ _ _ Hst Hst')|].
    split; [intros x; rewrite Hf; destruct (decide (x = p)); [cbn; lia|done]|].
    split; [intros x; rewrite Hf; destruct (decide (x = p)); done|].
    split; intros x; rewrite Hf; destruct (decide (x = p)) as [->|];
      try done; cbn; symmetry; by apply field_lookup.
  - exists w. split; [reflexivity|]. split; [exact Hst|].
    split; [intros x; destruct (decide (x = p)) as [->|]; [|done];
            rewrite (field_lookup _ _ _ _ Htp); lia|].
    split; [intros x; destruct (decide (x = p)) as [->|]; [|done];
            by rewrite (field_lookup _ _ _ _ Htp)|].
    done.
Qed.

(** The inner loop of the backward pass, for the task [z]. *)
Lemma backward_inner w0 z : forall ps w,
  same_but_schedule w0 w ->
  is_Some (w_tasks w0 !! z) ->
  (forall y, y ∈ ps -> is_Some (w_tasks w0 !! y)) ->
  exists w', for_each ps (Project.backward_step z) w = (Returns tt, w') /\
    same_but_schedule w0 w' /\
    (forall x, field late_finish w' x <= field late_finish w x) /\
    (forall x, x ∉ ps -> field late_start w' x = field late_start w x /\
                         field late_finish w' x = field late_finish w x) /\
    (forall x, field early_start w' x = field early_start w x /\
               field early_finish w' x = field early_finish w x) /\
    (forall x, field late_start w x = field late_finish w x - field duration w0 x ->
               field late_start w' x = field late_finish w' x - field duration w0 x) /\
    (z ∉ ps -> forall x B, B <= field late_finish w x -> B <= field late_start w z ->
               B <= field late_finish w' x) /\
    (z ∉ ps -> forall y, y ∈ ps -> field late_finish w' y <= field late_start w z).
Proof.
  induction ps as [|p ps IH]; intros w Hst Hz Hps.
  - exists w. split; [reflexivity|]. split; [exact Hst|].
    split; [intros; lia|]. split; [done|]. split; [done|]. split; [done|].
    split; [done|]. intros _ y Hy. by apply elem_of_nil in Hy.
  - destruct (backward_step_run w0 w z p Hst Hz) as (w1 & Hrun1 & Hst1 & Lf1 & Ls1 & Es1 & Ef1).
    { apply Hps, elem_of_cons. by left. }
    destruct (IH w1 Hst1 Hz)
      as (w' & Hrun & Hst' & Hmono & Hout & Hearly & Hsum & Hlow & Hz').
    { intros y Hy. apply Hps, elem_of_cons. by right. }
    exists w'. split.
    { cbn [for_each]. erewrite bind_returns by exact Hrun1. exact Hrun. }
    split; [exact Hst'|].
    split.
    { intros x. specialize (Hmono x). rewrite Lf1 in Hmono.
      destruct (decide (x = p)) as [->|]; lia. }
    split.
    { intros x Hx. apply not_elem_of_cons in Hx as [Hxp Hx].
      destruct (Hout x Hx) as [-> ->]. rewrite Ls1, Lf1, !decide_False by done. done. }
    split.
    { intros x. destruct (Hearly x) as [-> ->]. by rewrite Es1, Ef1. }
    split.
    { intros x Hx. apply Hsum. rewrite Ls1, Lf1.
      destruct (decide (x = p)) as [->|]; [|exact Hx].
      destruct (Z.ltb_spec (field late_start w z) (field late_finish w p)); lia. }
    split.
    { intros Hnz x B HB1 HB2. apply not_elem_of_cons in Hnz as [Hzp Hnz].
      apply (Hlow Hnz).
      - rewrite Lf1. destruct (decide (x = p)) as [->|]; lia.
      - rewrite Ls1, decide_False by done. exact HB2. }
    intros Hnz y Hy. apply not_elem_of_cons in Hnz as [Hzp Hnz].
    apply elem_of_cons in Hy as [->|Hy].
    + specialize (Hmono p). rewrite Lf1, decide_True in Hmono by done. lia.
    + specialize (Hz' Hnz y Hy). rewrite Ls1, decide_False in Hz' by done. exact Hz'.
Qed.

(** A loop whose body returns and extends an invariant of the processed
    prefix. *)
Lemma for_each_prefix {S A} (body : A -> M S unit) (I : list A -> S -> Prop)
    (full : list A) : forall rest pre s,
  full = pre ++ rest ->
  I pre s ->
  (forall p x q s', full = p ++ x :: q -> I p s' ->
     exists s'', body x s' = (Returns tt, s'') /\ I (p ++ [x]) s'') ->
  exists s', for_each rest body s = (Returns tt, s') /\ I full s'.
Proof.
  induction rest as [|x rest IH]; intros pre s Hfull Hpre Hstep.
  - exists s. split; [reflexivity|]. rewrite Hfull, app_nil_r. exact Hpre.
  - destruct (Hstep pre x rest s Hfull Hpre) as (s1 & Hrun1 & H1).
    destruct (IH (pre ++ [x]) s1) as (s' & Hrun & H'); [|exact H1|exact Hstep|].
    { rewrite Hfull, <- app_assoc. reflexivity. }
    exists s'. split; [|exact H'].
    cbn [for_each]. erewrite bind_returns by exact Hrun1. exact Hrun.
Qed.

Lemma successors_of_lookup w x t : w_tasks w !! x = Some t -> successors_of w x = successors t.
Proof. intros H. unfold successors_of. by rewrite H. Qed.

Lemma predecessors_of_lookup w x t :
  w_tasks w !! x = Some t -> predecessors_of w x = predecessors t.
Proof. intros H. unfold predecessors_of. by rewrite H. Qed.

Lemma edges_in_store_successors w x y :
  edges_in_store w -> y ∈ successors_of w x -> is_Some (w_tasks w !! y).
Proof.
  intros H Hy. unfold successors_of in Hy.
  destruct (w_tasks w !! x) as [t|] eqn:E; [|by apply elem_of_nil in Hy].
  apply (H x t y E). by right.
Qed.

Lemma edges_in_store_predecessors w x y :
  edges_in_store w -> y ∈ predecessors_of w x -> is_Some (w_tasks w !! y).
Proof.
  intros H Hy. unfold predecessors_of in Hy.
  destruct (w_tasks w !! x) as [t|] eqn:E; [|by apply elem_of_nil in Hy].
  apply (H x t y E). by left.
Qed.

(** The forward pass over the task list [l]. *)
Lemma forward_pass w0 l w :
  same_but_schedule w0 w ->
  (forall x, x ∈ l -> is_Some (w_tasks w0 !! x)) ->
  edges_in_store w0 ->
  (forall x, x ∈ l ->
     field early_finish w x = field early_start w x + field duration w0 x) ->
  (forall x, x ∈ l -> 0 <= field early_start w x) ->
  exists w',
    for_each l (fun task =>
      t <- task_get task ;;
      for_each (successors t) (Project.forward_step task)) w = (Returns tt, w') /\
    same_but_schedule w0 w' /\
    (forall x, x ∈ l ->
       field early_finish w' x = field early_start w' x + field duration w0 x) /\
    (forall x, x ∈ l -> 0 <= field early_start w' x) /\
    (forall x, field late_start w' x = field late_start w x /\
               field late_finish w' x = field late_finish w x) /\
    ((forall l1 x l2, l = l1 ++ x :: l2 ->
        forall y, y ∈ x :: l2 -> x ∉ successors_of w0 y) ->
     forall x y, x ∈ l -> y ∈ successors_of w0 x ->
                 field early_finish w' x <= field early_start w' y).
Proof.
  intros Hst Hl He HA HB.
  set (I := fun (pre : list ref) (w' : world) =>
    same_but_schedule w0 w' /\
    (forall x, x ∈ l ->
       field early_finish w' x = field early_start w' x + field duration w0 x) /\
    (forall x, x ∈ l -> 0 <= field early_start w' x) /\
    (forall x, field late_start w' x = field late_start w x /\
               field late_finish w' x = field late_finish w x) /\
    ((forall l1 x l2, l = l1 ++ x :: l2 ->
        forall y, y ∈ x :: l2 -> x ∉ successors_of w0 y) ->
     forall x y, x ∈ pre -> y ∈ successors_of w0 x ->
                 field early_finish w' x <= field early_start w' y)).
  destruct (for_each_prefix
              (fun task => t <- task_get task ;;
                           for_each (successors t) (Project.forward_step task))
              I l l [] w eq_refl) as (w' & Hrun & Hw').
  { split; [exact Hst|]. split; [exact HA|]. split; [exact HB|]. split; [done|].
    intros _ x y Hx. by apply elem_of_nil in Hx. }
  { intros pre z post w1 Hfull (Hst1 & HA1 & HB1 & HL1 & HC1).
    assert (z ∈ l) as Hzl.
    { rewrite Hfull. apply elem_of_app. right. apply elem_of_cons. by left. }
    pose proof (Hl z Hzl) as Hz0.
    destruct (same_but_schedule_is_Some _ _ z Hst1 Hz0) as [tz Htz].
    assert (successors tz = successors_of w0 z) as Hsucc.
    { rewrite <- (same_but_schedule_successors w0 w1 z Hst1).
      symmetry. by apply successors_of_lookup. }
    destruct (forward_inner w0 z (successors tz) w1 Hst1 Hz0)
      as (w2 & Hrun2 & Hst2 & Hmono & Hout & Hlate & Hsum & Hzs).
    { intros y Hy. rewrite Hsucc in Hy. by apply (edges_in_store_successors w0 z). }
    exists w2. split.
    { erewrite bind_returns by (apply task_get_run; exact Htz). exact Hrun2. }
    split; [exact Hst2|].
    split; [intros x Hx; apply Hsum, HA1, Hx|].
    split; [intros x Hx; specialize (HB1 x Hx); specialize (Hmono x); lia|].
    split.
    { intros x. destruct (Hlate x) as [-> ->]. apply HL1. }
    intros Hord x y Hx Hy.
    assert (x ∉ successors tz) as Hxz.
    { rewrite Hsucc. apply elem_of_app in Hx as [Hx|Hx].
      - apply list_elem_of_split in Hx as (a & b & ->).
        apply (Hord a x (b ++ z :: post)).
        + rewrite Hfull, <- app_assoc. reflexivity.
        + apply elem_of_cons. right. apply elem_of_app. right.
          apply elem_of_cons. by left.
      - apply list_elem_of_singleton in Hx as ->.
        apply (Hord pre z post Hfull). apply elem_of_cons. by left. }
    destruct (Hout x Hxz) as [_ Hef]. rewrite Hef.
    apply elem_of_app in Hx as [Hx|Hx].
    - specialize (HC1 Hord x y Hx Hy). specialize (Hmono y). lia.
    - apply list_elem_of_singleton in Hx as ->.
      apply Hzs; [exact Hxz|]. rewrite Hsucc. exact Hy. }
  exists w'. split; [exact Hrun|]. exact Hw'.
Qed.

(** The backward pass over the task list [l] (given in the order in which
    the loop visits it). *)
Lemma backward_pass w0 l w (D : Z) :
  same_but_schedule w0 w ->
  (forall x, x ∈ l -> is_Some (w_tasks w0 !! x)) ->
  edges_in_store w0 ->
  (forall x, x ∈ l ->
     field late_start w x = field late_finish w x - field duration w0 x) ->
  (forall x, x ∈ l -> field late_finish w x <= D) ->
  exists w',
    for_each l (fun task =>
      t <- task_get task ;;
      for_each (predecessors t) (Project.backward_step task)) w = (Returns tt, w') /\
    same_but_schedule w0 w' /\
    (forall x, x ∈ l ->
       field late_start w' x = field late_finish w' x - field duration w0 x) /\
    (forall x, x ∈ l -> field late_finish w' x <= D) /\
    (forall x, field early_start w' x = field early_start w x /\
               field early_finish w' x = field early_finish w x) /\
    ((forall l1 x l2, l = l1 ++ x :: l2 ->
        forall y, y ∈ x :: l2 -> x ∉ predecessors_of w0 y) ->
     (forall x y, x ∈ l -> y ∈ predecessors_of w0 x ->
                  field late_finish w' y <= field late_start w' x) /\
     ((forall x, x ∈ l -> field early_finish w x <= field late_finish w x) ->
      (forall x, x ∈ l ->
         field early_finish w x = field early_start w x + field duration w0 x) ->
      (forall x y, x ∈ l -> y ∈ predecessors_of w0 x -> y ∈ l ->
                   field early_finish w y <= field early_start w x) ->
      forall x, x ∈ l -> field early_finish w' x <= field late_finish w' x)).
Proof.
  intros Hst Hl He HA HB.
  set (I := fun (pre : list ref) (w' : world) =>
    same_but_schedule w0 w' /\
    (forall x, x ∈ l ->
       field late_start w' x = field late_finish w' x - field duration w0 x) /\
    (forall x, x ∈ l -> field late_finish w' x <= D) /\
    (forall x, field early_start w' x = field early_start w x /\
               field early_finish w' x = field early_finish w x) /\
    ((forall l1 x l2, l = l1 ++ x :: l2 ->
        forall y, y ∈ x :: l2 -> x ∉ predecessors_of w0 y) ->
     (forall x y, x ∈ pre -> y ∈ predecessors_of w0 x ->
                  field late_finish w' y <= field late_start w' x) /\
     ((forall x, x ∈ l -> field early_finish w x <= field late_finish w x) ->
      (forall x, x ∈ l ->
         field early_finish w x = field early_start w x + field duration w0 x) ->
      (forall x y, x ∈ l -> y ∈ predecessors_of w0 x -> y ∈ l ->
                   field early_finish w y <= field early_start w x) ->
      forall x, x ∈ l -> field early_finish w' x <= field late_finish w' x))).
  destruct (for_each_prefix
              (fun task => t <- task_get task ;;
                           for_each (predecessors t) (Project.backward_step task))
              I l l [] w eq_refl) as (w' & Hrun & Hw').
  { split; [exact Hst|]. split; [exact HA|]. split; [exact HB|]. split; [done|].
    intros _. split; [intros x y Hx; by apply elem_of_nil in Hx|].
    intros HK _ _ x Hx. exact (HK x Hx). }
  { intros pre z post w1 Hfull (Hst1 & HA1 & HB1 & HE1 & HC1).
    assert (z ∈ l) as Hzl.
    { rewrite Hfull. apply elem_of_app. right. apply elem_of_cons. by left. }
    pose proof (Hl z Hzl) as Hz0.
    destruct (same_but_schedule_is_Some _ _ z Hst1 Hz0) as [tz Htz].
    assert (predecessors tz = predecessors_of w0 z) as Hpred.
    { rewrite <- (same_but_schedule_predecessors w0 w1 z Hst1).
      symmetry. by apply predecessors_of_lookup. }
    destruct (backward_inner w0 z (predecessors tz) w1 Hst1 Hz0)
      as (w2 & Hrun2 & Hst2 & Hmono & Hout & Hearly & Hsum & Hlow & Hzs).
    { intros y Hy. rewrite Hpred in Hy. by apply (edges_in_store_predecessors w0 z). }
    exists w2. split.
    { erewrite bind_returns by (apply task_get_run; exact Htz). exact Hrun2. }
    split; [exact Hst2|].
    split; [intros x Hx; apply Hsum, HA1, Hx|].
    split; [intros x Hx; specialize (HB1 x Hx); specialize (Hmono x); lia|].
    split.
    { intros x. destruct (Hearly x) as [-> ->]. apply HE1. }
    intros Hord. destruct (HC1 Hord) as [HC HK].
    assert (forall x, x ∈ pre ++ [z] -> x ∉ predecessors tz) as Hnot.
    { intros x Hx. rewrite Hpred. apply elem_of_app in Hx as [Hx|Hx].
      - apply list_elem_of_split in Hx as (a & b & ->).
        apply (Hord a x (b ++ z :: post)).
        + rewrite Hfull, <- app_assoc. reflexivity.
        + apply elem_of_cons. right. apply elem_of_app. right.
          apply elem_of_cons. by left.
      - apply list_elem_of_singleton in Hx as ->.
        apply (Hord pre z post Hfull). apply elem_of_cons. by left. }
    split.
    - intros x y Hx Hy. destruct (Hout x (Hnot x Hx)) as [Hls _]. rewrite Hls.
      apply elem_of_app in Hx as [Hx|Hx].
      + specialize (HC x y Hx Hy). specialize (Hmono y). lia.
      + apply list_elem_of_singleton in Hx as ->.
        apply Hzs; [apply Hnot, elem_of_app; right; by apply list_elem_of_singleton|].
        rewrite Hpred. exact Hy.
    - intros HK0 Hes Hfw x Hx. specialize (HK HK0 Hes Hfw).
      destruct (Hearly x) as [_ ->].
      assert (z ∉ predecessors tz) as Hzz
        by (apply Hnot, elem_of_app; right; by apply list_elem_of_singleton).
      destruct (decide (x ∈ predecessors tz)) as [Hxp|Hxp].
      + apply (Hlow Hzz); [exact (HK x Hx)|].
        (* the late start of [z] is at least its early start, which is at
           least the early finish of its predecessor [x] *)
        rewrite (HA1 z Hzl).
        pose proof (HK z Hzl) as Hkz.
        assert (field early_finish w x <= field early_start w z) as Hxz.
        { apply (Hfw z x Hzl); [by rewrite <- Hpred|exact Hx]. }
        destruct (HE1 x) as [_ Ex]. destruct (HE1 z) as [Ez Ez'].
        pose proof (Hes z Hzl). lia.
      + destruct (Hout x Hxp) as [_ ->]. exact (HK x Hx). }
  exists w'. split; [exact Hrun|]. exact Hw'.
Qed.

(** A loop that rewrites the schedule fields of each listed task by [g]. *)
Lemma modify_loop w0 (g : task -> task) (Q : task -> Prop) :
  (forall t, unscheduled (g t) = unscheduled t) ->
  (forall t, Q (g t)) ->
  forall l w,
  same_but_schedule w0 w ->
  (forall x, x ∈ l -> is_Some (w_tasks w0 !! x)) ->
  exists w', for_each l (fun task => task_modify task g) w = (Returns tt, w') /\
    same_but_schedule w0 w' /\
    (forall x, x ∈ l -> exists t, w_tasks w' !! x = Some t /\ Q t) /\
    (forall x, x ∉ l -> w_tasks w' !! x = w_tasks w !! x) /\
    (forall f : task -> Z, (forall t, f (g t) = f t) ->
       forall x, field f w' x = field f w x).
Proof.
  intros Hg HQ. induction l as [|z l IH]; intros w Hst Hl.
  - exists w. split; [reflexivity|]. split; [exact Hst|].
    split; [intros x Hx; by apply elem_of_nil in Hx|]. done.
  - destruct (same_but_schedule_is_Some _ _ z Hst) as [tz Htz];
      [apply Hl, elem_of_cons; by left|].
    destruct (task_modify_schedule w z g tz Htz (Hg tz))
      as (w1 & Hrun1 & Hst1 & Hz1 & Hother1 & Hf1).
    destruct (IH w1 (same_but_schedule_trans _ _ _ Hst Hst1))
      as (w' & Hrun & Hst' & HQ' & Hother & Hf).
    { intros x Hx. apply Hl, elem_of_cons. by right. }
    exists w'. split.
    { cbn [for_each]. erewrite bind_returns by exact Hrun1. exact Hrun. }
    split; [exact Hst'|].
    split.
    { intros x Hx. destruct (decide (x ∈ l)) as [Hxl|Hxl]; [exact (HQ' x Hxl)|].
      apply elem_of_cons in Hx as [->|Hx]; [|done].
      exists (g tz). split; [|apply HQ]. rewrite (Hother z Hxl). exact Hz1. }
    split.
    { intros x Hx. apply not_elem_of_cons in Hx as [Hxz Hx].
      rewrite (Hother x Hx). exact (Hother1 x Hxz). }
    intros f Hfg x. rewrite (Hf f Hfg x), Hf1.
    destruct (decide (x = z)) as [->|]; [|done].
    rewrite Hfg. symmetry. by apply field_lookup.
Qed.

Lemma py_max_int_spec (x : Z) (xs : list Z) :
  exists M, py_max_int (x :: xs) = Returns M /\
            (forall y, y ∈ x :: xs -> y <= M) /\ M ∈ x :: xs.
Proof.
  unfold py_max_int. eexists. split; [reflexivity|].
  revert x. induction xs as [|z xs IH]; intros x; cbn [fold_left].
  - split; [|apply elem_of_cons; by left].
    intros y Hy. apply list_elem_of_singleton in Hy as ->. lia.
  - destruct (IH (Z.max x z)) as [Hub Hmem]. split.
    + intros y Hy.
      assert (Z.max x z <= fold_left Z.max xs (Z.max x z)) as H0
        by (apply Hub, elem_of_cons; by left).
      apply elem_of_cons in Hy as [->|Hy]; [lia|].
      apply elem_of_cons in Hy as [->|Hy]; [lia|].
      apply Hub, elem_of_cons. by right.
    + apply elem_of_cons in Hmem as [Hmem|Hmem].
      * rewrite Hmem. destruct (Z.max_spec x z) as [[_ ->]|[_ ->]].
        -- apply elem_of_cons. right. apply elem_of_cons. by left.
        -- apply elem_of_cons. by left.
      * apply elem_of_cons. right. apply elem_of_cons. by right.
Qed.

Lemma filter_flags {A} (P : A -> bool) (l : list A) :
  map fst (List.filter snd (map (fun x => (x, P x)) l)) = List.filter P l.
Proof.
  induction l as [|x l IH]; [reflexivity|].
  cbn [map List.filter snd]. destruct (P x); cbn [map fst]; by rewrite IH.
Qed.

Lemma elem_of_rev_1 {A} (x : A) (l : list A) : x ∈ rev l -> x ∈ l.
Proof. rewrite !list_elem_of_In. apply in_rev. Qed.

Lemma elem_of_rev_2 {A} (x : A) (l : list A) : x ∈ l -> x ∈ rev l.
Proof. rewrite !list_elem_of_In. apply in_rev. Qed.

(** The whole pass, on a non-empty list of stored tasks whose edges lead to
    stored tasks. *)
Lemma calculate_critical_path_run w :
  tasks_in_store w -> edges_in_store w -> p_tasks (w_project w) <> [] ->
  exists w' D,
    Project.calculate_critical_path w
    = (Returns (List.filter
                  (fun x => field late_start w' x - field early_start w' x =? 0)
                  (p_tasks (w_project w))), w') /\
    same_but_schedule w w' /\
    (forall x, x ∈ p_tasks (w_project w) ->
       field early_finish w' x = field early_start w' x + field duration w x /\
       0 <= field early_start w' x /\
       field early_finish w' x <= D /\
       field late_start w' x = field late_finish w' x - field duration w x /\
       field late_finish w' x <= D) /\
    (exists x, x ∈ p_tasks (w_project w) /\ field early_finish w' x = D) /\
    (dependency_ordered w ->
     (forall x y, x ∈ p_tasks (w_project w) -> y ∈ successors_of w x ->
                  field early_finish w' x <= field early_start w' y) /\
     (forall x y, x ∈ p_tasks (w_project w) -> y ∈ predecessors_of w x ->
                  field late_finish w' y <= field late_start w' x) /\
     ((forall x y, x ∈ p_tasks (w_project w) -> y ∈ p_tasks (w_project w) ->
                   y ∈ predecessors_of w x -> x ∈ successors_of w y) ->
      forall x, x ∈ p_tasks (w_project w) ->
                field early_start w' x <= field late_start w' x)).
Proof.
  intros Hin He Hne. unfold Project.calculate_critical_path.
  erewrite bind_returns by reflexivity.
  set (l := p_tasks (w_project w)) in *.
  (* initialise the early fields *)
  destruct (modify_loop w (fun t => set_early t 0 (duration t))
              (fun t => early_start t = 0 /\ early_finish t = duration t)
              (fun t => eq_refl) (fun t => conj eq_refl eq_refl)
              l w (same_but_schedule_refl w) Hin)
    as (w1 & Hrun1 & Hst1 & HQ1 & _ & _).
  erewrite bind_returns by exact Hrun1.
  assert (forall x, x ∈ l -> field early_start w1 x = 0 /\
                             field early_finish w1 x = field duration w x) as Hinit.
  { intros x Hx. destruct (HQ1 x Hx) as (t & Ht & E1 & E2).
    rewrite <- (same_but_schedule_duration w w1 x Hst1).
    rewrite !(field_lookup _ _ _ _ Ht). done. }
  (* forward pass *)
  destruct (forward_pass w l w1 Hst1 Hin He) as (w2 & Hrun2 & Hst2 & HA2 & HB2 & _ & HC2).
  { intros x Hx. destruct (Hinit x Hx) as [-> ->]. lia. }
  { intros x Hx. destruct (Hinit x Hx) as [-> _]. lia. }
  erewrite bind_returns by exact Hrun2.
  (* project duration *)
  erewrite bind_returns; cycle 1.
  { apply (map_m_run _ (field early_finish w2)). intros x Hx.
    apply (task_get_field_run (fun _ t => early_finish t) 0).
    apply (same_but_schedule_is_Some w w2 x Hst2), Hin, Hx. }
  destruct l as [|x0 l0] eqn:El; [done|]. rewrite <- El in *.
  assert (exists D, py_max_int (map (field early_finish w2) l) = Returns D /\
            (forall x, x ∈ l -> field early_finish w2 x <= D) /\
            (exists x, x ∈ l /\ field early_finish w2 x = D)) as (D & HD & Hub & Hatt).
  { rewrite El. cbn [map].
    destruct (py_max_int_spec (field early_finish w2 x0)
                (map (field early_finish w2) l0)) as (D & HD & Hub & Hmem).
    exists D. split; [exact HD|]. split.
    - intros x Hx. apply Hub. change (field early_finish w2 x
        ∈ map (field early_finish w2) (x0 :: l0)).
      apply list_elem_of_fmap. by exists x.
    - change (D ∈ map (field early_finish w2) (x0 :: l0)) in Hmem.
      apply list_elem_of_fmap in Hmem as (x & -> & Hx). by exists x. }
  unfold lift at 1. erewrite bind_returns by (rewrite HD; reflexivity).
  (* initialise the late fields *)
  destruct (modify_loop w (fun t => set_late t (D - duration t) D)
              (fun t => late_finish t = D /\ late_start t = D - duration t)
              (fun t => eq_refl) (fun t => conj eq_refl eq_refl)
              l w2 Hst2 Hin)
    as (w3 & Hrun3 & Hst3 & HQ3 & _ & Hf3).
  erewrite bind_returns by exact Hrun3.
  assert (forall x, field early_start w3 x = field early_start w2 x /\
                    field early_finish w3 x = field early_finish w2 x) as Hearly3.
  { intros x. split; apply Hf3; reflexivity. }
  assert (forall x, x ∈ l -> field late_finish w3 x = D /\
                             field late_start w3 x = D - field duration w x) as Hlate3.
  { intros x Hx. destruct (HQ3 x Hx) as (t & Ht & E1 & E2).
    rewrite <- (same_but_schedule_duration w w3 x Hst3).
    rewrite !(field_lookup _ _ _ _ Ht). done. }
  (* backward pass *)
  destruct (backward_pass w (rev l) w3 D Hst3) as (w4 & Hrun4 & Hst4 & HA4 & HB4 & HE4 & HC4).
  { intros x Hx. apply Hin. by apply elem_of_rev_1. }
  { exact He. }
  { intros x Hx%elem_of_rev_1. destruct (Hlate3 x Hx) as [-> ->]. reflexivity. }
  { intros x Hx%elem_of_rev_1. destruct (Hlate3 x Hx) as [-> _]. lia. }
  erewrite bind_returns by exact Hrun4.
  (* the tasks without float *)
  erewrite bind_returns; cycle 1.
  { apply (map_m_run _ (fun x => (x, field late_start w4 x - field early_start w4 x =? 0))).
    intros x Hx.
    destruct (same_but_schedule_is_Some w w4 x Hst4 (Hin x Hx)) as [t Ht].
    erewrite bind_returns by (apply task_get_run; exact Ht).
    rewrite !(field_lookup _ _ _ _ Ht). reflexivity. }
  exists w4, D. split.
  { unfold ret. f_equal. f_equal. apply filter_flags. }
  split; [exact Hst4|].
  assert (forall x, field early_start w4 x = field early_start w2 x /\
                    field early_finish w4 x = field early_finish w2 x) as Hearly4.
  { intros x. destruct (HE4 x) as [-> ->]. apply Hearly3. }
  split.
  { intros x Hx. destruct (Hearly4 x) as [-> ->].
    split; [exact (HA2 x Hx)|]. split; [exact (HB2 x Hx)|]. split; [exact (Hub x Hx)|].
    split; [apply HA4|apply HB4]; by apply elem_of_rev_2. }
  split.
  { destruct Hatt as (x & Hx & E). exists x. split; [exact Hx|].
    destruct (Hearly4 x) as [_ ->]. exact E. }
  intros Hord.
  assert (forall x y, x ∈ l -> y ∈ successors_of w x ->
            field early_finish w2 x <= field early_start w2 y) as Hfw.
  { apply HC2. intros l1 x l2 Hl. exact (proj1 (Hord l1 x l2 Hl)). }
  destruct HC4 as [Hbw HK].
  { intros l1 x l2 Hl y Hy.
    assert (l = rev l2 ++ x :: rev l1) as Hl'.
    { rewrite <- (rev_involutive l), Hl, rev_app_distr. cbn [rev].
      rewrite <- app_assoc. reflexivity. }
    apply (proj2 (Hord _ _ _ Hl')).
    apply elem_of_cons in Hy as [->|Hy].
    - apply elem_of_app. right. by apply list_elem_of_singleton.
    - apply elem_of_app. left. by apply elem_of_rev_2. }
  split.
  { intros x y Hx Hy. destruct (Hearly4 x) as [_ ->]. destruct (Hearly4 y) as [-> _].
    exact (Hfw x y Hx Hy). }
  split.
  { intros x y Hx Hy. apply Hbw; [by apply elem_of_rev_2|exact Hy]. }
  intros Hmut x Hx.
  assert (field early_finish w4 x <= field late_finish w4 x) as Hk.
  { apply HK.
    - intros y Hy%elem_of_rev_1. destruct (Hearly3 y) as [_ ->].
      destruct (Hlate3 y Hy) as [-> _]. exact (Hub y Hy).
    - intros y Hy%elem_of_rev_1. destruct (Hearly3 y) as [-> ->]. exact (HA2 y Hy).
    - intros a b Ha%elem_of_rev_1 Hb Hbl%elem_of_rev_1.
      destruct (Hearly3 a) as [-> _]. destruct (Hearly3 b) as [_ ->].
      apply (Hfw b a Hbl). exact (Hmut a b Ha Hbl Hb).
    - by apply elem_of_rev_2. }
  destruct (Hearly4 x) as [Ees Eef].
  pose proof (HA2 x Hx) as H1. pose proof (HA4 x (elem_of_rev_2 _ _ Hx)) as H2.
  lia.
Qed.

(** X22.  On a non-empty task list (tasks and their edges in the store),
    [calculate_critical_path] returns, in list order, the listed tasks
    whose late start equals their early start, and leaves on every listed
    task: the duration as it was, a non-negative early start, early finish
    = early start + duration, late start = late finish - duration, and
    early and late finish at most the project duration [D], which is the
    early finish of some listed task.  This holds whatever the order of the
    list. *)
Theorem critical_path_fields (w : world) :
  tasks_in_store w ->
  edges_in_store w ->
  p_tasks (w_project w) <> [] ->
  let w' := snd (Project.calculate_critical_path w) in
  exists D,
    fst (Project.calculate_critical_path w)
    = Returns (List.filter (fun x => field Task.get_float w' x =? 0)
                 (p_tasks (w_project w))) /\
    w_project w' = w_project w /\
    (forall x, x ∈ p_tasks (w_project w) ->
       exists t t', w_tasks w !! x = Some t /\ w_tasks w' !! x = Some t' /\
         duration t' = duration t /\
         0 <= early_start t' /\
         early_finish t' = early_start t' + duration t' /\
         early_finish t' <= D /\
         late_start t' = late_finish t' - duration t' /\
         late_finish t' <= D) /\
    (exists x t', x ∈ p_tasks (w_project w) /\ w_tasks w' !! x = Some t' /\
                  early_finish t' = D).
Proof.
  intros Hin He Hne. cbn zeta.
  destruct (calculate_critical_path_run w Hin He Hne)
    as (w' & D & Hrun & Hst & Hfields & (xD & HxD & ED) & _).
  rewrite Hrun. cbn [fst snd]. exists D.
  split.
  { f_equal. apply filter_ext_in_iff. intros x Hx. unfold field, Task.get_float.
    destruct (w_tasks w' !! x); reflexivity. }
  split; [apply Hst|].
  split.
  - intros x Hx. destruct (Hin x Hx) as [t Ht].
    destruct (same_but_schedule_is_Some w w' x Hst (Hin x Hx)) as [t' Ht'].
    destruct (Hfields x Hx) as (H1 & H2 & H3 & H4 & H5).
    pose proof (same_but_schedule_duration w w' x Hst) as Hd.
    rewrite !(field_lookup _ _ _ _ Ht') in *. rewrite !(field_lookup _ _ _ _ Ht) in *.
    exists t, t'. repeat split; try done; lia.
  - destruct (same_but_schedule_is_Some w w' xD Hst (Hin xD HxD)) as [t' Ht'].
    exists xD, t'. split; [exact HxD|]. split; [exact Ht'|].
    by rewrite (field_lookup _ _ _ _ Ht') in ED.
Qed.

(** X23.  When the task list is in dependency order, the pass respects
    every edge of a listed task: a successor starts no earlier than the
    task finishes (early dates) and a predecessor finishes no later than
    the task starts (late dates); and when, in addition, the edges of the
    store are mutual, no listed task is left with a negative float. *)
Theorem critical_path_respects_dependencies (w : world) :
  tasks_in_store w ->
  edges_in_store w ->
  p_tasks (w_project w) <> [] ->
  dependency_ordered w ->
  let w' := snd (Project.calculate_critical_path w) in
  forall x tx, x ∈ p_tasks (w_project w) -> w_tasks w' !! x = Some tx ->
    (forall y ty, y ∈ successors tx -> w_tasks w' !! y = Some ty ->
                  early_finish tx <= early_start ty) /\
    (forall y ty, y ∈ predecessors tx -> w_tasks w' !! y = Some ty ->
                  late_finish ty <= late_start tx) /\
    (mutual_edges w -> 0 <= Task.get_float tx).
Proof.
  intros Hin He Hne Hord. cbn zeta.
  destruct (calculate_critical_path_run w Hin He Hne)
    as (w' & D & Hrun & Hst & _ & _ & Hdep).
  rewrite Hrun. cbn [snd]. destruct (Hdep Hord) as (Hfw & Hbw & Hfloat).
  intros x tx Hx Htx.
  assert (successors tx = successors_of w x) as Hs.
  { rewrite <- (same_but_schedule_successors w w' x Hst).
    symmetry. by apply successors_of_lookup. }
  assert (predecessors tx = predecessors_of w x) as Hp.
  { rewrite <- (same_but_schedule_predecessors w w' x Hst).
    symmetry. by apply predecessors_of_lookup. }
  split.
  { intros y ty Hy Hty. rewrite Hs in Hy. specialize (Hfw x y Hx Hy).
    by rewrite (field_lookup _ _ _ _ Htx), (field_lookup _ _ _ _ Hty) in Hfw. }
  split.
  { intros y ty Hy Hty. rewrite Hp in Hy. specialize (Hbw x y Hx Hy).
    by rewrite (field_lookup _ _ _ _ Htx), (field_lookup _ _ _ _ Hty) in Hbw. }
  intros Hmut. unfold Task.get_float.
  assert (field early_start w' x <= field late_start w' x) as Hf.
  { apply Hfloat; [|exact Hx]. intros a b Ha Hb Hab.
    destruct (Hin a Ha) as [ta Hta]. destruct (Hin b Hb) as [tb Htb].
    rewrite (predecessors_of_lookup _ _ _ Hta) in Hab.
    rewrite (successors_of_lookup _ _ _ Htb).
    apply count_ref_elem_of. rewrite <- (Hmut b a tb ta Htb Hta).
    by apply count_ref_elem_of. }
  rewrite !(field_lookup _ _ _ _ Htx) in Hf. lia.
Qed.

Lemma chain_in_store : tasks_in_store chain.
Proof.
  intros x Hx. change (x ∈ [task_A; task_B; task_C]) in Hx.
  apply elem_of_cons in Hx as [->|Hx]; [vm_compute; eauto|].
  apply elem_of_cons in Hx as [->|Hx]; [vm_compute; eauto|].
  apply list_elem_of_singleton in Hx as ->. vm_compute. eauto.
Qed.

Lemma chain_edges_in_store : edges_in_store chain.
Proof.
  intros x t y Hx Hy.
  destruct (chain_lookup x t Hx) as [(_ & Ep & Es)|[(_ & Ep & Es)|(_ & Ep & Es)]];
    rewrite Ep, Es in Hy; destruct Hy as [Hy|Hy];
    repeat (apply elem_of_cons in Hy as [->|Hy]; [vm_compute; eauto|]);
    by apply elem_of_nil in Hy.
Qed.

Lemma chain_dependency_ordered : dependency_ordered chain.
Proof.
  intros l1 x l2 Hl. change ([task_A; task_B; task_C] = l1 ++ x :: l2) in Hl.
  assert (forall y, successors_of chain y
                    = if decide (y = task_A) then [task_B]
                      else if decide (y = task_B) then [task_C] else []) as Hs.
  { intros y. unfold successors_of.
    destruct (w_tasks chain !! y) as [t|] eqn:E.
    - destruct (chain_lookup y t E) as [(-> & _ & Es)|[(-> & _ & Es)|(-> & _ & Es)]];
        rewrite Es; reflexivity.
    - repeat destruct (decide _) as [->|]; try reflexivity; discriminate E. }
  assert (forall y, predecessors_of chain y
                    = if decide (y = task_B) then [task_A]
                      else if decide (y = task_C) then [task_B] else []) as Hp.
  { intros y. unfold predecessors_of.
    destruct (w_tasks chain !! y) as [t|] eqn:E.
    - destruct (chain_lookup y t E) as [(-> & Ep & _)|[(-> & Ep & _)|(-> & Ep & _)]];
        rewrite Ep; reflexivity.
    - repeat destruct (decide _) as [->|]; try reflexivity; discriminate E. }
  destruct l1 as [|a [|b [|c l1]]]; cbn [app] in Hl.
  - injection Hl as <- <-. split; intros y Hy; [rewrite Hs|rewrite Hp];
      repeat (apply elem_of_cons in Hy as [->|Hy]; [vm_compute; intros H;
        repeat (apply elem_of_cons in H as [[=]|H]); by apply elem_of_nil in H|]);
      by apply elem_of_nil in Hy.
  - injection Hl as <- <- <-. split; intros y Hy; [rewrite Hs|rewrite Hp];
      repeat (apply elem_of_cons in Hy as [->|Hy]; [vm_compute; intros H;
        repeat (apply elem_of_cons in H as [[=]|H]); by apply elem_of_nil in H|]);
      by apply elem_of_nil in Hy.
  - injection Hl as <- <- <- <-. split; intros y Hy; [rewrite Hs|rewrite Hp];
      repeat (apply elem_of_cons in Hy as [->|Hy]; [vm_compute; intros H;
        repeat (apply elem_of_cons in H as [[=]|H]); by apply elem_of_nil in H|]);
      by apply elem_of_nil in Hy.
  - exfalso. destruct l1; discriminate Hl.
Qed.

Lemma critical_path_fields_witness :
  tasks_in_store chain /\ edges_in_store chain /\ p_tasks (w_project chain) <> [] /\
  exists D x t',
    x ∈ p_tasks (w_project chain) /\
    w_tasks (snd (Project.calculate_critical_path chain)) !! x = Some t' /\
    early_finish t' = D.
Proof.
  assert (p_tasks (w_project chain) <> []) as Hne by discriminate.
  split; [exact chain_in_store|]. split; [exact chain_edges_in_store|].
  split; [exact Hne|].
  destruct (critical_path_fields chain chain_in_store chain_edges_in_store Hne)
    as (D & _ & _ & _ & H).
  exists D. exact H.
Defined.

Lemma critical_path_respects_dependencies_witness :
  tasks_in_store chain /\ edges_in_store chain /\ p_tasks (w_project chain) <> [] /\
  dependency_ordered chain /\ mutual_edges chain /\
  forall tx, w_tasks (snd (Project.calculate_critical_path chain)) !! task_B = Some tx ->
             0 <= Task.get_float tx.
Proof.
  assert (p_tasks (w_project chain) <> []) as Hne by discriminate.
  split; [exact chain_in_store|]. split; [exact chain_edges_in_store|].
  split; [exact Hne|]. split; [exact chain_dependency_ordered|].
  split; [exact chain_mutual_edges|].
  intros tx Htx.
  assert (task_B ∈ p_tasks (w_project chain)) as Hx.
  { change (task_B ∈ [task_A; task_B; task_C]).
    apply elem_of_cons. right. apply elem_of_cons. by left. }
  exact (proj2 (proj2 (critical_path_respects_dependencies chain chain_in_store
                         chain_edges_in_store Hne chain_dependency_ordered
                         task_B tx Hx Htx)) chain_mutual_edges).
Defined.

(** ** The controller (src/controllers/project_controller.py) *)

Lemma get_resource_utilization_idle w :
  p_tasks (w_project w) = [] ->
  (forall r, r ∈ p_resources (w_project w) ->
     exists x, w_resources w !! r = Some x /\ r_assignments x = []) ->
  exists u, Project.get_resource_utilization w = (Returns u, w).
Proof.
  intros Ht Hr. unfold Project.get_resource_utilization.
  erewrite bind_returns by reflexivity.
  revert Hr. generalize (p_resources (w_project w)) as rs.
  generalize (∅ : gmap ref Q) as acc.
  intros acc rs. revert acc. induction rs as [|r rs IH]; intros acc Hr.
  - eexists. reflexivity.
  - destruct (Hr r) as (x & Hx & Ex); [apply elem_of_cons; by left|].
    cbn [fold_m].
    erewrite bind_returns; cycle 1.
    { erewrite bind_returns by (apply resource_get_run; exact Hx).
      rewrite Ex. cbn [map_m]. erewrite bind_returns by reflexivity.
      erewrite bind_returns; [reflexivity|].
      unfold Project.get_project_duration. erewrite bind_returns by reflexivity.
      rewrite Ht. reflexivity. }
    apply IH. intros r' Hr'. apply Hr, elem_of_cons. by right.
Qed.

(** X24.  A project without tasks has no critical path and no reports:
    [calculate_critical_path], [analyze_schedule_risks],
    [generate_summary_report], [generate_timeline_report] and
    [generate_reports] raise [ValueError] (the [max] of an empty sequence)
    and leave the store as it is, and so does [analyze_project] when no
    listed resource holds an assignment; [get_project_duration] and
    [calculate_project_completion] return 0. *)
Theorem empty_project_reports (ns : namespaces) (w : world) :
  p_tasks (w_project w) = [] ->
  Project.calculate_critical_path w = (Raises ValueError, w) /\
  ProjectController.analyze_schedule_risks w = (Raises ValueError, w) /\
  ProjectController.generate_summary_report w = (Raises ValueError, w) /\
  ProjectController.generate_timeline_report w = (Raises ValueError, w) /\
  ProjectController.generate_reports w = (Raises ValueError, w) /\
  Project.get_project_duration w = (Returns 0, w) /\
  ProjectController.calculate_project_completion w = (Returns 0%Q, w) /\
  ((forall r, r ∈ p_resources (w_project w) ->
      exists x, w_resources w !! r = Some x /\ r_assignments x = []) ->
   ProjectController.analyze_project ns w = (Raises ValueError, w)).
Proof.
  intros Ht.
  assert (Project.calculate_critical_path w = (Raises ValueError, w)) as Hcp.
  { unfold Project.calculate_critical_path.
    erewrite bind_returns by reflexivity. rewrite Ht. reflexivity. }
  assert (ProjectController.generate_summary_report w = (Raises ValueError, w)) as Hsum.
  { unfold ProjectController.generate_summary_report.
    erewrite bind_returns by reflexivity. rewrite Ht. reflexivity. }
  assert (Project.get_project_duration w = (Returns 0, w)) as Hdur.
  { unfold Project.get_project_duration. erewrite bind_returns by reflexivity.
    rewrite Ht. reflexivity. }
  assert (ProjectController.calculate_project_completion w = (Returns 0%Q, w)) as Hcompl.
  { unfold ProjectController.calculate_project_completion.
    erewrite bind_returns by reflexivity. rewrite Ht. reflexivity. }
  split; [exact Hcp|].
  split.
  { unfold ProjectController.analyze_schedule_risks.
    erewrite bind_raises by exact Hcp. reflexivity. }
  split; [exact Hsum|].
  split.
  { unfold ProjectController.generate_timeline_report.
    erewrite bind_returns by reflexivity. rewrite Ht. reflexivity. }
  split.
  { unfold ProjectController.generate_reports.
    erewrite bind_raises by exact Hsum. reflexivity. }
  split; [exact Hdur|]. split; [exact Hcompl|].
  intros Hr. unfold ProjectController.analyze_project.
  erewrite bind_returns by exact Hdur.
  erewrite bind_returns; cycle 1.
  { unfold Project.get_total_cost. erewrite bind_returns by reflexivity.
    rewrite Ht. reflexivity. }
  destruct (get_resource_utilization_idle w Ht Hr) as (u & Hu).
  erewrite bind_returns by exact Hu.
  erewrite bind_raises by exact Hcp. reflexivity.
Qed.

Lemma empty_project_reports_witness :
  p_tasks (w_project empty_project) = [] /\
  Project.calculate_critical_path empty_project = (Raises ValueError, empty_project) /\
  ProjectController.analyze_project shipped empty_project
  = (Raises ValueError, empty_project).
Proof.
  split; [reflexivity|].
  destruct (empty_project_reports shipped empty_project eq_refl)
    as (H1 & _ & _ & _ & _ & _ & _ & H8).
  split; [exact H1|]. apply H8.
  intros r Hr. by apply elem_of_nil in Hr.
Defined.

(** Tasks whose float is not positive are kept as they are. *)
Lemma preserves_delay_task_idle ns u x :
  preserves (fun w w' => forall y t, w_tasks w !! y = Some t -> Task.get_float t <= 0 ->
                                     w_tasks w' !! y = Some t)
    (ProjectController.delay_task ns u x).
Proof.
  intros w y t Hy Hf. unfold ProjectController.delay_task.
  unfold bind at 1, task_get at 1.
  destruct (w_tasks w !! x) as [tx|] eqn:Ex; [|exact Hy].
  destruct (Z.ltb_spec 0 (Task.get_float tx)) as [Hpos|Hle]; [|exact Hy].
  unfold bind, lift. destruct (timedelta _ _); [|exact Hy].
  destruct (start_date tx); [|exact Hy].
  unfold task_modify. rewrite Ex. cbn [snd w_tasks set_w_tasks].
  destruct (decide (y = x)) as [->|Hne].
  - rewrite Ex in Hy. injection Hy as ->. lia.
  - by rewrite lookup_insert_ne.
Qed.

Lemma level_resources_idle ns :
  preserves (fun w w' => forall y t, w_tasks w !! y = Some t -> Task.get_float t <= 0 ->
                                     w_tasks w' !! y = Some t)
    (ProjectController.level_resources ns).
Proof.
  unfold ProjectController.level_resources, ProjectController.level_resource,
    ProjectController.save_state.
  frame_with ltac:(intros w y t Hy _; exact Hy)
    ltac:(intros w1 w2 w3 H1 H2 y t Hy Hf; exact (H2 y t (H1 y t Hy Hf) Hf))
    ltac:(first [ apply preserves_delay_task_idle
                | apply (preserves_weaken _ _ (fun w y t Hy _ => Hy));
                  solve [eauto using preserves_on_resource,
                           preserves_get_utilization with frame]
                | (intros w y t Hy _; exact Hy) ]).
Qed.

(** X25.  [level_resources] writes start dates and the undo stack only.
    A task whose float is not positive is not moved; in the namespace the
    file creates no task is moved at all; and a task that is listed once,
    with float [f >= 0], is delayed by at most [f] for each listed resource
    it holds an assignment on. *)
Theorem level_resources_moves (ns : namespaces) (w : world) (x : ref) (t : task) :
  w_tasks w !! x = Some t ->
  let w' := snd (ProjectController.level_resources ns w) in
  w_resources w' = w_resources w /\
  w_project w' = w_project w /\
  w_tasks (snd (ProjectController.level_resources shipped w)) = w_tasks w /\
  exists t',
    w_tasks w' !! x = Some t' /\
    set_start_date t' (start_date t) = t /\
    (Task.get_float t <= 0 -> t' = t) /\
    (forall s, start_date t = Some s ->
       0 <= Task.get_float t ->
       occurrences x (p_tasks (w_project w)) <= 1 ->
       exists s', start_date t' = Some s' /\
         s' <= s + resources_used (p_resources (w_project w)) t * Task.get_float t).
Proof.
  intros Hx. cbn zeta.
  pose proof (level_resources_shifted ns w) as H.
  destruct (shifted_lookup _ _ _ x t H Hx) as (t' & Hx' & E).
  destruct H as (Hr & Hp & H).
  split; [exact Hr|]. split; [exact Hp|].
  split; [apply (shipped_level_resources_moves_nothing w)|].
  exists t'. split; [exact Hx'|]. split; [exact E|].
  split.
  { intros Hf. pose proof (level_resources_idle ns w x t Hx Hf) as Hidle.
    rewrite Hx' in Hidle. by injection Hidle. }
  intros s Hs Hf Hocc. specialize (H x). rewrite Hx, Hx' in H.
  destruct H as [_ H]. rewrite Hs in H.
  destruct (start_date t') as [s'|]; [|done].
  exists s'. split; [reflexivity|].
  pose proof (occurrences_nonneg x (p_tasks (w_project w))).
  pose proof (resources_used_nonneg (p_resources (w_project w)) t).
  rewrite Z.max_r in H by done. nia.
Qed.

Lemma level_resources_moves_witness :
  exists t t' s',
    w_tasks (contended patched) !! task_A = Some t /\
    start_date t = Some monday /\
    0 <= Task.get_float t /\
    occurrences task_A (p_tasks (w_project (contended patched))) <= 1 /\
    w_tasks (snd (ProjectController.level_resources patched (contended patched)))
      !! task_A = Some t' /\
    start_date t' = Some s' /\
    s' <= monday + resources_used (p_resources (w_project (contended patched))) t
                   * Task.get_float t.
Proof.
  eassert (w_tasks (contended patched) !! task_A = Some _) as Ht.
  { vm_compute. reflexivity. }
  assert (occurrences task_A (p_tasks (w_project (contended patched))) <= 1) as Hnd.
  { vm_compute. discriminate. }
  destruct (level_resources_moves patched (contended patched) task_A _ Ht)
    as (_ & _ & _ & t' & H1 & _ & _ & H2).
  destruct (H2 monday eq_refl ltac:(vm_compute; discriminate) Hnd) as (s' & H3 & H4).
  eexists _, t', s'.
  split; [exact Ht|]. split; [reflexivity|].
  split; [vm_compute; discriminate|]. split; [exact Hnd|].
  split; [exact H1|]. split; [exact H3|exact H4].
Defined.

(** X26.  [undo] and [redo] as shipped: with an empty stack they return
    and change nothing; with a non-empty stack they raise [NameError]
    ([copy] is bound only inside [save_state]) before touching the project
    or either stack.  So after [save_state] -- hence after [delete_task],
    [delete_resource] or [level_resources] -- [undo] raises and restores
    nothing, and [redo], whose stack [save_state] has emptied, returns. *)
Theorem undo_redo_shipped (w : world) :
  snd (ProjectController.undo w) = w /\
  snd (ProjectController.redo w) = w /\
  (fst (ProjectController.undo w) = Returns tt <-> undo_stack w = []) /\
  (fst (ProjectController.undo w) = Raises NameError <-> undo_stack w <> []) /\
  (fst (ProjectController.redo w) = Returns tt <-> redo_stack w = []) /\
  (fst (ProjectController.redo w) = Raises NameError <-> redo_stack w <> []) /\
  (ProjectController.save_state ;;; ProjectController.undo) w
  = (Raises NameError, snd (ProjectController.save_state w)) /\
  (ProjectController.save_state ;;; ProjectController.redo) w
  = (Returns tt, snd (ProjectController.save_state w)) /\
  forall x,
    fst (ProjectController.undo (snd (ProjectController.delete_task x w)))
    = Raises NameError /\
    fst (ProjectController.undo (snd (ProjectController.delete_resource x w)))
    = Raises NameError.
Proof.
  unfold ProjectController.undo, ProjectController.redo, bind at 1 2 3 4 5 6, get.
  cbn [fst snd].
  split; [by destruct (undo_stack w)|].
  split; [by destruct (redo_stack w)|].
  split; [destruct (undo_stack w); split; intros H; done|].
  split; [destruct (undo_stack w); split; intros H; done|].
  split; [destruct (redo_stack w); split; intros H; done|].
  split; [destruct (redo_stack w); split; intros H; done|].
  split.
  { unfold ProjectController.save_state, bind, modify, get. cbn [undo_stack snd].
    by destruct (undo_stack w). }
  split; [reflexivity|].
  intros x. unfold ProjectController.delete_task, ProjectController.delete_resource,
    ProjectController.save_state, Project.remove_task, Project.remove_resource,
    bind, modify, get, ret.
  cbn [fst snd w_project].
  split.
  - destruct (py_remove Nat.eqb x (p_tasks (w_project w)));
      cbn [fst snd undo_stack set_w_project]; by destruct (undo_stack w).
  - destruct (py_remove Nat.eqb x (p_resources (w_project w)));
      cbn [fst snd undo_stack set_w_project]; by destruct (undo_stack w).
Qed.

(** X27.  Deleting a resource ([ProjectController.delete_resource],
    [Project.remove_resource]) pushes an undo snapshot, empties the redo
    stack and removes the first occurrence of the resource from the
    project's resource list (nothing when it is not listed); the stored
    tasks and resources are exactly as before, so the assignments that
    name the resource remain on the tasks and on the resource itself. *)
Theorem delete_resource_spec (w : world) (r : ref) :
  exists w',
    ProjectController.delete_resource r w = (Returns tt, w') /\
    w_tasks w' = w_tasks w /\
    w_resources w' = w_resources w /\
    p_tasks (w_project w') = p_tasks (w_project w) /\
    undo_stack w' = undo_stack w ++ [Snapshot (w_tasks w) (w_resources w) (w_project w)] /\
    redo_stack w' = [] /\
    (r ∉ p_resources (w_project w) -> w_project w' = w_project w) /\
    (forall l1 l2, p_resources (w_project w) = l1 ++ r :: l2 -> r ∉ l1 ->
       p_resources (w_project w') = l1 ++ l2 /\ modified (w_project w') = true) /\
    Project.remove_resource r w
      = (Returns tt, World (w_tasks w) (w_resources w) (w_project w')
                       (undo_stack w) (redo_stack w)).
Proof.
  unfold ProjectController.delete_resource, ProjectController.save_state,
    Project.remove_resource, bind, modify, get, ret.
  cbn [w_project w_tasks w_resources undo_stack snd].
  destruct (py_remove Nat.eqb r (p_resources (w_project w))) as [l|] eqn:E.
  - eexists. split; [reflexivity|]. cbn.
    repeat split; try reflexivity.
    + intros Hnot. by rewrite py_remove_absent in E.
    + rewrite H, py_remove_first in E by done. congruence.
  - eexists. split; [reflexivity|]. cbn.
    repeat split; try reflexivity.
    + rewrite H, py_remove_first in E by done. congruence.
    + rewrite H, py_remove_first in E by done. congruence.
    + by destruct w.
Qed.

Lemma delete_resource_spec_witness :
  p_resources (w_project (staffed patched)) = [] ++ res_1 :: [] /\
  (res_1 ∉ @nil ref) /\
  p_resources (w_project (snd (ProjectController.delete_resource res_1
                                 (staffed patched)))) = [] /\
  (length <$> (r_assignments <$>
     w_resources (snd (ProjectController.delete_resource res_1 (staffed patched)))
       !! res_1)) = Some 1%nat.
Proof.
  split; [reflexivity|]. split; [apply not_elem_of_nil|].
  destruct (delete_resource_spec (staffed patched) res_1)
    as (w' & Hrun & _ & Hres & _ & _ & _ & _ & Hrm & _).
  rewrite Hrun. cbn [snd]. split.
  - apply (Hrm [] []); [reflexivity|apply not_elem_of_nil].
  - rewrite Hres. vm_compute. reflexivity.
Defined.

(** ** The timeline report *)

Lemma insert_by_sorted (x : Z * ProjectController.event) l :
  StronglySorted (fun a b => fst a <= fst b) l ->
  StronglySorted (fun a b => fst a <= fst b)
    (insert_by (fun a b => fst a <=? fst b) x l).
Proof.
  induction 1 as [|y l Hs IH Hy]; cbn [insert_by].
  - repeat constructor.
  - destruct (Z.leb_spec (fst x) (fst y)) as [Hle|Hgt].
    + constructor; [by constructor|].
      constructor; [exact Hle|].
      eapply Forall_impl; [exact Hy|]. intros z Hz. cbn beta in *. lia.
    + constructor; [exact IH|].
      rewrite (insert_by_perm _ x l). constructor; [lia|exact Hy].
Qed.

Lemma sort_by_sorted (l : list (Z * ProjectController.event)) :
  StronglySorted (fun a b => fst a <= fst b) (sort_by (fun a b => fst a <=? fst b) l).
Proof.
  induction l as [|x l IH]; [constructor|]. cbn [sort_by foldr].
  apply insert_by_sorted. exact IH.
Qed.

Lemma mapM_dated (l : list (Z * ProjectController.event)) :
  mapM (fun x : option Z * ProjectController.event => d ← fst x; Some (d, snd x))
       (map (fun y => (Some (fst y), snd y)) l) = Some l.
Proof.
  induction l as [|[d e] l IH]; [reflexivity|].
  cbn [map fst snd]. cbn [mapM]. cbn. rewrite IH. reflexivity.
Qed.

Lemma mapM_undated (l : list (option Z * ProjectController.event)) e :
  (None, e) ∈ l ->
  mapM (fun x : option Z * ProjectController.event => d ← fst x; Some (d, snd x)) l
  = None.
Proof.
  induction l as [|[d e'] l IH]; intros H; [by apply elem_of_nil in H|].
  apply elem_of_cons in H as [H|H].
  - injection H as <- <-. reflexivity.
  - cbn [mapM]. rewrite (IH H). cbn. by destruct d.
Qed.

(** The events that the loop over the tasks appends. *)
Lemma timeline_loop w (ev : ref -> list (option Z * ProjectController.event)) l :
  forall acc,
  (forall x, x ∈ l ->
     exists t, w_tasks w !! x = Some t /\
               ev x = [(start_date t, ProjectController.task_start x);
                       (Task.get_end_date t, ProjectController.task_end x)]) ->
  fold_m (fun timeline task =>
            t <- task_get task ;;
            ret (timeline ++ [(start_date t, ProjectController.task_start task);
                              (Task.get_end_date t, ProjectController.task_end task)]))
         l acc w
  = (Returns (acc ++ concat (map ev l)), w).
Proof.
  induction l as [|x l IH]; intros acc H.
  - cbn. by rewrite app_nil_r.
  - destruct (H x) as (t & Ht & Ex); [apply elem_of_cons; by left|].
    cbn [fold_m map concat].
    erewrite bind_returns; cycle 1.
    { erewrite bind_returns by (apply task_get_run; exact Ht). reflexivity. }
    rewrite IH by (intros y Hy; apply H, elem_of_cons; by right).
    rewrite Ex, <- app_assoc. reflexivity.
Qed.


Lemma three_tasks_started x t :
  w_tasks three_tasks !! x = Some t -> start_date t = Some monday.
Proof.
  unfold three_tasks. cbn [w_tasks]. intros H.
  apply lookup_insert_Some in H as [[_ <-]|[_ H]]; [done|].
  apply lookup_insert_Some in H as [[_ <-]|[_ H]]; [done|].
  apply lookup_insert_Some in H as [[_ <-]|[_ H]]; [done|].
  rewrite lookup_empty in H. discriminate H.
Qed.


(** ** Cost of a task (Task.get_cost, Task.assign_resource) *)

Lemma while_days_modify_field {S B} (f : S -> B) (g : datetime -> S -> S) bound n :
  (forall d s, f (g d s) = f s) ->
  forall start s,
    f (snd (while_days bound n start tt (fun d _ => modify (g d)) s)) = f s.
Proof.
  intros Hf. induction n as [|n IH]; intros start s; [reflexivity|].
  rewrite while_days_modify_step. destruct bound; [rewrite IH|]; apply Hf.
Qed.

Lemma add_assignment_returns ns a r :
  resource_py_timedelta ns = true ->
  fst (Resource.add_assignment ns a r) = Returns tt.
Proof.
  intros Hns. unfold Resource.add_assignment, bind, modify, Resource._update_calendar.
  rewrite Hns. apply while_days_modify_returns.
Qed.

Lemma add_assignment_cost_rate ns a r :
  cost_rate (snd (Resource.add_assignment ns a r)) = cost_rate r.
Proof.
  rewrite add_assignment_state. unfold Resource._update_calendar.
  rewrite (while_days_modify_field cost_rate); reflexivity.
Qed.

Lemma py_sum_app (l1 l2 : list Q) : (py_sum (l1 ++ l2) == py_sum l1 + py_sum l2)%Q.
Proof.
  induction l1 as [|x l1 IH]; cbn [app].
  - unfold py_sum at 2. cbn. lra.
  - rewrite !py_sum_cons, IH. lra.
Qed.

(** The cost of a task whose assignments are to stored resources. *)
Lemma get_cost_run w t :
  (forall a, a ∈ t_assignments t -> is_Some (w_resources w !! a_resource a)) ->
  Task.get_cost t w
  = (Returns (py_sum (map (fun a =>
                match w_resources w !! a_resource a with
                | Some r => cost_rate r * a_hours a
                | None => 0
                end)%Q (t_assignments t))), w).
Proof.
  intros H. unfold Task.get_cost.
  erewrite bind_returns; [reflexivity|].
  apply map_m_run. intros a Ha. destruct (H a Ha) as [r Hr].
  erewrite bind_returns by (apply resource_get_run; exact Hr).
  rewrite Hr. reflexivity.
Qed.



(** ** Resource conflicts (ProjectController.find_resource_conflicts) *)

(** A day loop whose body appends what it finds on the date. *)
Lemma while_days_collect {S A} (f : datetime -> list A)
    (body : datetime -> list A -> M S (list A)) n (s : S) :
  (forall d acc, body d acc s = (Returns (acc ++ f d), s)) ->
  forall start acc,
    while_days true n start acc body s
    = (Returns (acc ++ flat_map f (utilities.get_date_range_loop n start)), s).
Proof.
  intros Hb. induction n as [|n IH]; intros start acc.
  - cbn. by rewrite app_nil_r.
  - cbn [while_days utilities.get_date_range_loop flat_map].
    erewrite bind_returns by apply Hb.
    erewrite bind_returns by reflexivity.
    rewrite IH, <- app_assoc. reflexivity.
Qed.

Lemma while_days_unbound {S A} (body : datetime -> A -> M S A) n start acc s acc' :
  body start acc s = (Returns acc', s) ->
  while_days false (Datatypes.S n) start acc body s = (Raises NameError, s).
Proof.
  intros Hb. cbn [while_days]. erewrite bind_returns by exact Hb. reflexivity.
Qed.

(** The conflicts that the day loop appends for one resource. *)
Lemma scan_resource_run ns w ts e resource x conflicts :
  project_controller_py_timedelta ns = true ->
  map_m task_get (p_tasks (w_project w)) w = (Returns ts, w) ->
  ProjectController.max_end_date (p_tasks (w_project w)) w = (Returns (Some e), w) ->
  w_resources w !! resource = Some x ->
  ProjectController.scan_resource ns conflicts resource w
  = (Returns (conflicts ++
       flat_map (fun d =>
         let daily := ProjectController.daily_assignments resource d ts in
         let total_units := py_sum (map a_units daily) in
         if Qltb (availability x) total_units
         then [ProjectController.Conflict d resource daily
                 (total_units - availability x)]
         else [])
         (utilities.get_date_range (p_start_date (w_project w)) e)), w).
Proof.
  intros Hns Hts Hend Hx. unfold ProjectController.scan_resource.
  erewrite bind_returns by reflexivity.
  erewrite bind_returns by reflexivity.
  erewrite bind_returns by exact Hend.
  rewrite Hns. unfold utilities.get_date_range.
  apply while_days_collect. intros d acc.
  erewrite bind_returns by exact Hts.
  erewrite bind_returns by (apply resource_get_run; exact Hx).
  unfold ret. f_equal. f_equal. cbn zeta.
  destruct (Qltb (availability x) _); [reflexivity|by rewrite app_nil_r].
Qed.

Lemma find_resource_conflicts_run ns w ts e :
  project_controller_py_timedelta ns = true ->
  map_m task_get (p_tasks (w_project w)) w = (Returns ts, w) ->
  ProjectController.max_end_date (p_tasks (w_project w)) w = (Returns (Some e), w) ->
  (forall r, r ∈ p_resources (w_project w) -> is_Some (w_resources w !! r)) ->
  ProjectController.find_resource_conflicts ns w
  = (Returns
       (flat_map (fun resource =>
          flat_map (fun d =>
            let daily := ProjectController.daily_assignments resource d ts in
            let total_units := py_sum (map a_units daily) in
            let av := match w_resources w !! resource with
                      | Some x => availability x | None => 0%Q end in
            if Qltb av total_units
            then [ProjectController.Conflict d resource daily (total_units - av)]
            else [])
            (utilities.get_date_range (p_start_date (w_project w)) e))
          (p_resources (w_project w))), w).
Proof.
  intros Hns Hts Hend Hres. unfold ProjectController.find_resource_conflicts.
  erewrite bind_returns by reflexivity.
  revert Hres. generalize (p_resources (w_project w)) as rs.
  assert (forall rs acc,
    (forall r, r ∈ rs -> is_Some (w_resources w !! r)) ->
    fold_m (ProjectController.scan_resource ns) rs acc w
    = (Returns (acc ++
         flat_map (fun resource =>
          flat_map (fun d =>
            let daily := ProjectController.daily_assignments resource d ts in
            let total_units := py_sum (map a_units daily) in
            let av := match w_resources w !! resource with
                      | Some x => availability x | None => 0%Q end in
            if Qltb av total_units
            then [ProjectController.Conflict d resource daily (total_units - av)]
            else [])
            (utilities.get_date_range (p_start_date (w_project w)) e)) rs), w)) as H.
  { induction rs as [|r rs IH]; intros acc Hres.
    - cbn. by rewrite app_nil_r.
    - destruct (Hres r) as [x Hx]; [apply elem_of_cons; by left|].
      cbn [fold_m flat_map].
      erewrite bind_returns by (apply (scan_resource_run ns w ts e r x); eassumption).
      rewrite IH by (intros r' Hr'; apply Hres, elem_of_cons; by right).
      rewrite Hx, <- app_assoc. reflexivity. }
  intros rs Hres. exact (H rs [] Hres).
Qed.

Lemma max_end_date_run w l :
  (forall x, x ∈ l -> exists t s, w_tasks w !! x = Some t /\ start_date t = Some s) ->
  l <> [] ->
  exists e, ProjectController.max_end_date l w = (Returns (Some e), w) /\
    forall x t s, x ∈ l -> w_tasks w !! x = Some t -> start_date t = Some s ->
                  s + duration t <= e.
Proof.
  intros Hs Hne.
  set (val := fun x : ref => match w_tasks w !! x with
                             | Some t => match start_date t with
                                         | Some s => s + duration t | None => 0 end
                             | None => 0 end).
  assert (map_m (fun task => t <- task_get task ;; ret (Task.get_end_date t)) l w
          = (Returns (map Some (map val l)), w)) as Hrun.
  { rewrite map_map. apply map_m_run. intros x Hx.
    destruct (Hs x Hx) as (t & s & Ht & Hst).
    erewrite bind_returns by (apply task_get_run; exact Ht).
    unfold val, Task.get_end_date. rewrite Ht, Hst. reflexivity. }
  unfold ProjectController.max_end_date. erewrite bind_returns by exact Hrun.
  destruct l as [|x0 l0]; [done|]. cbn [map py_max_dates].
  destruct (py_max_dates_from_Some (map val l0) (val x0)) as (M & HM & Hb & Hub & _).
  exists M. split; [unfold lift; f_equal; exact HM|].
  intros x t s Hx Ht Hst.
  assert (val x = s + duration t) as <- by (unfold val; by rewrite Ht, Hst).
  apply elem_of_cons in Hx as [->|Hx]; [exact Hb|].
  apply Hub, list_elem_of_fmap. by exists x.
Qed.


Lemma two_tasks_one_resource_lookup x t :
  w_tasks two_tasks_one_resource !! x = Some t -> start_date t = Some monday.
Proof.
  unfold two_tasks_one_resource. cbn [w_tasks]. intros H.
  apply lookup_insert_Some in H as [[_ <-]|[_ H]]; [done|].
  apply lookup_insert_Some in H as [[_ <-]|[_ H]]; [done|].
  rewrite lookup_empty in H. discriminate H.
Qed.

